(** * ModelSharder: the model-sharding pass of shardformer

    A shallow embedding of [colossalai/shardformer/shard/sharder.py] and the
    properties of its transformation pass.

    Python objects are values of [pyval]; a module of the model is a
    [VModule] carrying its class, what [isinstance] reports about it and
    its attributes in order: those bound to modules are its children,
    those bound to tensors its parameters.  The module graph is a tree: no
    module object is reachable along two paths.  Code that mutates an object in place is
    a state transformer that returns the object after the mutation next to
    the outcome, so that what was written before an exception is kept. *)

From Stdlib Require Import ZArith String Ascii List Bool Lia.
From stdpp Require Import base option list strings gmap.

Local Open Scope Z_scope.
Local Open Scope string_scope.

(** ** Python strings *)

Module PyStr.

(** [s.split(".")]: never empty, an empty string gives one empty component. *)
Fixpoint split_dot (s : string) : list string :=
  match s with
  | EmptyString => [EmptyString]
  | String c s' =>
      if Ascii.eqb c "."%char then EmptyString :: split_dot s'
      else match split_dot s' with
           | [] => [String c EmptyString]
           | h :: t => String c h :: t
           end
  end.

(** [s.rfind(".")]: the highest index of a dot, [-1] when there is none. *)
Fixpoint rfind_dot (s : string) : Z :=
  match s with
  | EmptyString => -1
  | String c s' =>
      let r := rfind_dot s' in
      if (0 <=? r)%Z then r + 1
      else if Ascii.eqb c "."%char then 0 else -1
  end.

(** [x[:k]]: a negative bound counts from the end, all bounds are clamped. *)
Definition slice_to (x : string) (k : Z) : string :=
  let n := Z.of_nat (String.length x) in
  let stop := if (k <? 0)%Z then Z.max 0 (n + k) else Z.min k n in
  substring 0 (Z.to_nat stop) x.

(** [".".join(l)] *)
Fixpoint join_dot (l : list string) : string :=
  match l with
  | [] => EmptyString
  | [a] => a
  | a :: rest => a ++ "." ++ join_dot rest
  end.

End PyStr.

(** ** Values *)

Record Tensor := mkTensor { shape : list Z; data : list Z }.

(** What [isinstance(_, nn.Linear)] and [isinstance(_, nn.Embedding)] report. *)
Inductive TorchKind := KLinear | KEmbedding | KOther.

#[local] Set Warnings "-register-all".
Inductive pyval :=
| VNone
| VBool (b : bool)
| VInt (n : Z)
| VStr (s : string)
| VTensor (t : Tensor)
| VModule (cls : string) (kind : TorchKind) (attrs : list (string * pyval)).

Definition is_None (v : pyval) : bool :=
  match v with VNone => true | _ => false end.

Definition TorchKind_eqb (a b : TorchKind) : bool :=
  match a, b with
  | KLinear, KLinear | KEmbedding, KEmbedding | KOther, KOther => true
  | _, _ => false
  end.

(** [isinstance(v, K)] for the two torch classes the sharder asks about. *)
Definition isinstance (v : pyval) (k : TorchKind) : bool :=
  match v with
  | VModule _ kind _ => TorchKind_eqb kind k
  | _ => false
  end.

(** ** Exceptions and outcomes *)

Inductive exn :=
| UnsupportedModelError   (* the NotImplementedError of inject_model *)
| MissingAttributeError   (* the ValueError of shard_one_layer *)
| UnsupportedLayerError   (* the NotImplementedError of shard_one_layer *)
| ShapeMismatchError
| AssertionError
| AttributeError
| TypeError
| UnboundLocalError
| IndexError
| KeyError.

Inductive outcome (A : Type) :=
| Ok (a : A)
| Raise (e : exn).
Arguments Ok {A} a.
Arguments Raise {A} e.

(** A computation over a mutable object of type [S]: the state comes back
    also when an exception is raised. *)
Definition M (S A : Type) : Type := S -> outcome A * S.

Definition ret {S A} (a : A) : M S A := fun s => (Ok a, s).
Definition raise {S A} (e : exn) : M S A := fun s => (Raise e, s).
Definition bind {S A B} (m : M S A) (k : A -> M S B) : M S B :=
  fun s => match m s with
           | (Ok a, s') => k a s'
           | (Raise e, s') => (Raise e, s')
           end.
Definition lift {S A} (o : outcome A) : M S A := fun s => (o, s).
Definition get {S} : M S S := fun s => (Ok s, s).
Definition gets {S A} (proj : S -> A) : M S A := fun s => (Ok (proj s), s).
Definition modify {S} (f : S -> S) : M S unit := fun s => (Ok tt, f s).
Definition assert_ {S} (b : bool) : M S unit :=
  if b then ret tt else raise AssertionError.

Declare Scope py_scope.
Delimit Scope py_scope with py.
Notation "'let!' x ':=' c1 'in' c2" := (bind c1 (fun x => c2))
  (at level 10, x name, c1 at level 100, c2 at level 200) : py_scope.
Notation "'let!' ' pat ':=' c1 'in' c2" :=
  (bind c1 (fun x => match x with pat => c2 end))
  (at level 10, pat pattern, c1 at level 100, c2 at level 200) : py_scope.
Notation "'do!' c1 'in' c2" := (bind c1 (fun _ => c2))
  (at level 10, c1 at level 100, c2 at level 200) : py_scope.

(** A [for] loop whose body may raise: the first exception ends it. *)
Fixpoint for_each {S A} (l : list A) (body : A -> M S unit) : M S unit :=
  match l with
  | [] => ret tt
  | a :: rest => bind (body a) (fun _ => for_each rest body)
  end.

(** ** Attributes *)

Fixpoint assoc_get (a : string) (l : list (string * pyval)) : option pyval :=
  match l with
  | [] => None
  | (k, v) :: rest => if String.eqb k a then Some v else assoc_get a rest
  end.

(** Assignment keeps the position of a name that is there and appends a
    new one. *)
Fixpoint assoc_set (a : string) (v : pyval) (l : list (string * pyval))
  : list (string * pyval) :=
  match l with
  | [] => [(a, v)]
  | (k, w) :: rest =>
      if String.eqb k a then (k, v) :: rest else (k, w) :: assoc_set a v rest
  end.

(** [getattr(obj, a)], [None] for an AttributeError. *)
Definition py_getattr (obj : pyval) (a : string) : option pyval :=
  match obj with
  | VModule _ _ attrs => assoc_get a attrs
  | _ => None
  end.

(** Whether a name is bound, and to a value of some kind. *)
Definition holds (p : pyval -> bool) (bound : option pyval) : bool :=
  match bound with
  | Some v => p v
  | None => false
  end.

Definition is_tensor (v : pyval) : bool :=
  match v with VTensor _ => true | _ => false end.

Definition is_module (v : pyval) : bool :=
  match v with VModule _ _ _ => true | _ => false end.

Fixpoint assoc_del (a : string) (l : list (string * pyval))
  : list (string * pyval) :=
  match l with
  | [] => []
  | (k, w) :: rest =>
      if String.eqb k a then assoc_del a rest else (k, w) :: assoc_del a rest
  end.

(** The checks of [nn.Module.__setattr__], in its order, for the
    assignment of [v] to the name [a] that is bound to [bound].  A module
    keeps its children, its parameters and its other attributes apart: here
    a name bound to a module is a child, a name bound to a tensor is a
    parameter, and a tensor that is assigned is an [nn.Parameter].  A
    parameter is registered under any name but the empty one; a name that
    is a parameter takes another parameter or [None] only; a module is
    taken under any other name; a name that is a child takes another
    module or [None] only.  A name bound to [None] is taken to be a plain
    attribute. *)
Definition refused (a : string) (v : pyval) (bound : option pyval) : option exn :=
  if is_tensor v then
    if String.eqb a "" then Some KeyError else None
  else if holds is_tensor bound then
    if is_None v then None else Some TypeError
  else if is_module v then None
  else if holds is_module bound then
    if is_None v then None else Some TypeError
  else None.

(** Where the binding goes.  A module under a name that is not a child
    yet becomes the last child, the name leaving where it was; any other
    assignment takes the place of the name, or the end when the name is
    new. *)
Definition bind_attr (a : string) (v : pyval) (attrs : list (string * pyval))
  : list (string * pyval) :=
  if is_module v && negb (holds is_module (assoc_get a attrs))
  then assoc_del a attrs ++ [(a, v)]
  else assoc_set a v attrs.

(** A name that is neither a child nor a parameter takes any scalar. *)
Definition takes_scalar (a : string) (attrs : list (string * pyval)) : bool :=
  negb (holds is_tensor (assoc_get a attrs))
  && negb (holds is_module (assoc_get a attrs)).

(** [setattr(obj, a, v)] *)
Definition py_setattr (obj : pyval) (a : string) (v : pyval) : outcome pyval :=
  match obj with
  | VModule c k attrs =>
      match refused a v (assoc_get a attrs) with
      | Some e => Raise e
      | None => Ok (VModule c k (bind_attr a v attrs))
      end
  | _ => Raise AttributeError
  end.

(** Modelled from the spec: the resolution of a dotted path, which the
    helpers [hasattr_], [getattr_] and [setattr_] of [..utils.utils] share
    and which is not part of the source at hand.  The path, split at its
    dots, is resolved one [getattr] at a time over a node's named children
    and fields; not-found is an explicit result. *)
Fixpoint getattr_path (obj : pyval) (attrs : list string) : option pyval :=
  match attrs with
  | [] => Some obj
  | a :: rest =>
      match py_getattr obj a with
      | Some o => getattr_path o rest
      | None => None
      end
  end.

(** Modelled from the spec: the assignment at a dotted path.  All
    components but the last are resolved and the last is assigned on the
    object reached, which is that object mutated in place: here the modules
    on the way are rebuilt around it. *)
Fixpoint setattr_path (obj : pyval) (attrs : list string) (value : pyval)
    (ignore : bool) : outcome pyval :=
  match attrs with
  | [] => Raise IndexError
  | [a] => py_setattr obj a value
  | a :: rest =>
      match py_getattr obj a with
      | Some o =>
          match setattr_path o rest value ignore with
          | Ok o' =>
              match obj with
              | VModule c k l => Ok (VModule c k (assoc_set a o' l))
              | _ => Ok obj
              end
          | Raise e => Raise e
          end
      | None => if ignore then Ok obj else Raise AttributeError
      end
  end.

(** Modelled from the spec: [hasattr_] of [..utils.utils], which is not
    part of the source at hand: whether every component of the dotted path
    resolves. *)
Definition hasattr_ (obj : pyval) (attr : string) : bool :=
  match getattr_path obj (PyStr.split_dot attr) with
  | Some _ => true
  | None => false
  end.

(** Modelled from the spec: [getattr_] of [..utils.utils], which is not
    part of the source at hand: the value the dotted path resolves to;
    when it does not resolve, [None] if [ignore] is set and an
    AttributeError otherwise. *)
Definition getattr_ (obj : pyval) (attr : string) (ignore : bool) : outcome pyval :=
  match getattr_path obj (PyStr.split_dot attr) with
  | Some v => Ok v
  | None => if ignore then Ok VNone else Raise AttributeError
  end.

(** Modelled from the spec: [setattr_] of [..utils.utils], which is not
    part of the source at hand: the last component of the dotted path is
    assigned on the object that the components before it resolve to; when
    they do not resolve, nothing is done if [ignore] is set and an
    AttributeError is raised otherwise. *)
Definition setattr_ (obj : pyval) (attr : string) (value : pyval) (ignore : bool)
  : outcome pyval :=
  setattr_path obj (PyStr.split_dot attr) value ignore.

(** [setattr_] as a statement: it mutates at its very end or not at all. *)
Definition setattr_stmt (attr : string) (value : pyval) (ignore : bool)
  : M pyval unit :=
  fun obj => match setattr_ obj attr value ignore with
             | Ok obj' => (Ok tt, obj')
             | Raise e => (Raise e, obj)
             end.

(** ** Tensors as the sharder reads them *)

(** [v.shape]: only tensors have one. *)
Definition shape_of (v : pyval) : outcome (list Z) :=
  match v with
  | VTensor t => Ok (shape t)
  | _ => Raise AttributeError
  end.

(** [size[i]] *)
Definition index (size : list Z) (i : nat) : outcome Z :=
  match nth_error size i with
  | Some n => Ok n
  | None => Raise IndexError
  end.

(** [nn.Parameter(v)]: the tensor itself, registered as a parameter. *)
Definition nn_Parameter (v : pyval) : outcome pyval :=
  match v with
  | VTensor t => Ok (VTensor t)
  | _ => Raise TypeError
  end.

(** ** The policy's slice instructions *)

(** Modelled from the spec: the classes of slice instructions of
    [..policies.basepolicy]: without an axis, column-wise, row-wise. *)
Inductive PolicyClass := Layer | Col_Layer | Row_Layer.

Definition class_name (c : PolicyClass) : string :=
  match c with
  | Layer => "Layer"
  | Col_Layer => "Col_Layer"
  | Row_Layer => "Row_Layer"
  end.

Module PolicyLayer.
(** Modelled from the spec: the slice instructions of
    [..policies.basepolicy], which is not part of the source at hand, with
    the fields that [shard_one_layer] reads from them.  The [gather_output]
    field exists on [Col_Layer] objects only and is read from those only. *)
Record t := mk {
  cls : PolicyClass;
  weight : option string;
  bias : option string;
  replace_layer : option string;   (* the replacement class, by its __name__ *)
  ignore : bool;
  gather_output : bool
}.
End PolicyLayer.

(** The arguments of a replacement layer's constructor call. *)
Inductive CtorArgs :=
| LinearArgs (a b : Z) (bias : bool) (gather_output : option bool)
| EmbeddingArgs (a b : Z) (padding_idx : pyval).

Abbreviation BindingMap := (gmap string (pyval * pyval)).

Module Frame.
(** What one call of [shard_one_layer] works on: the layer, the sharder's
    binding map, and the two local variables that live across the
    iterations of its loops ([None]: not bound yet). *)
Record t := mk {
  org_layer : pyval;
  binding_map : BindingMap;
  gather_output : option bool;
  replace_layer : option pyval
}.
Definition with_org_layer (o : pyval) (fr : t) : t :=
  mk o (binding_map fr) (gather_output fr) (replace_layer fr).
Definition with_binding_map (bm : BindingMap) (fr : t) : t :=
  mk (org_layer fr) bm (gather_output fr) (replace_layer fr).
Definition with_gather_output (g : bool) (fr : t) : t :=
  mk (org_layer fr) (binding_map fr) (Some g) (replace_layer fr).
Definition with_replace_layer (rl : pyval) (fr : t) : t :=
  mk (org_layer fr) (binding_map fr) (gather_output fr) (Some rl).
Definition init (o : pyval) (bm : BindingMap) : t := mk o bm None None.
End Frame.

(** ** set_param and set_layer_size *)

Local Open Scope py_scope.

(** What [layer_attr == ""] and [layer_attr + ".weight"] need of
    [layer_attr]: on anything but a [str] the comparison is false and the
    concatenation a TypeError. *)
Definition str_operand (layer_attr : pyval) : outcome string :=
  match layer_attr with
  | VStr s => Ok s
  | _ => Raise TypeError
  end.

(** ["weight" if layer_attr == "" else layer_attr + ".weight"] *)
Definition param_path (layer_attr : string) (name : string) : string :=
  if String.eqb layer_attr "" then name else layer_attr ++ "." ++ name.

(** Lines 237-238: one iteration of the loop of [set_layer_size]. *)
Definition set_layer_size_attr (layer_attr : string) (size : list Z)
    (i : nat) (attr : string) : M pyval unit :=
  let! layer := get in
  if hasattr_ layer (layer_attr ++ "." ++ attr) then
    let! n := lift (index size i) in
    setattr_stmt (layer_attr ++ "." ++ attr) (VInt n) false
  else ret tt.

(** Lines 235-238, on the layer. *)
Definition set_layer_size (layer_attr : string) (size : list Z) : M pyval unit :=
  let attrs := ["out_features"; "in_features"] in
  for_each (imap (fun i attr => (i, attr)) attrs) (fun '(i, attr) =>
    set_layer_size_attr layer_attr size i attr).

(** Lines 217-222, on the layer.  [layer_attr] is whatever the caller
    passes in its place. *)
Definition set_param (layer_attr : pyval) (weight bias : pyval) : M pyval unit :=
  do! assert_ (negb (is_None weight) || negb (is_None bias)) in
  do! (if is_None weight then ret tt
       else
         let! s := lift (str_operand layer_attr) in
         let! p := lift (nn_Parameter weight) in
         do! setattr_stmt (param_path s "weight") p false in
         let! size := lift (shape_of weight) in
         set_layer_size s size) in
  if is_None bias then ret tt
  else
    let! s := lift (str_operand layer_attr) in
    let! p := lift (nn_Parameter bias) in
    setattr_stmt (param_path s "bias") p false.

(** ** shard_one_layer *)

(** [weight_attr or bias_attr] *)
Definition py_or (a b : option string) : option string :=
  match a with
  | Some s => if String.eqb s "" then b else Some s
  | None => b
  end.

(** [(lambda x: x[:x.rfind(".")])(weight_attr or bias_attr)] *)
Definition layer_attr_of (weight_attr bias_attr : option string) : outcome string :=
  match py_or weight_attr bias_attr with
  | Some x => Ok (PyStr.slice_to x (PyStr.rfind_dot x))
  | None => Raise AttributeError
  end.

Section Sharder.

(** The collaborators of the sharder: the slicer, the constructors of the
    replacement layers and the process environment. *)
Variable slice_weight_bias :
  pyval -> pyval -> PolicyClass -> outcome (pyval * pyval).
Variable construct : string -> CtorArgs -> pyval.
Variable environ_RANK : option string.

(** Lines 153-163: one of [weight], [bias] is looked up. *)
Definition resolve (attr : option string) (ignore : bool) : M Frame.t pyval :=
  match attr with
  | None => ret VNone
  | Some a =>
      let! org_layer := gets Frame.org_layer in
      if hasattr_ org_layer a
      then lift (getattr_ org_layer a false)
      else if negb ignore then raise MissingAttributeError
      else ret VNone
  end.

(** Line 175: the arguments of the [print] call are evaluated. *)
Definition print_shapes (weight bias : pyval) : M Frame.t unit :=
  match environ_RANK with
  | None => raise KeyError
  | Some _ =>
      do! lift (shape_of weight) in
      if is_None bias then ret tt
      else do! lift (shape_of bias) in ret tt
  end.

(** Lines 177-178 *)
Definition save_binding (binding_layers : list string) (weight bias : pyval)
  : M Frame.t unit :=
  for_each binding_layers (fun binding_layer =>
    modify (fun fr =>
      Frame.with_binding_map
        (<[binding_layer := (weight, bias)]> (Frame.binding_map fr)) fr)).

(** A method call on [org_layer]. *)
Definition on_org_layer (m : M pyval unit) : M Frame.t unit :=
  fun fr =>
    let '(r, o) := m (Frame.org_layer fr) in
    (r, Frame.with_org_layer o fr).

(** Reading a local variable that may not be bound. *)
Definition read_local {A} (proj : Frame.t -> option A) : M Frame.t A :=
  let! v := gets proj in
  match v with
  | Some a => ret a
  | None => raise UnboundLocalError
  end.

(** Lines 188-189 and 192-193.  The call is
    [self.set_param(replace_layer, weight, bias)] and [set_param] has the
    parameters [(layer, layer_attr, weight, bias)]: the sliced weight is
    bound to [layer_attr], the sliced bias to [weight], and [bias] keeps
    its default [None].  The object [set_param] works on is the one just
    stored at [layer_attr], so what it would write is seen there. *)
Definition install_replacement (layer_attr : string) (ignore : bool)
    (weight bias : pyval) : M Frame.t unit :=
  let! replace_layer := read_local Frame.replace_layer in
  do! on_org_layer (setattr_stmt layer_attr replace_layer ignore) in
  fun fr =>
    let '(r, replace_layer') := set_param weight bias VNone replace_layer in
    let org' :=
      match setattr_ (Frame.org_layer fr) layer_attr replace_layer' ignore with
      | Ok o => o
      | Raise _ => Frame.org_layer fr
      end in
    (r, Frame.with_org_layer org' fr).

(** Lines 181-198 *)
Definition replace_or_install (policy_layer : PolicyLayer.t)
    (layer_attr : string) (weight bias : pyval) : M Frame.t unit :=
  let ignore := PolicyLayer.ignore policy_layer in
  match PolicyLayer.replace_layer policy_layer with
  | Some replace_layer_cls =>
      let! org_layer := gets Frame.org_layer in
      let! target := lift (getattr_ org_layer layer_attr false) in
      if isinstance target KLinear then
        do! (if String.eqb replace_layer_cls "Linear1D_Row" then
               let! size := lift (shape_of weight) in
               let! a := lift (index size 1) in
               let! b := lift (index size 0) in
               modify (Frame.with_replace_layer
                 (construct replace_layer_cls
                    (LinearArgs a b (negb (is_None bias)) None)))
             else if String.eqb replace_layer_cls "Linear1D_Col" then
               let! size := lift (shape_of weight) in
               let! a := lift (index size 0) in
               let! b := lift (index size 1) in
               let! gather_output := read_local Frame.gather_output in
               modify (Frame.with_replace_layer
                 (construct replace_layer_cls
                    (LinearArgs a b (negb (is_None bias)) (Some gather_output))))
             else ret tt) in
        install_replacement layer_attr ignore weight bias
      else
        let! target := lift (getattr_ org_layer layer_attr false) in
        if isinstance target KEmbedding then
          let! size := lift (shape_of weight) in
          let! a := lift (index size 0) in
          let! b := lift (index size 1) in
          let! padding_idx :=
            lift (getattr_ org_layer (layer_attr ++ ".padding_idx") true) in
          do! modify (Frame.with_replace_layer
                (construct replace_layer_cls (EmbeddingArgs a b padding_idx))) in
          install_replacement layer_attr ignore weight bias
        else raise UnsupportedLayerError
  | None =>
      on_org_layer (set_param (VStr layer_attr) weight bias)
  end.

(** Lines 149-151 *)
Definition bind_gather_output (policy_layer : PolicyLayer.t) : M Frame.t unit :=
  if String.eqb (class_name (PolicyLayer.cls policy_layer)) "Col_Layer"
  then modify (Frame.with_gather_output (PolicyLayer.gather_output policy_layer))
  else ret tt.

(** Lines 165-178, with the [weight] and [bias] that were looked up:
    [None] when the instruction is skipped by [continue], else the owning
    path and the sliced pair. *)
Definition slice_and_save (binding_layers : list string)
    (policy_layer : PolicyLayer.t) (weight bias : pyval)
  : M Frame.t (option (string * pyval * pyval)) :=
  if is_None weight && is_None bias && PolicyLayer.ignore policy_layer
  then ret None
  else
    do! assert_ (negb (is_None weight) || negb (is_None bias)) in
    let! layer_attr :=
      lift (layer_attr_of (PolicyLayer.weight policy_layer)
              (PolicyLayer.bias policy_layer)) in
    let! '(weight, bias) :=
      lift (slice_weight_bias weight bias (PolicyLayer.cls policy_layer)) in
    do! print_shapes weight bias in
    do! save_binding binding_layers weight bias in
    ret (Some (layer_attr, weight, bias)).

(** Lines 143-178 *)
Definition prepare (binding_layers : list string)
    (policy_layer : PolicyLayer.t)
  : M Frame.t (option (string * pyval * pyval)) :=
  do! bind_gather_output policy_layer in
  let! weight :=
    resolve (PolicyLayer.weight policy_layer) (PolicyLayer.ignore policy_layer) in
  let! bias :=
    resolve (PolicyLayer.bias policy_layer) (PolicyLayer.ignore policy_layer) in
  slice_and_save binding_layers policy_layer weight bias.

(** Lines 180-198, or nothing after [continue]. *)
Definition finish (policy_layer : PolicyLayer.t)
    (sliced : option (string * pyval * pyval)) : M Frame.t unit :=
  match sliced with
  | None => ret tt
  | Some (layer_attr, weight, bias) =>
      replace_or_install policy_layer layer_attr weight bias
  end.

(** Lines 143-198: the body of the inner loop. *)
Definition shard_policy_layer (binding_layers : list string)
    (policy_layer : PolicyLayer.t) : M Frame.t unit :=
  let! sliced := prepare binding_layers policy_layer in
  finish policy_layer sliced.

(** The two loops of [shard_one_layer]; a [func] of [param_funcs] is given
    by the list of policy layers it returns. *)
Definition shard_one_layer_loops (param_funcs : list (list PolicyLayer.t))
    (binding_layers : list string) : M Frame.t unit :=
  for_each param_funcs (fun policy_layers =>
    for_each policy_layers (shard_policy_layer binding_layers)).

Definition shard_one_layer (param_funcs : list (list PolicyLayer.t))
    (binding_layers : list string) : M (pyval * BindingMap) unit :=
  fun '(org_layer, binding_map) =>
    let '(r, fr) :=
      shard_one_layer_loops param_funcs binding_layers
        (Frame.init org_layer binding_map) in
    (r, (Frame.org_layer fr, Frame.binding_map fr)).

End Sharder.

(** The value of the local [gather_output] after an instruction, from its
    value before: only a [Col_Layer] instruction assigns it. *)
Definition gather_output_after (before : option bool) (policy_layer : PolicyLayer.t)
  : option bool :=
  match PolicyLayer.cls policy_layer with
  | Col_Layer => Some (PolicyLayer.gather_output policy_layer)
  | _ => before
  end.

(** The flag of the last [Col_Layer] instruction among those processed in
    one call, [None] when there was none. *)
Definition last_gather_output (processed : list PolicyLayer.t) : option bool :=
  fold_left gather_output_after processed None.

(** The binding map after the pair [(weight, bias)] was recorded for every
    binding layer. *)
Definition record_binding (binding_layers : list string) (weight bias : pyval)
    (bm : BindingMap) : BindingMap :=
  fold_left (fun m binding_layer => <[binding_layer := (weight, bias)]> m)
    binding_layers bm.

(** The frame after lines 149-151 of an instruction. *)
Definition after_gather_output (policy_layer : PolicyLayer.t) (fr : Frame.t)
  : Frame.t :=
  Frame.mk (Frame.org_layer fr) (Frame.binding_map fr)
    (gather_output_after (Frame.gather_output fr) policy_layer)
    (Frame.replace_layer fr).

(** ** Predicates on the computations of one call *)

(** A computation on a frame keeps a field of the frame. *)
Definition keeps {A B} (proj : Frame.t -> B) (m : M Frame.t A) : Prop :=
  forall fr, proj (snd (m fr)) = proj fr.

(** A computation that never completes. *)
Definition always_raises {A} (m : M Frame.t A) : Prop :=
  forall fr, exists e fr', m fr = (Raise e, fr').

(** A frame with its binding map left out. *)
Definition forget (fr : Frame.t) : Frame.t := Frame.with_binding_map ∅ fr.

(** Two computations that do the same, the binding map apart, on frames
    that are the same, the binding map apart. *)
Definition sim {A} (m1 m2 : M Frame.t A) : Prop :=
  forall fr1 fr2, forget fr1 = forget fr2 ->
    fst (m1 fr1) = fst (m2 fr2) /\ forget (snd (m1 fr1)) = forget (snd (m2 fr2)).

(** ** The traversal *)

Module ArgPolicy.
(** Modelled from the spec: a value of the dict that the policy's
    [argument_policy] returns, with the three fields that [replace_layer]
    reads; a [func] of [param_funcs] is given by the list it returns. *)
Record t := mk {
  attr_dict : list (string * pyval);
  param_funcs : list (list PolicyLayer.t);
  binding_layers : list string
}.
End ArgPolicy.

(** [v.__class__], by name. *)
Definition class_of (v : pyval) : string :=
  match v with
  | VModule c _ _ => c
  | VNone => "NoneType"
  | VBool _ => "bool"
  | VInt _ => "int"
  | VStr _ => "str"
  | VTensor _ => "Tensor"
  end.

(** [for name, child in layer.named_children(): body(child)] over the
    attributes of [layer]: the children are the attributes that are
    modules, in their order.  The body mutates the child in place, so the
    child as the body left it takes the place of the child, also when the
    body raised and ended the loop. *)
Definition for_named_children
    (body : pyval -> BindingMap -> outcome unit * (pyval * BindingMap))
  : list (string * pyval) -> BindingMap
    -> outcome unit * (list (string * pyval) * BindingMap) :=
  fix go (l : list (string * pyval)) (bm : BindingMap) {struct l} :=
    match l with
    | [] => (Ok tt, ([], bm))
    | (name, child) :: rest =>
        if is_module child then
          match body child bm with
          | (Ok _, (child', bm1)) =>
              let '(r2, (rest', bm2)) := go rest bm1 in
              (r2, ((name, child') :: rest', bm2))
          | (Raise e, (child', bm1)) => (Raise e, ((name, child') :: rest, bm1))
          end
        else
          let '(r2, (rest', bm2)) := go rest bm in
          (r2, ((name, child) :: rest', bm2))
    end.

(** The overrides of a rule as the specification has them applied to a
    node: one after the other, by [setattr_] with [ignore] set; the first
    one that raises ends the pass, the ones before it applied. *)
Fixpoint apply_overrides (attr_dict : list (string * pyval)) (node : pyval)
  : outcome unit * pyval :=
  match attr_dict with
  | [] => (Ok tt, node)
  | (k, v) :: rest =>
      match setattr_ node k v true with
      | Ok node' => apply_overrides rest node'
      | Raise e => (Raise e, node)
      end
  end.

(** The specification's "recurse into each child": the children of a
    node, its attributes that are modules, are visited from the first to
    the last, a later one with what the earlier ones made of the binding
    map; once a visit has raised, nothing more is visited. *)
Definition into_child
    (visit : pyval -> BindingMap -> outcome unit * (pyval * BindingMap))
    (sofar : outcome unit * (list (string * pyval) * BindingMap))
    (a : string * pyval)
  : outcome unit * (list (string * pyval) * BindingMap) :=
  let '(r, (seen, bm)) := sofar in
  match r with
  | Raise _ => (r, ((seen ++ [a])%list, bm))
  | Ok _ =>
      if is_module (snd a) then
        let '(r', (child', bm')) := visit (snd a) bm in
        (r', ((seen ++ [(fst a, child')])%list, bm'))
      else (r, ((seen ++ [a])%list, bm))
  end.

Definition into_children
    (visit : pyval -> BindingMap -> outcome unit * (pyval * BindingMap))
    (attrs : list (string * pyval)) (bm : BindingMap)
  : outcome unit * (list (string * pyval) * BindingMap) :=
  fold_left (into_child visit) attrs (Ok tt, ([], bm)).

Section Traversal.

Variable slice_weight_bias :
  pyval -> pyval -> PolicyClass -> outcome (pyval * pyval).
Variable construct : string -> CtorArgs -> pyval.
Variable environ_RANK : option string.

(** Lines 114-118: what is done to a child of the class looked for. *)
Definition shard_child (attr_dict : list (string * pyval))
    (param_funcs : list (list PolicyLayer.t)) (binding_layers : list string)
  : M (pyval * BindingMap) unit :=
  do! for_each attr_dict (fun '(k, v) =>
        fun '(child, bm) =>
          let '(r, child') := setattr_stmt k v true child in
          (r, (child', bm))) in
  shard_one_layer slice_weight_bias construct environ_RANK
    param_funcs binding_layers.

(** Lines 111-122.  [named_children] yields the attributes that are
    modules, in their order; a child is mutated in place, so the layer
    holds the mutated child afterwards, also when an exception ended the
    loop. *)
Fixpoint reverse_replace_layer (origin_cls : string)
    (attr_dict : list (string * pyval))
    (param_funcs : list (list PolicyLayer.t)) (binding_layers : list string)
    (layer : pyval) (bm : BindingMap) {struct layer}
  : outcome unit * (pyval * BindingMap) :=
  match layer with
  | VModule c k attrs =>
      let '(r, (attrs', bm')) :=
        for_named_children
          (fun child bm =>
             if String.eqb (class_of child) origin_cls
             then shard_child attr_dict param_funcs binding_layers (child, bm)
             else reverse_replace_layer origin_cls attr_dict param_funcs
                    binding_layers child bm)
          attrs bm in
      (r, (VModule c k attrs', bm'))
  | _ => (Raise AttributeError, (layer, bm))
  end.

(** The traversal as the specification words it: every node of the tree,
    the root included, is tested against the class looked for.  To a node
    of that class every override is applied, then it is sharded, and it is
    not entered; any other node is entered, child by child in their order.
    It is written on its own, with [apply_overrides] and [into_children],
    to be compared with the code. *)
Fixpoint traverse_spec (origin_cls : string)
    (attr_dict : list (string * pyval))
    (param_funcs : list (list PolicyLayer.t)) (binding_layers : list string)
    (node : pyval) (bm : BindingMap) {struct node}
  : outcome unit * (pyval * BindingMap) :=
  match node with
  | VModule c k attrs =>
      if String.eqb c origin_cls
      then
        match apply_overrides attr_dict node with
        | (Ok _, node') =>
            shard_one_layer slice_weight_bias construct environ_RANK
              param_funcs binding_layers (node', bm)
        | (Raise e, node') => (Raise e, (node', bm))
        end
      else
        let '(r, (attrs', bm')) :=
          into_children
            (traverse_spec origin_cls attr_dict param_funcs binding_layers)
            attrs bm in
        (r, (VModule c k attrs', bm'))
  | _ => (Raise AttributeError, (node, bm))
  end.

(** Lines 83-91; [argument_policies] is the dict the policy returns, in
    its order. *)
Definition replace_layer (argument_policies : list (string * ArgPolicy.t))
  : M (pyval * BindingMap) unit :=
  for_each argument_policies (fun argument_policy =>
    let origin_layer_cls := fst argument_policy in
    let attr_dict := ArgPolicy.attr_dict (snd argument_policy) in
    let param_funcs := ArgPolicy.param_funcs (snd argument_policy) in
    let binding_layers := ArgPolicy.binding_layers (snd argument_policy) in
    fun '(model, bm) =>
      reverse_replace_layer origin_layer_cls attr_dict param_funcs
        binding_layers model bm).

End Traversal.

(** Two policies with the same rules, the binding layers apart. *)
Definition same_rules (p1 p2 : string * ArgPolicy.t) : Prop :=
  fst p1 = fst p2
  /\ ArgPolicy.attr_dict (snd p1) = ArgPolicy.attr_dict (snd p2)
  /\ ArgPolicy.param_funcs (snd p1) = ArgPolicy.param_funcs (snd p2).

(** The reuse of bound tensors as the specification words it: after the
    pass, a layer whose class is a binding target has as its weight and
    bias the pair recorded for its class in the binding map. *)
Definition bound_layers_reuse (binding_layers : list string)
    (model : pyval) (bm : BindingMap) : Prop :=
  forall path node k,
    In k binding_layers ->
    getattr_path model path = Some node ->
    is_module node = true ->
    class_of node = k ->
    exists w b, bm !! k = Some (w, b)
                /\ py_getattr node "weight" = Some w
                /\ py_getattr node "bias" = Some b.

(** ** inject_model *)

Module PyClass.
(** A class object: its identity, its own [__dict__] in key order, and
    the attributes it inherits. *)
Record t (V : Type) := mk {
  name : string;
  dict : list (string * V);
  inherited : list (string * V)
}.
Arguments mk {V}.
Arguments name {V}.
Arguments dict {V}.
Arguments inherited {V}.

(** The attributes that [type] gives to every class and keeps read-only.
    [__dict__] is among them, and it is also a key of the own [__dict__] of
    every class that gives its instances a [__dict__], which is every class
    whose bases do not do so already. *)
Definition read_only (key : string) : bool :=
  existsb (String.eqb key)
    ["__dict__"; "__mro__"; "__base__"; "__basicsize__"; "__itemsize__";
     "__flags__"; "__weakrefoffset__"; "__dictoffset__"; "__text_signature__"].

Section Attr.
Context {V : Type}.

Fixpoint find (key : string) (l : list (string * V)) : option V :=
  match l with
  | [] => None
  | (k, v) :: rest => if String.eqb k key then Some v else find key rest
  end.

Fixpoint update (key : string) (v : V) (l : list (string * V))
  : list (string * V) :=
  match l with
  | [] => [(key, v)]
  | (k, w) :: rest =>
      if String.eqb k key then (k, v) :: rest else (k, w) :: update key v rest
  end.

(** [getattr(cls, key)]: the class's own definition before an
    inherited one. *)
Definition getattr (c : t V) (key : string) : option V :=
  match find key (dict c) with
  | Some v => Some v
  | None => find key (inherited c)
  end.

(** [hasattr(cls, key)]: what [type] gives to every class is there
    whatever the class defines. *)
Definition hasattr (c : t V) (key : string) : bool :=
  read_only key || match getattr c key with Some _ => true | None => false end.

(** [setattr(cls, key, v)]: [type] refuses the names it keeps read-only
    with an AttributeError; any other name is written into the class's own
    [__dict__]. *)
Definition setattr (key : string) (v : V) (c : t V) : outcome (t V) :=
  if read_only key then Raise AttributeError
  else Ok (mk (name c) (update key v (dict c)) (inherited c)).
End Attr.
End PyClass.

Section Inject.
Context {V : Type}.

(** Lines 62-68: the loop over the keys [ks] of the shard-aware class.  An
    exception of [setattr] ends the loop with the keys before it rebound. *)
Definition rebind_keys (shard_model_cls : PyClass.t V) (ks : list string)
  : M (PyClass.t V) unit :=
  for_each ks (fun key =>
    let! model_class := get in
    if PyClass.hasattr model_class key then
      match PyClass.getattr shard_model_cls key with
      | Some v =>
          fun model_class =>
            match PyClass.setattr key v model_class with
            | Ok model_class' => (Ok tt, model_class')
            | Raise e => (Raise e, model_class)
            end
      | None => raise AttributeError
      end
    else ret tt).

(** Lines 56-70, on the class object of the model. *)
Definition inject_model (inject_policy : PyClass.t V * PyClass.t V)
  : M (PyClass.t V) unit :=
  let org_model_cls := fst inject_policy in
  let shard_model_cls := snd inject_policy in
  let! model_class := get in
  if String.eqb (PyClass.name model_class) (PyClass.name org_model_cls) then
    rebind_keys shard_model_cls (map fst (PyClass.dict shard_model_cls))
  else raise UnsupportedModelError.

End Inject.

(** ** shard *)

Section Shard.
Context {V : Type}.
Variable slice_weight_bias :
  pyval -> pyval -> PolicyClass -> outcome (pyval * pyval).
Variable construct : string -> CtorArgs -> pyval.
Variable environ_RANK : option string.

(** Lines 40-42, on the class of the model, the model and the binding map:
    [inject_model], then [replace_layer] when that has returned. *)
Definition shard (inject_policy : PyClass.t V * PyClass.t V)
    (argument_policies : list (string * ArgPolicy.t))
  : M (PyClass.t V * (pyval * BindingMap)) unit :=
  fun '(model_class, st) =>
    match inject_model inject_policy model_class with
    | (Ok _, model_class') =>
        let '(r, st') :=
          replace_layer slice_weight_bias construct environ_RANK
            argument_policies st in
        (r, (model_class', st'))
    | (Raise e, model_class') => (Raise e, (model_class', st))
    end.

End Shard.

(** ** A slicer and constructors to run the sharder with *)

Module Collaborators.

Fixpoint chunks (n : nat) (fuel : nat) (l : list Z) : list (list Z) :=
  match fuel with
  | O => []
  | S fuel' =>
      match l with
      | [] => []
      | _ => take n l :: chunks n fuel' (drop n l)
      end
  end.

Definition product (l : list Z) : Z := fold_right Z.mul 1 l.

(** The chunk of index [rank] among [world_size] equal chunks of the
    first dimension. *)
Definition slice_first (world_size rank : Z) (t : Tensor) : outcome Tensor :=
  match shape t with
  | [] => Raise IndexError
  | r :: rest =>
      if (world_size <=? 0)%Z || negb (r mod world_size =? 0)%Z
      then Raise ShapeMismatchError
      else
        let rows := r / world_size in
        let width := product rest in
        Ok (mkTensor (rows :: rest)
              (take (Z.to_nat (rows * width))
                 (drop (Z.to_nat (rank * rows * width)) (data t))))
  end.

(** The same for the last dimension. *)
Definition slice_last (world_size rank : Z) (t : Tensor) : outcome Tensor :=
  match rev (shape t) with
  | [] => Raise IndexError
  | c :: front =>
      if (world_size <=? 0)%Z || negb (c mod world_size =? 0)%Z
      then Raise ShapeMismatchError
      else
        let cols := c / world_size in
        Ok (mkTensor (rev (cols :: front))
              (concat
                 (map (fun row => take (Z.to_nat cols)
                                    (drop (Z.to_nat (rank * cols)) row))
                    (chunks (Z.to_nat c) (length (data t)) (data t)))))
  end.

Definition slice_value (f : Tensor -> outcome Tensor) (v : pyval) : outcome pyval :=
  match v with
  | VNone => Ok VNone
  | VTensor t => match f t with Ok t' => Ok (VTensor t') | Raise e => Raise e end
  | _ => Raise TypeError
  end.

(** Modelled from the spec: [Slicer.slice_weight_bias] of [.slicer], which
    is not part of the source at hand.  Row-wise slicing takes the chunk
    of the current partition along the first dimension of the weight and
    of the bias, column-wise slicing along the last dimension of the
    weight and leaves the bias as it is; a dimension that the partition
    count does not divide is a ShapeMismatchError; [None] passes through;
    an instruction without an axis slices nothing. *)
Definition slice_weight_bias (world_size rank : Z)
    (weight bias : pyval) (policy_layer_cls : PolicyClass)
  : outcome (pyval * pyval) :=
  match policy_layer_cls with
  | Layer => Ok (weight, bias)
  | Row_Layer =>
      match slice_value (slice_first world_size rank) weight with
      | Ok w =>
          match slice_value (slice_first world_size rank) bias with
          | Ok b => Ok (w, b)
          | Raise e => Raise e
          end
      | Raise e => Raise e
      end
  | Col_Layer =>
      match slice_value (slice_last world_size rank) weight with
      | Ok w => Ok (w, bias)
      | Raise e => Raise e
      end
  end.

Definition flag (g : option bool) : pyval :=
  match g with Some b => VBool b | None => VNone end.

(** Modelled from the spec: the constructors of the replacement layers of
    [colossalai.nn], which are not part of the source at hand.  The
    linear kind takes [(rows, cols, bias, gather_output)], the embedding
    kind [(num_embeddings, embedding_dim, padding_idx)]; the new layer
    has [weight] and [bias] attributes to be set and keeps the arguments
    it was built with. *)
Definition construct (cls : string) (args : CtorArgs) : pyval :=
  match args with
  | LinearArgs a b bias gather_output =>
      VModule cls KOther
        [("weight", VNone); ("bias", VNone); ("rows", VInt a); ("cols", VInt b);
         ("use_bias", VBool bias); ("gather_output", flag gather_output)]
  | EmbeddingArgs a b padding_idx =>
      VModule cls KOther
        [("weight", VNone); ("num_embeddings", VInt a);
         ("embedding_dim", VInt b); ("padding_idx", padding_idx)]
  end.

End Collaborators.

(** ** A small model *)

Module Sample.

Definition w43 : Tensor :=
  mkTensor [4; 3] [1; 2; 3; 4; 5; 6; 7; 8; 9; 10; 11; 12].
Definition b4 : Tensor := mkTensor [4] [10; 20; 30; 40].
Definition w22 : Tensor := mkTensor [2; 2] [9; 9; 9; 9].
Definition e24 : Tensor := mkTensor [2; 4] [1; 2; 3; 4; 5; 6; 7; 8].

Definition linear (w : Tensor) (b : pyval) : pyval :=
  VModule "Linear" KLinear
    [("in_features", VInt 3); ("out_features", VInt 4);
     ("weight", VTensor w); ("bias", b)].

Definition embedding (w : Tensor) : pyval :=
  VModule "Embedding" KEmbedding [("weight", VTensor w); ("padding_idx", VInt 0)].

Definition norm : pyval :=
  VModule "LayerNorm" KOther [("weight", VTensor b4)].

Definition block : pyval :=
  VModule "Block" KOther
    [("dense", linear w43 (VTensor b4)); ("norm", norm);
     ("word_embeddings", embedding e24)].

Definition head : pyval :=
  VModule "Head" KOther [("weight", VTensor w22); ("bias", VNone)].

Definition model : pyval :=
  VModule "Model" KOther [("block", block); ("head", head)].

(** Two partitions, this process is the first. *)
Definition slicer := Collaborators.slice_weight_bias 2 0.
Definition RANK : option string := Some "0".

Definition instr (c : PolicyClass) (w b : option string) (r : option string)
    (ig g : bool) : PolicyLayer.t :=
  PolicyLayer.mk c w b r ig g.

Definition run_one (binding_layers : list string) (pl : PolicyLayer.t)
    (fr : Frame.t) : outcome unit * Frame.t :=
  shard_policy_layer slicer Collaborators.construct RANK binding_layers pl fr.

(** The instructions of the runs below. *)
Definition row_dense : PolicyLayer.t :=
  instr Row_Layer (Some "dense.weight") (Some "dense.bias") None false false.
Definition row_dense_replaced : PolicyLayer.t :=
  instr Row_Layer (Some "dense.weight") (Some "dense.bias")
    (Some "Linear1D_Row") false false.
Definition col_crossattention : PolicyLayer.t :=
  instr Col_Layer (Some "crossattention.weight") (Some "crossattention.bias")
    None true true.
Definition row_dense_to_col : PolicyLayer.t :=
  instr Row_Layer (Some "dense.weight") None (Some "Linear1D_Col") false false.
Definition row_crossattention : PolicyLayer.t :=
  instr Row_Layer (Some "crossattention.weight") None None false false.

(** The sliced pair of [dense] on this partition. *)
Definition w23 : Tensor := mkTensor [2; 3] [1; 2; 3; 4; 5; 6].
Definition b2 : Tensor := mkTensor [2] [10; 20].

(** One rule: blocks are sharded, and the head is bound to them. *)
Definition policy : list (string * ArgPolicy.t) :=
  [("Block", ArgPolicy.mk [("chunk_size", VInt 1)] [[row_dense]] ["Head"])].
Definition policy_unbound : list (string * ArgPolicy.t) :=
  [("Block", ArgPolicy.mk [("chunk_size", VInt 1)] [[row_dense]] [])].

Definition run_pass (aps : list (string * ArgPolicy.t))
  : M (pyval * BindingMap) unit :=
  replace_layer slicer Collaborators.construct RANK aps.

(** Classes for [inject_model], a definition being given by its name. *)
Definition BertForMaskedLM : PyClass.t string :=
  PyClass.mk "BertForMaskedLM"
    [("__init__", "BertForMaskedLM.__init__");
     ("forward", "BertForMaskedLM.forward")]
    [("parameters", "Module.parameters")].
Definition BertForMaskedLM_ : PyClass.t string :=
  PyClass.mk "BertForMaskedLM_"
    [("forward", "BertForMaskedLM_.forward");
     ("parallel_loss", "BertForMaskedLM_.parallel_loss")]
    [("parameters", "Module.parameters")].
Definition GPT2LMHeadModel : PyClass.t string :=
  PyClass.mk "GPT2LMHeadModel"
    [("forward", "GPT2LMHeadModel.forward")]
    [("parameters", "Module.parameters")].

(** A model class and a shard-aware class that is written on its own, not
    as a subclass of the model class: its [__dict__] has the key
    [__dict__]. *)
Definition T5Model : PyClass.t string :=
  PyClass.mk "T5Model"
    [("__module__", "transformers"); ("__init__", "T5Model.__init__");
     ("forward", "T5Model.forward"); ("__doc__", "T5Model.__doc__")]
    [("parameters", "Module.parameters")].
Definition T5Model_ : PyClass.t string :=
  PyClass.mk "T5Model_"
    [("__module__", "colossalai"); ("forward", "T5Model_.forward");
     ("__dict__", "T5Model_.__dict__"); ("__weakref__", "T5Model_.__weakref__");
     ("__doc__", "T5Model_.__doc__")]
    [].

End Sample.

Section Visit.
Variable slice_weight_bias :
  pyval -> pyval -> PolicyClass -> outcome (pyval * pyval).
Variable construct : string -> CtorArgs -> pyval.
Variable environ_RANK : option string.

(** Lines 112-121: the body of the loop of [reverse_replace_layer], for one
    child. *)
Definition visit_child (origin_cls : string) (attr_dict : list (string * pyval))
    (param_funcs : list (list PolicyLayer.t)) (binding_layers : list string)
    (child : pyval) (bm : BindingMap) : outcome unit * (pyval * BindingMap) :=
  if String.eqb (class_of child) origin_cls
  then shard_child slice_weight_bias construct environ_RANK
         attr_dict param_funcs binding_layers (child, bm)
  else reverse_replace_layer slice_weight_bias construct environ_RANK
         origin_cls attr_dict param_funcs binding_layers child bm.

End Visit.

(** ** Predicates for the properties of the pass *)

(** The class and the kind of a module. *)
Definition root_of (v : pyval) : option (string * TorchKind) :=
  match v with
  | VModule c k _ => Some (c, k)
  | _ => None
  end.

(** A module of class [origin_cls] occurs somewhere below [v]. *)
Fixpoint occurs_below (origin_cls : string) (v : pyval) {struct v} : bool :=
  match v with
  | VModule _ _ attrs =>
      existsb (fun a =>
                 is_module (snd a)
                 && (String.eqb (class_of (snd a)) origin_cls
                     || occurs_below origin_cls (snd a)))
        attrs
  | _ => false
  end.

(** A computation on any state keeps what [f] reads of the state, however
    it ends. *)
Definition preserves {S A B} (f : S -> B) (m : M S A) : Prop :=
  forall s, f (snd (m s)) = f s.

(** From [bm] to [bm'] no key outside [keys] has changed and no key has
    gone. *)
Definition grows (keys : list string) (bm bm' : BindingMap) : Prop :=
  forall k, (~ In k keys -> bm' !! k = bm !! k)
            /\ (is_Some (bm !! k) -> is_Some (bm' !! k)).

(** * Properties *)

(** ** Attribute lists and paths *)

Lemma assoc_get_set_eq a v l : assoc_get a (assoc_set a v l) = Some v.
Proof.
  induction l as [|[k w] l IH]; simpl.
  - by rewrite String.eqb_refl.
  - destruct (String.eqb k a) eqn:E; simpl; rewrite E; [done | apply IH].
Qed.

Lemma assoc_get_set_ne a b v l :
  a <> b -> assoc_get b (assoc_set a v l) = assoc_get b l.
Proof.
  intros Hne. induction l as [|[k w] l IH]; simpl.
  - destruct (String.eqb a b) eqn:E; [|done].
    apply String.eqb_eq in E. contradiction.
  - destruct (String.eqb k a) eqn:E; simpl.
    + apply String.eqb_eq in E. subst k.
      destruct (String.eqb a b) eqn:E'; [|done].
      apply String.eqb_eq in E'. contradiction.
    + by rewrite IH.
Qed.

Lemma assoc_get_del_eq a l : assoc_get a (assoc_del a l) = None.
Proof.
  induction l as [|[k w] l IH]; simpl; [done|].
  destruct (String.eqb k a) eqn:E; simpl; [done|]. by rewrite E.
Qed.

Lemma assoc_get_del_ne a b l :
  a <> b -> assoc_get b (assoc_del a l) = assoc_get b l.
Proof.
  intros Hne. induction l as [|[k w] l IH]; simpl; [done|].
  destruct (String.eqb k a) eqn:E; simpl.
  - apply String.eqb_eq in E. subst k.
    destruct (String.eqb a b) eqn:E'; [|done].
    apply String.eqb_eq in E'. contradiction.
  - by rewrite IH.
Qed.

Lemma assoc_get_app b l1 l2 :
  assoc_get b (l1 ++ l2)
  = match assoc_get b l1 with
    | Some v => Some v
    | None => assoc_get b l2
    end.
Proof.
  induction l1 as [|[k w] l1 IH]; simpl; [done|].
  by destruct (String.eqb k b).
Qed.

Lemma assoc_get_bind_eq a v l : assoc_get a (bind_attr a v l) = Some v.
Proof.
  unfold bind_attr. destruct (is_module v && _).
  - rewrite assoc_get_app, assoc_get_del_eq. simpl. by rewrite String.eqb_refl.
  - apply assoc_get_set_eq.
Qed.

Lemma assoc_get_bind_ne a b v l :
  a <> b -> assoc_get b (bind_attr a v l) = assoc_get b l.
Proof.
  intros Hne. unfold bind_attr. destruct (is_module v && _).
  - rewrite assoc_get_app, assoc_get_del_ne by done. simpl.
    destruct (String.eqb a b) eqn:E; [|by destruct (assoc_get b l)].
    apply String.eqb_eq in E. contradiction.
  - by apply assoc_get_set_ne.
Qed.

(** Anything but a module takes the place of the name. *)
Lemma bind_attr_in_place a v l :
  is_module v = false -> bind_attr a v l = assoc_set a v l.
Proof. unfold bind_attr. by intros ->. Qed.

(** So does a module under the name of a child. *)
Lemma bind_attr_child a v l :
  holds is_module (assoc_get a l) = true -> bind_attr a v l = assoc_set a v l.
Proof. unfold bind_attr. intros ->. by rewrite andb_false_r. Qed.

(** A scalar is taken under a name that is neither a child nor a
    parameter. *)
Lemma refused_scalar a v bound :
  is_tensor v = false -> is_module v = false ->
  holds is_tensor bound = false -> holds is_module bound = false ->
  refused a v bound = None.
Proof. unfold refused. by intros -> -> -> ->. Qed.

(** A parameter is taken under any name but the empty one. *)
Lemma refused_tensor a t bound : a <> "" -> refused a (VTensor t) bound = None.
Proof.
  intros Hne. unfold refused. simpl.
  destruct (String.eqb a "") eqn:E; [|done].
  apply String.eqb_eq in E. contradiction.
Qed.

(** A module is taken in the place of a module. *)
Lemma refused_module a v old :
  is_module v = true -> is_module old = true -> refused a v (Some old) = None.
Proof. destruct v, old; try discriminate. reflexivity. Qed.

Lemma py_getattr_Some_module obj a v :
  py_getattr obj a = Some v -> exists c k l, obj = VModule c k l.
Proof. destruct obj; simpl; try discriminate. eauto. Qed.

Lemma py_setattr_Ok obj a v obj' :
  py_setattr obj a v = Ok obj' ->
  exists c k l, obj = VModule c k l
                /\ refused a v (assoc_get a l) = None
                /\ obj' = VModule c k (bind_attr a v l).
Proof.
  destruct obj as [ | | | | | c k l]; simpl; try discriminate.
  destruct (refused a v (assoc_get a l)) eqn:E; [discriminate|].
  intros [= <-]. by exists c, k, l.
Qed.

Lemma py_setattr_module c k l a v :
  refused a v (assoc_get a l) = None ->
  py_setattr (VModule c k l) a v = Ok (VModule c k (bind_attr a v l)).
Proof. simpl. by intros ->. Qed.

Lemma setattr_path_cons obj a b rest value ignore :
  setattr_path obj (a :: b :: rest) value ignore =
  match py_getattr obj a with
  | Some o =>
      match setattr_path o (b :: rest) value ignore with
      | Ok o' =>
          match obj with
          | VModule c k l => Ok (VModule c k (assoc_set a o' l))
          | _ => Ok obj
          end
      | Raise e => Raise e
      end
  | None => if ignore then Ok obj else Raise AttributeError
  end.
Proof. reflexivity. Qed.

(** Assigning at a path that resolves, a value that the name it ends in
    takes: it succeeds, and the path then resolves to the value
    assigned. *)
Lemma getattr_setattr_path obj p old value ignore :
  p <> [] ->
  getattr_path obj p = Some old ->
  refused (List.last p "") value (Some old) = None ->
  exists obj', setattr_path obj p value ignore = Ok obj'
            /\ getattr_path obj' p = Some value.
Proof.
  revert obj. induction p as [|a p IH]; intros obj Hne Hget Hok; [done|].
  destruct p as [|b rest].
  - simpl in *. destruct (py_getattr obj a) eqn:E; [|done].
    injection Hget as ->.
    destruct (py_getattr_Some_module _ _ _ E) as (c & k & l & ->).
    simpl in E. rewrite py_setattr_module by (by rewrite E).
    eexists. split; [reflexivity|]. simpl. by rewrite assoc_get_bind_eq.
  - rewrite setattr_path_cons.
    simpl in Hget. destruct (py_getattr obj a) as [o|] eqn:E; [|done].
    destruct (IH o ltac:(done) Hget Hok) as (o' & Hset & Hget').
    rewrite Hset.
    destruct (py_getattr_Some_module _ _ _ E) as (c & k & l & ->).
    eexists. split; [reflexivity|].
    cbn [getattr_path py_getattr]. rewrite assoc_get_set_eq. exact Hget'.
Qed.

(** An assignment that went through, without [ignore]: the path resolves
    to the value assigned. *)
Lemma setattr_path_Ok_get value : forall p obj obj',
  setattr_path obj p value false = Ok obj' ->
  getattr_path obj' p = Some value.
Proof.
  induction p as [|a p IH]; intros obj obj' Hset; [discriminate|].
  destruct p as [|b rest].
  - simpl in Hset. apply py_setattr_Ok in Hset as (c & k & l & -> & _ & ->).
    simpl. by rewrite assoc_get_bind_eq.
  - rewrite setattr_path_cons in Hset.
    destruct (py_getattr obj a) as [o|] eqn:E; [|discriminate].
    destruct (setattr_path o (b :: rest) value false) as [o'|] eqn:Es;
      [|discriminate].
    destruct (py_getattr_Some_module _ _ _ E) as (c & k & l & ->).
    injection Hset as <-. cbn [getattr_path py_getattr].
    rewrite assoc_get_set_eq. by apply (IH o).
Qed.

(** Assigning the name [a] under a prefix leaves what is read through
    another name under that prefix as it is. *)
Lemma getattr_setattr_path_other pre a b q obj obj' value ignore :
  a <> b ->
  setattr_path obj (pre ++ [a]) value ignore = Ok obj' ->
  getattr_path obj' (pre ++ b :: q) = getattr_path obj (pre ++ b :: q).
Proof.
  intros Hne. revert obj obj'.
  induction pre as [|x pre IH]; intros obj obj' Hset.
  - simpl in Hset. apply py_setattr_Ok in Hset as (c & k & l & -> & _ & ->).
    simpl. by rewrite assoc_get_bind_ne.
  - change ((x :: pre) ++ [a])%list with (x :: (pre ++ [a]))%list in Hset.
    destruct (pre ++ [a])%list as [|y rest] eqn:Epre.
    { by destruct pre. }
    rewrite setattr_path_cons in Hset.
    change ((x :: pre) ++ b :: q)%list with (x :: (pre ++ b :: q))%list.
    cbn [getattr_path].
    destruct (py_getattr obj x) as [o|] eqn:E.
    + destruct (setattr_path o (y :: rest) value ignore) as [o'|] eqn:Es;
        [|discriminate].
      destruct (py_getattr_Some_module _ _ _ E) as (c & k & l & ->).
      injection Hset as <-. simpl.
      rewrite assoc_get_set_eq. by apply IH.
    + destruct ignore; [|discriminate]. injection Hset as <-. by rewrite E.
Qed.

Lemma getattr_path_app obj p q :
  getattr_path obj (p ++ q)
  = match getattr_path obj p with
    | Some o => getattr_path o q
    | None => None
    end.
Proof.
  revert obj. induction p as [|a p IH]; intros obj; simpl; [done|].
  destruct (py_getattr obj a); [apply IH | done].
Qed.

(** Assigning a name on the object that a prefix resolves to is
    [setattr] on that object: its exception is the exception of the
    assignment, and where it goes through, the prefix resolves to the
    object it returns. *)
Lemma setattr_path_under pre a v ig : forall obj m,
  getattr_path obj pre = Some m ->
  match py_setattr m a v with
  | Ok m' =>
      exists obj', setattr_path obj (pre ++ [a]) v ig = Ok obj'
                   /\ getattr_path obj' pre = Some m'
  | Raise e => setattr_path obj (pre ++ [a]) v ig = Raise e
  end.
Proof.
  induction pre as [|x pre IH]; intros obj m Hget.
  - simpl in *. injection Hget as ->. destruct (py_setattr m a v); eauto.
  - simpl in Hget. destruct (py_getattr obj x) as [o|] eqn:E; [|done].
    specialize (IH o m Hget).
    change ((x :: pre) ++ [a])%list with (x :: (pre ++ [a]))%list.
    destruct (pre ++ [a])%list as [|y rest] eqn:Epre; [by destruct pre|].
    rewrite setattr_path_cons, E.
    destruct (py_setattr m a v) as [m'|e].
    + destruct IH as (o' & -> & Hget').
      destruct (py_getattr_Some_module _ _ _ E) as (c0 & k0 & l0 & ->).
      eexists. split; [reflexivity|].
      simpl. by rewrite assoc_get_set_eq.
    + by rewrite IH.
Qed.

(** An assignment that the name does not take raises, whatever [ignore]
    is. *)
Lemma setattr_path_refused obj p old v ig e :
  p <> [] ->
  getattr_path obj p = Some old ->
  refused (List.last p "") v (Some old) = Some e ->
  setattr_path obj p v ig = Raise e.
Proof.
  intros Hp Hget Href.
  rewrite (app_removelast_last "" Hp) in Hget. rewrite getattr_path_app in Hget.
  destruct (getattr_path obj (removelast p)) as [m|] eqn:Em; [|done].
  simpl in Hget. destruct (py_getattr m (List.last p "")) eqn:E; [|done].
  injection Hget as ->.
  pose proof (setattr_path_under (removelast p) (List.last p "") v ig obj m Em) as H.
  destruct (py_getattr_Some_module _ _ _ E) as (c & k & l & ->).
  simpl in E, H. rewrite E, Href in H.
  by rewrite (app_removelast_last "" Hp).
Qed.

(** ** Strings *)

Lemma split_dot_nonempty s : PyStr.split_dot s <> [].
Proof.
  destruct s as [|c s]; simpl; [done|].
  destruct (Ascii.eqb c "."); [done|]. by destruct (PyStr.split_dot s).
Qed.

Lemma split_dot_app s t :
  PyStr.split_dot (s ++ "." ++ t) = (PyStr.split_dot s ++ PyStr.split_dot t)%list.
Proof.
  induction s as [|c s IH]; simpl.
  - reflexivity.
  - destruct (Ascii.eqb c "."); simpl.
    + by rewrite IH.
    + rewrite IH. destruct (PyStr.split_dot s) eqn:E; [|done].
      by destruct (split_dot_nonempty s).
Qed.

Lemma rfind_dot_bounds s :
  -1 <= PyStr.rfind_dot s < Z.of_nat (String.length s).
Proof.
  induction s as [|c s IH]; simpl PyStr.rfind_dot; simpl String.length.
  - lia.
  - destruct (0 <=? PyStr.rfind_dot s)%Z eqn:E.
    + apply Z.leb_le in E. lia.
    + destruct (Ascii.eqb c "."); lia.
Qed.






(** ** The owning path of an instruction *)

(** C9, on the code: for the single-component path ["weight"] the owning
    path computed by [shard_one_layer] is ["weigh"], the path less its last
    character, where the path with its final component removed is the
    empty path. *)
Theorem layer_attr_of_single_component :
  layer_attr_of (Some "weight") None = Ok "weigh"
  /\ PyStr.join_dot (removelast (PyStr.split_dot "weight")) = ""
  /\ layer_attr_of (Some "dense.weight") None
     = Ok (PyStr.join_dot (removelast (PyStr.split_dot "dense.weight"))).
Proof. repeat split; reflexivity. Qed.

(** ** Computations *)

Lemma bind_Ok_inv {S A B} (m : M S A) (k : A -> M S B) s b s' :
  bind m k s = (Ok b, s') ->
  exists a s1, m s = (Ok a, s1) /\ k a s1 = (Ok b, s').
Proof. unfold bind. destruct (m s) as [[a|e] s1]; [eauto | discriminate]. Qed.

Lemma bind_Ok {S A B} (m : M S A) (k : A -> M S B) s a s1 :
  m s = (Ok a, s1) -> bind m k s = k a s1.
Proof. unfold bind. by intros ->. Qed.

Lemma bind_Raise {S A B} (m : M S A) (k : A -> M S B) s e s1 :
  m s = (Raise e, s1) -> bind m k s = (Raise e, s1).
Proof. unfold bind. by intros ->. Qed.

Lemma for_each_app {S A} (l1 l2 : list A) (body : A -> M S unit) s s1 :
  for_each l1 body s = (Ok tt, s1) ->
  for_each (l1 ++ l2) body s = for_each l2 body s1.
Proof.
  revert s. induction l1 as [|a l1 IH]; intros s; simpl.
  - unfold ret. by intros [= <-].
  - intros H. apply bind_Ok_inv in H as ([] & s2 & Ha & Hrest).
    rewrite (bind_Ok _ _ _ _ _ Ha). by apply IH.
Qed.

(** ** inject_model *)

Section InjectProps.
Context {V : Type}.
Implicit Types (c mc : PyClass.t V) (l : list (string * V)).

Lemma find_update_eq key v l : PyClass.find key (PyClass.update key v l) = Some v.
Proof.
  induction l as [|[k w] l IH]; simpl.
  - by rewrite String.eqb_refl.
  - destruct (String.eqb k key) eqn:E; simpl; rewrite E; [done | apply IH].
Qed.

Lemma find_update_ne key key' v l :
  key <> key' -> PyClass.find key' (PyClass.update key v l) = PyClass.find key' l.
Proof.
  intros Hne. induction l as [|[k w] l IH]; simpl.
  - destruct (String.eqb key key') eqn:E; [|done].
    apply String.eqb_eq in E. contradiction.
  - destruct (String.eqb k key) eqn:E; simpl.
    + apply String.eqb_eq in E. subst k.
      destruct (String.eqb key key') eqn:E'; [|done].
      apply String.eqb_eq in E'. contradiction.
    + by rewrite IH.
Qed.

(** What an assignment on a class that went through has done. *)
Lemma setattr_Ok key v c c' :
  PyClass.setattr key v c = Ok c' ->
  PyClass.read_only key = false
  /\ c' = PyClass.mk (PyClass.name c) (PyClass.update key v (PyClass.dict c))
            (PyClass.inherited c).
Proof.
  unfold PyClass.setattr. destruct (PyClass.read_only key); [discriminate|].
  by intros [= <-].
Qed.

Lemma setattr_read_only key v c :
  PyClass.read_only key = true -> PyClass.setattr key v c = Raise AttributeError.
Proof. unfold PyClass.setattr. by intros ->. Qed.

Lemma setattr_settable key v c :
  PyClass.read_only key = false ->
  exists c', PyClass.setattr key v c = Ok c'.
Proof. unfold PyClass.setattr. intros ->. eauto. Qed.

Lemma getattr_setattr_eq key v c c' :
  PyClass.setattr key v c = Ok c' -> PyClass.getattr c' key = Some v.
Proof.
  intros H. apply setattr_Ok in H as [_ ->].
  unfold PyClass.getattr. simpl. by rewrite find_update_eq.
Qed.

Lemma getattr_setattr_ne key key' v c c' :
  key <> key' -> PyClass.setattr key v c = Ok c' ->
  PyClass.getattr c' key' = PyClass.getattr c key'.
Proof.
  intros Hne H. apply setattr_Ok in H as [_ ->].
  unfold PyClass.getattr. simpl. by rewrite find_update_ne.
Qed.

Lemma hasattr_setattr key key' v c c' :
  PyClass.hasattr c key = true -> PyClass.setattr key v c = Ok c' ->
  PyClass.hasattr c' key' = PyClass.hasattr c key'.
Proof.
  intros Hk Hset. unfold PyClass.hasattr in *.
  destruct (string_dec key key') as [<-|Hne].
  - rewrite (getattr_setattr_eq _ _ _ _ Hset), Hk. apply orb_true_r.
  - by rewrite (getattr_setattr_ne _ _ _ _ _ Hne Hset).
Qed.

Lemma find_in_keys key l :
  In key (map fst l) -> exists v, PyClass.find key l = Some v.
Proof.
  induction l as [|[k w] l IH]; simpl; [done|].
  intros [->|Hin].
  - rewrite String.eqb_refl. eauto.
  - destruct (String.eqb k key); eauto.
Qed.

Lemma shard_keys_defined (shard : PyClass.t V) key :
  In key (map fst (PyClass.dict shard)) ->
  exists v, PyClass.getattr shard key = Some v.
Proof.
  intros Hin. destruct (find_in_keys _ _ Hin) as [v Hv].
  exists v. unfold PyClass.getattr. by rewrite Hv.
Qed.

(** One turn of the loop of lines 62-68. *)
Lemma rebind_keys_cons (shard : PyClass.t V) k ks mc :
  rebind_keys shard (k :: ks) mc
  = if PyClass.hasattr mc k then
      match PyClass.getattr shard k with
      | Some v =>
          match PyClass.setattr k v mc with
          | Ok mc1 => rebind_keys shard ks mc1
          | Raise e => (Raise e, mc)
          end
      | None => (Raise AttributeError, mc)
      end
    else rebind_keys shard ks mc.
Proof.
  unfold rebind_keys. simpl. unfold bind at 1. unfold bind at 1. simpl.
  destruct (PyClass.hasattr mc k); [|done].
  destruct (PyClass.getattr shard k) as [v|]; [|done].
  by destruct (PyClass.setattr k v mc).
Qed.

(** The loop when it has come to its end. *)
Lemma rebind_keys_spec shard ks : forall mc mc',
  rebind_keys shard ks mc = (Ok tt, mc') ->
  PyClass.name mc' = PyClass.name mc
  /\ PyClass.inherited mc' = PyClass.inherited mc
  /\ (forall key, PyClass.hasattr mc' key = PyClass.hasattr mc key)
  /\ (forall key, In key ks -> PyClass.hasattr mc key = true ->
        PyClass.getattr mc' key = PyClass.getattr shard key)
  /\ (forall key, ~ In key ks \/ PyClass.hasattr mc key = false ->
        PyClass.getattr mc' key = PyClass.getattr mc key).
Proof.
  induction ks as [|k ks IH]; intros mc mc' Hrun.
  - injection Hrun as <-. repeat split; try done; by intros key [].
  - rewrite rebind_keys_cons in Hrun.
    destruct (PyClass.hasattr mc k) eqn:Hk.
    + destruct (PyClass.getattr shard k) as [v|] eqn:Hv; [|discriminate].
      destruct (PyClass.setattr k v mc) as [mc1|e] eqn:Hset; [|discriminate].
      destruct (IH _ _ Hrun) as (Hname & Hinh & Hhas & Hin & Hout).
      assert (Hh1 : forall key, PyClass.hasattr mc1 key = PyClass.hasattr mc key).
      { intros key. by apply (hasattr_setattr k key v). }
      destruct (setattr_Ok _ _ _ _ Hset) as [_ Hmc1].
      split; [rewrite Hname, Hmc1; done|].
      split; [rewrite Hinh, Hmc1; done|].
      split; [intros key; by rewrite Hhas, Hh1|].
      split.
      * intros key [<-|Hin'] Hkey.
        -- destruct (in_dec string_dec k ks) as [Hi|Hni].
           ++ apply Hin; [done|]. by rewrite Hh1.
           ++ rewrite Hout by (by left).
              by rewrite (getattr_setattr_eq _ _ _ _ Hset).
        -- apply Hin; [done|]. by rewrite Hh1.
      * intros key Hcase.
        assert (Hne : k <> key).
        { intros <-. destruct Hcase as [Hn|Hf]; [apply Hn; by left|congruence]. }
        rewrite Hout, (getattr_setattr_ne _ _ _ _ _ Hne Hset); [done|].
        destruct Hcase as [Hn|Hf].
        -- left. intros Hi. apply Hn. by right.
        -- right. by rewrite Hh1.
    + destruct (IH _ _ Hrun) as (Hname & Hinh & Hhas & Hin & Hout).
      split; [done|]. split; [done|]. split; [done|]. split.
      * intros key [<-|Hin'] Hkey; [congruence|]. by apply Hin.
      * intros key Hcase. apply Hout.
        destruct Hcase as [Hn|Hf]; [left|by right].
        intros Hi. apply Hn. by right.
Qed.

(** The loop comes to its end when none of the keys is read-only. *)
Lemma rebind_keys_total shard ks : forall mc,
  (forall key, In key ks -> exists v, PyClass.getattr shard key = Some v) ->
  (forall key, In key ks -> PyClass.read_only key = false) ->
  exists mc', rebind_keys shard ks mc = (Ok tt, mc').
Proof.
  induction ks as [|k ks IH]; intros mc Hdef Hset; [by exists mc|].
  rewrite rebind_keys_cons.
  assert (Hdef' : forall key, In key ks ->
            exists v, PyClass.getattr shard key = Some v).
  { intros key Hin. apply Hdef. by right. }
  assert (Hset' : forall key, In key ks -> PyClass.read_only key = false).
  { intros key Hin. apply Hset. by right. }
  destruct (PyClass.hasattr mc k); [|by apply IH].
  destruct (Hdef k ltac:(by left)) as [v ->].
  destruct (setattr_settable k v mc (Hset k ltac:(by left))) as [mc1 ->].
  by apply IH.
Qed.

(** A loop that has come to its end has met no read-only key. *)
Lemma rebind_keys_settable shard ks : forall mc mc',
  rebind_keys shard ks mc = (Ok tt, mc') ->
  forall key, In key ks -> PyClass.read_only key = false.
Proof.
  induction ks as [|k ks IH]; intros mc mc' Hrun key; [intros []|].
  rewrite rebind_keys_cons in Hrun.
  destruct (PyClass.hasattr mc k) eqn:Hk.
  - destruct (PyClass.getattr shard k) as [v|]; [|discriminate].
    destruct (PyClass.setattr k v mc) as [mc1|e] eqn:Hset; [|discriminate].
    intros [<-|Hin]; [by apply setattr_Ok in Hset as [? _] | by apply (IH _ _ Hrun)].
  - intros [<-|Hin]; [|by apply (IH _ _ Hrun)].
    unfold PyClass.hasattr in Hk. by destruct (PyClass.read_only k).
Qed.

(** The first read-only key ends the loop with the keys before it
    rebound. *)
Lemma rebind_keys_read_only shard before key after mc :
  (forall k, In k (before ++ [key]) -> exists v, PyClass.getattr shard k = Some v) ->
  (forall k, In k before -> PyClass.read_only k = false) ->
  PyClass.read_only key = true ->
  exists mc', rebind_keys shard before mc = (Ok tt, mc')
    /\ rebind_keys shard (before ++ key :: after) mc = (Raise AttributeError, mc').
Proof.
  intros Hdef Hset Hro.
  destruct (rebind_keys_total shard before mc) as [mc' Hrun]; [|done|].
  { intros k Hin. apply Hdef, in_or_app. by left. }
  exists mc'. split; [done|].
  unfold rebind_keys in *. rewrite (for_each_app _ _ _ _ _ Hrun).
  fold (rebind_keys shard (key :: after)). rewrite rebind_keys_cons.
  unfold PyClass.hasattr. rewrite Hro. simpl.
  destruct (Hdef key ltac:(apply in_or_app; right; by left)) as [v ->].
  by rewrite setattr_read_only.
Qed.

Lemma inject_model_cases (org shard mc : PyClass.t V) :
  (PyClass.name mc <> PyClass.name org
   /\ inject_model (org, shard) mc = (Raise UnsupportedModelError, mc))
  \/ (PyClass.name mc = PyClass.name org
      /\ inject_model (org, shard) mc
         = rebind_keys shard (map fst (PyClass.dict shard)) mc).
Proof.
  assert (Hrun : inject_model (org, shard) mc
    = if String.eqb (PyClass.name mc) (PyClass.name org)
      then rebind_keys shard (map fst (PyClass.dict shard)) mc
      else (Raise UnsupportedModelError, mc)).
  { unfold inject_model, bind at 1, get. simpl.
    by destruct (String.eqb (PyClass.name mc) (PyClass.name org)). }
  rewrite Hrun.
  destruct (String.eqb (PyClass.name mc) (PyClass.name org)) eqn:E.
  - right. by apply String.eqb_eq in E.
  - left. split; [|done]. intros Heq. apply String.eqb_eq in Heq. congruence.
Qed.

(** C5, on the code: a model of another class than the policy's origin
    class makes [inject_model] raise UnsupportedModelError with the class
    of the model as it was.  For a model of the origin class the call
    returns, with every name of the shard-aware class's [__dict__] that
    the model's class has rebound to what the shard-aware class binds it
    to, when none of those names is read-only on a class.  The first key
    that is, and [__dict__] is one, makes [setattr] raise AttributeError:
    the call ends there, the keys before it rebound and every other name
    as it was. *)
Theorem inject_model_rebinds (org_model_cls shard_model_cls mc : PyClass.t V) :
  (PyClass.name mc <> PyClass.name org_model_cls ->
     inject_model (org_model_cls, shard_model_cls) mc
     = (Raise UnsupportedModelError, mc))
  /\ (PyClass.name mc = PyClass.name org_model_cls ->
      (forall key, In key (map fst (PyClass.dict shard_model_cls)) ->
         PyClass.read_only key = false) ->
      exists mc',
        inject_model (org_model_cls, shard_model_cls) mc = (Ok tt, mc')
        /\ forall key,
             In key (map fst (PyClass.dict shard_model_cls)) ->
             PyClass.hasattr mc key = true ->
             PyClass.getattr mc' key = PyClass.getattr shard_model_cls key)
  /\ (PyClass.name mc = PyClass.name org_model_cls ->
      forall before key after,
        map fst (PyClass.dict shard_model_cls) = (before ++ key :: after)%list ->
        (forall k, In k before -> PyClass.read_only k = false) ->
        PyClass.read_only key = true ->
        exists mc',
          inject_model (org_model_cls, shard_model_cls) mc
          = (Raise AttributeError, mc')
          /\ (forall k, In k before -> PyClass.hasattr mc k = true ->
                PyClass.getattr mc' k = PyClass.getattr shard_model_cls k)
          /\ (forall k, ~ In k before ->
                PyClass.getattr mc' k = PyClass.getattr mc k)).
Proof.
  destruct (inject_model_cases org_model_cls shard_model_cls mc)
    as [[Hne Hraise]|[Hname Heq]].
  { split; [done|]. split; intros Hname; contradiction. }
  split; [intros Hne; contradiction|]. rewrite Heq. split.
  - intros _ Hset.
    destruct (rebind_keys_total shard_model_cls
                (map fst (PyClass.dict shard_model_cls)) mc
                (shard_keys_defined shard_model_cls) Hset) as [mc' Hrun].
    exists mc'. split; [done|].
    by destruct (rebind_keys_spec _ _ _ _ Hrun) as (_ & _ & _ & Hin & _).
  - intros _ before key after Hkeys Hset Hro. rewrite Hkeys.
    destruct (rebind_keys_read_only shard_model_cls before key after mc)
      as (mc' & Hrun & Hraise); [|done|done|].
    { intros k Hin. apply shard_keys_defined. rewrite Hkeys.
      apply in_app_or in Hin as [Hin|[<-|[]]]; apply in_or_app;
        [by left | right; by left]. }
    exists mc'. split; [done|].
    destruct (rebind_keys_spec _ _ _ _ Hrun) as (_ & _ & _ & Hin & Hout).
    split; [exact Hin|]. intros k Hni. apply Hout. by left.
Qed.

End InjectProps.

Lemma keeps_ret {A B} (proj : Frame.t -> B) (a : A) : keeps proj (ret a).
Proof. by intros fr. Qed.

Lemma keeps_raise {A B} (proj : Frame.t -> B) e : keeps proj (@raise _ A e).
Proof. by intros fr. Qed.

Lemma keeps_lift {A B} (proj : Frame.t -> B) (o : outcome A) : keeps proj (lift o).
Proof. by intros fr. Qed.

Lemma keeps_get {B} (proj : Frame.t -> B) : keeps proj get.
Proof. by intros fr. Qed.

Lemma keeps_gets {A B} (proj : Frame.t -> B) (f : Frame.t -> A) :
  keeps proj (gets f).
Proof. by intros fr. Qed.

Lemma keeps_assert {B} (proj : Frame.t -> B) b : keeps proj (assert_ b).
Proof. by destruct b. Qed.

Lemma keeps_bind {A A' B} (proj : Frame.t -> B) (m : M Frame.t A)
    (k : A -> M Frame.t A') :
  keeps proj m -> (forall a, keeps proj (k a)) -> keeps proj (bind m k).
Proof.
  intros Hm Hk fr. unfold bind. specialize (Hm fr).
  destruct (m fr) as [[a|e] fr1]; simpl in *; [|done].
  by rewrite Hk.
Qed.

Lemma keeps_for_each {A B} (proj : Frame.t -> B) (l : list A)
    (body : A -> M Frame.t unit) :
  (forall a, keeps proj (body a)) -> keeps proj (for_each l body).
Proof.
  intros Hb. induction l as [|a l IH]; simpl.
  - apply keeps_ret.
  - apply keeps_bind; [apply Hb | intros _; apply IH].
Qed.

Lemma keeps_modify {B} (proj : Frame.t -> B) (f : Frame.t -> Frame.t) :
  (forall fr, proj (f fr) = proj fr) -> keeps proj (modify f).
Proof. intros Hf fr. apply Hf. Qed.

Create HintDb keeps.
#[local] Hint Resolve keeps_ret keeps_raise keeps_lift keeps_get keeps_gets keeps_assert
  keeps_bind keeps_for_each keeps_modify : keeps.

Ltac keeps_tac :=
  repeat first
    [ apply keeps_ret | apply keeps_raise | apply keeps_lift | apply keeps_get
    | apply keeps_gets
    | apply keeps_assert | apply keeps_for_each; intros
    | apply keeps_modify; intros; reflexivity
    | apply keeps_bind; [|intros]
    | match goal with
      | |- keeps _ (match ?x with _ => _ end) => destruct x
      | |- keeps _ (if ?x then _ else _) => destruct x
      end
    | solve [auto with keeps] ].

(** ** shard_one_layer *)

Lemma getattr__Ok obj attr v :
  getattr_ obj attr false = Ok v <-> getattr_path obj (PyStr.split_dot attr) = Some v.
Proof.
  unfold getattr_. destruct (getattr_path obj (PyStr.split_dot attr)).
  - split; congruence.
  - split; discriminate.
Qed.


(** Assigning where the path resolves, a value that the name takes: it
    succeeds and the value is there. *)
Lemma setattr__resolved obj attr old value ignore :
  getattr_ obj attr false = Ok old ->
  refused (List.last (PyStr.split_dot attr) "") value (Some old) = None ->
  exists obj', setattr_ obj attr value ignore = Ok obj'
            /\ getattr_ obj' attr false = Ok value.
Proof.
  intros H Hok. apply getattr__Ok in H.
  destruct (getattr_setattr_path obj _ old value ignore (split_dot_nonempty attr)
              H Hok)
    as (obj' & Hset & Hget).
  exists obj'. split; [exact Hset|]. by apply getattr__Ok.
Qed.

(** A module assigned where a module is. *)
Lemma setattr__module obj attr old value ignore :
  getattr_ obj attr false = Ok old ->
  is_module old = true -> is_module value = true ->
  exists obj', setattr_ obj attr value ignore = Ok obj'
            /\ getattr_ obj' attr false = Ok value.
Proof.
  intros H Hold Hvalue. apply (setattr__resolved obj attr old); [done|].
  by apply refused_module.
Qed.

(** [set_param] called with a tensor where [layer_attr] is expected raises
    before it writes anything. *)
Lemma set_param_tensor_as_layer_attr t weight layer :
  exists e, set_param (VTensor t) weight VNone layer = (Raise e, layer).
Proof.
  unfold set_param, bind, assert_. destruct weight; simpl; eauto.
Qed.

Lemma record_binding_lookup_in bl w b (bm : BindingMap) k :
  In k bl -> record_binding bl w b bm !! k = Some (w, b).
Proof.
  unfold record_binding. revert bm.
  induction bl as [|x bl IH]; intros bm; simpl; [done|].
  intros [->|Hin].
  - destruct (in_dec string_dec k bl) as [Hi|Hni]; [by apply IH|].
    clear IH. revert bm. induction bl as [|y bl IH]; intros bm; simpl.
    + apply lookup_insert_eq.
    + assert (y <> k) by (intros ->; apply Hni; by left).
      assert (~ In k bl) by (intros Hi; apply Hni; by right).
      rewrite (insert_insert_ne bm) by done. by apply IH.
  - by apply IH.
Qed.

Lemma record_binding_lookup_out bl w b (bm : BindingMap) k :
  ~ In k bl -> record_binding bl w b bm !! k = bm !! k.
Proof.
  unfold record_binding. revert bm.
  induction bl as [|x bl IH]; intros bm Hni; simpl; [done|].
  rewrite IH by (intros Hi; apply Hni; by right).
  apply lookup_insert_ne. intros ->. apply Hni. by left.
Qed.

Section SharderProps.

Variable slice_weight_bias :
  pyval -> pyval -> PolicyClass -> outcome (pyval * pyval).
Variable construct : string -> CtorArgs -> pyval.
Variable environ_RANK : option string.

Local Abbreviation prepare' := (prepare slice_weight_bias environ_RANK).
Local Abbreviation slice_and_save' :=
  (slice_and_save slice_weight_bias environ_RANK).
Local Abbreviation replace_or_install' := (replace_or_install construct).
Local Abbreviation finish' := (finish construct).
Local Abbreviation shard_policy_layer' :=
  (shard_policy_layer slice_weight_bias construct environ_RANK).

Lemma resolve_frame attr ignore fr : snd (resolve attr ignore fr) = fr.
Proof.
  unfold resolve. destruct attr as [a|]; [|done].
  unfold bind, gets, lift, raise, ret.
  destruct (hasattr_ (Frame.org_layer fr) a); [done|]. by destruct ignore.
Qed.

Lemma save_binding_spec bl w b fr :
  save_binding bl w b fr
  = (Ok tt, Frame.with_binding_map (record_binding bl w b (Frame.binding_map fr)) fr).
Proof.
  unfold save_binding, record_binding. revert fr.
  induction bl as [|x bl IH]; intros fr; simpl.
  - by destruct fr.
  - unfold bind at 1, modify at 1. rewrite IH. by destruct fr.
Qed.

Lemma print_shapes_frame w b fr : snd (print_shapes environ_RANK w b fr) = fr.
Proof.
  unfold print_shapes. destruct environ_RANK; [|done].
  unfold bind, lift, ret. destruct (shape_of w); [|done].
  destruct (is_None b); [done|]. by destruct (shape_of b).
Qed.

Lemma print_shapes_Ok w b fr fr' :
  print_shapes environ_RANK w b fr = (Ok tt, fr') ->
  (exists rank, environ_RANK = Some rank) /\ exists t, w = VTensor t.
Proof.
  unfold print_shapes. destruct environ_RANK; [|discriminate].
  unfold bind, lift. destruct w; simpl; try discriminate. eauto.
Qed.

(** Line 175 reads [weight.shape]: a sliced weight that is [None] ends the
    instruction there. *)
Lemma print_shapes_weight_None b fr :
  exists e, print_shapes environ_RANK VNone b fr = (Raise e, fr).
Proof.
  unfold print_shapes. destruct environ_RANK; [|by exists KeyError].
  by exists AttributeError.
Qed.

(** What [prepare] has done when it comes back with a sliced pair. *)
Lemma prepare_sliced bl pl fr la w b fr1 :
  prepare' bl pl fr = (Ok (Some (la, w, b)), fr1) ->
  let fr0 := snd (bind_gather_output pl fr) in
  exists w0 b0,
    resolve (PolicyLayer.weight pl) (PolicyLayer.ignore pl) fr0 = (Ok w0, fr0)
    /\ resolve (PolicyLayer.bias pl) (PolicyLayer.ignore pl) fr0 = (Ok b0, fr0)
    /\ (is_None w0 && is_None b0 = false)
    /\ layer_attr_of (PolicyLayer.weight pl) (PolicyLayer.bias pl) = Ok la
    /\ slice_weight_bias w0 b0 (PolicyLayer.cls pl) = Ok (w, b)
    /\ (exists rank, environ_RANK = Some rank)
    /\ (exists t, w = VTensor t)
    /\ fr1 = Frame.with_binding_map
               (record_binding bl w b (Frame.binding_map fr0)) fr0.
Proof.
  intros H fr0. unfold prepare in H.
  apply bind_Ok_inv in H as ([] & f0 & Hg & H).
  assert (f0 = fr0) as -> by (unfold fr0; by rewrite Hg).
  apply bind_Ok_inv in H as (w0 & f1 & Hw & H).
  pose proof (resolve_frame (PolicyLayer.weight pl) (PolicyLayer.ignore pl) fr0) as Ef.
  rewrite Hw in Ef. simpl in Ef. subst f1.
  apply bind_Ok_inv in H as (b0 & f2 & Hb & H).
  pose proof (resolve_frame (PolicyLayer.bias pl) (PolicyLayer.ignore pl) fr0) as Ef.
  rewrite Hb in Ef. simpl in Ef. subst f2.
  exists w0, b0. split; [done|]. split; [done|].
  unfold slice_and_save in H.
  destruct (is_None w0 && is_None b0 && PolicyLayer.ignore pl) eqn:Eskip;
    [discriminate|].
  apply bind_Ok_inv in H as ([] & f3 & Ha & H).
  unfold assert_ in Ha.
  destruct (negb (is_None w0) || negb (is_None b0)) eqn:Eassert;
    [|discriminate].
  injection Ha as <-.
  apply bind_Ok_inv in H as (la' & f4 & Hla & H).
  unfold lift in Hla.
  destruct (layer_attr_of (PolicyLayer.weight pl) (PolicyLayer.bias pl))
    as [la0|] eqn:Ela; [|discriminate].
  injection Hla as -> <-.
  apply bind_Ok_inv in H as ([w' b'] & f5 & Hs & H).
  unfold lift in Hs.
  destruct (slice_weight_bias w0 b0 (PolicyLayer.cls pl)) as [p|] eqn:Es;
    [|discriminate].
  injection Hs as -> <-.
  apply bind_Ok_inv in H as ([] & f6 & Hp & H).
  pose proof (print_shapes_frame w' b' fr0) as Ef.
  rewrite Hp in Ef. simpl in Ef. subst f6.
  apply print_shapes_Ok in Hp as [Hrank Ht].
  apply bind_Ok_inv in H as ([] & f7 & Hsave & H).
  rewrite save_binding_spec in Hsave. injection Hsave as <-.
  unfold ret in H. injection H as <- <- <- <-.
  split.
  { destruct (is_None w0), (is_None b0); simpl in *; done. }
  repeat split; done.
Qed.


Lemma bind_gather_output_spec pl fr :
  bind_gather_output pl fr = (Ok tt, after_gather_output pl fr).
Proof.
  unfold bind_gather_output, after_gather_output, gather_output_after.
  destruct fr, (PolicyLayer.cls pl); reflexivity.
Qed.

Lemma resolve_org_layer attr ignore fr fr' :
  Frame.org_layer fr' = Frame.org_layer fr ->
  resolve attr ignore fr' = (fst (resolve attr ignore fr), fr').
Proof.
  intros Ho. unfold resolve. destruct attr as [a|]; [|done].
  unfold bind, gets, lift, raise, ret. rewrite Ho.
  destruct (hasattr_ (Frame.org_layer fr) a); [done|]. by destruct ignore.
Qed.

Lemma keeps_on_org_layer {B} (proj : Frame.t -> B) m :
  (forall o fr, proj (Frame.with_org_layer o fr) = proj fr) ->
  keeps proj (on_org_layer m).
Proof.
  intros Hp fr. unfold on_org_layer.
  destruct (m (Frame.org_layer fr)). simpl. apply Hp.
Qed.

Lemma keeps_read_local {A B} (proj : Frame.t -> B) (f : Frame.t -> option A) :
  keeps proj (read_local f).
Proof. unfold read_local. keeps_tac. Qed.

Lemma keeps_install_replacement {B} (proj : Frame.t -> B) la ig w b :
  (forall o fr, proj (Frame.with_org_layer o fr) = proj fr) ->
  keeps proj (install_replacement la ig w b).
Proof.
  intros Hp. unfold install_replacement.
  apply keeps_bind; [apply keeps_read_local|]. intros rl.
  apply keeps_bind; [by apply keeps_on_org_layer|]. intros _ fr.
  destruct (set_param w b VNone rl). simpl. apply Hp.
Qed.

Lemma keeps_replace_or_install {B} (proj : Frame.t -> B) pl la w b :
  (forall o fr, proj (Frame.with_org_layer o fr) = proj fr) ->
  (forall rl fr, proj (Frame.with_replace_layer rl fr) = proj fr) ->
  keeps proj (replace_or_install' pl la w b).
Proof.
  intros Ho Hr. unfold replace_or_install.
  destruct (PolicyLayer.replace_layer pl) as [cls|];
    [|by apply keeps_on_org_layer].
  apply keeps_bind; [apply keeps_gets|]. intros org.
  apply keeps_bind; [apply keeps_lift|]. intros target.
  destruct (isinstance target KLinear).
  - apply keeps_bind; [|intros; by apply keeps_install_replacement].
    destruct (String.eqb cls "Linear1D_Row");
      [|destruct (String.eqb cls "Linear1D_Col")].
    + repeat (apply keeps_bind; [apply keeps_lift|]; intros).
      apply keeps_modify. intros. apply Hr.
    + repeat (apply keeps_bind; [apply keeps_lift|]; intros).
      apply keeps_bind; [apply keeps_read_local|]. intros.
      apply keeps_modify. intros. apply Hr.
    + apply keeps_ret.
  - apply keeps_bind; [apply keeps_lift|]. intros target'.
    destruct (isinstance target' KEmbedding); [|apply keeps_raise].
    repeat (apply keeps_bind; [apply keeps_lift|]; intros).
    apply keeps_bind; [|intros; by apply keeps_install_replacement].
    apply keeps_modify. intros. apply Hr.
Qed.

Lemma keeps_finish {B} (proj : Frame.t -> B) pl sliced :
  (forall o fr, proj (Frame.with_org_layer o fr) = proj fr) ->
  (forall rl fr, proj (Frame.with_replace_layer rl fr) = proj fr) ->
  keeps proj (finish' pl sliced).
Proof.
  intros Ho Hr. destruct sliced as [[[la w] b]|]; simpl.
  - by apply keeps_replace_or_install.
  - apply keeps_ret.
Qed.

(** ** C7: an instruction that is skipped *)

(** C7, as the code has it: when [ignore] is set and both [weight] and
    [bias] are looked up as [None], the instruction returns at once,
    whatever the slicer would do: the layer, the binding map and the
    replacement variable are what they were.  It is not a no-op for the
    local [gather_output]: lines 149-151 have run, so a [Col_Layer]
    instruction has bound it to its flag before it is skipped.  An
    instruction of another class leaves everything as it was. *)
Theorem skipped_instruction_binds_gather_output bl pl fr :
  PolicyLayer.ignore pl = true ->
  fst (resolve (PolicyLayer.weight pl) true fr) = Ok VNone ->
  fst (resolve (PolicyLayer.bias pl) true fr) = Ok VNone ->
  exists fr',
    shard_policy_layer' bl pl fr = (Ok tt, fr')
    /\ Frame.org_layer fr' = Frame.org_layer fr
    /\ Frame.binding_map fr' = Frame.binding_map fr
    /\ Frame.replace_layer fr' = Frame.replace_layer fr
    /\ Frame.gather_output fr'
       = match PolicyLayer.cls pl with
         | Col_Layer => Some (PolicyLayer.gather_output pl)
         | _ => Frame.gather_output fr
         end
    /\ (PolicyLayer.cls pl <> Col_Layer -> fr' = fr).
Proof.
  intros Hig Hw Hb.
  unfold shard_policy_layer, prepare.
  rewrite Hig.
  set (fr0 := after_gather_output pl fr).
  exists fr0. split.
  { erewrite bind_Ok; cycle 1.
    { erewrite bind_Ok by apply bind_gather_output_spec.
      erewrite bind_Ok; cycle 1.
      { rewrite (resolve_org_layer _ _ fr fr0) by done. by rewrite Hw. }
      erewrite bind_Ok; cycle 1.
      { rewrite (resolve_org_layer _ _ fr fr0) by done. by rewrite Hb. }
      unfold slice_and_save. rewrite Hig. reflexivity. }
    reflexivity. }
  split; [done|]. split; [done|]. split; [done|].
  unfold fr0, after_gather_output, gather_output_after.
  split; [by destruct (PolicyLayer.cls pl)|].
  intros Hcls. destruct fr. by destruct (PolicyLayer.cls pl).
Qed.

(** ** C6: a declared attribute that is missing *)



(** ** C1, C4, C10: the replacement layer *)

Lemma always_raises_bind_l {A B} (m : M Frame.t A) (k : A -> M Frame.t B) :
  always_raises m -> always_raises (bind m k).
Proof.
  intros Hm fr. destruct (Hm fr) as (e & fr' & H).
  exists e, fr'. by apply bind_Raise.
Qed.

Lemma always_raises_bind_r {A B} (m : M Frame.t A) (k : A -> M Frame.t B) :
  (forall a, always_raises (k a)) -> always_raises (bind m k).
Proof.
  intros Hk fr. unfold bind. destruct (m fr) as [[a|e] fr1]; [|eauto].
  apply Hk.
Qed.

Lemma always_raises_raise {A} e : always_raises (@raise _ A e).
Proof. intros fr. by exists e, fr. Qed.

Lemma install_replacement_raises la ig t b :
  always_raises (install_replacement la ig (VTensor t) b).
Proof.
  unfold install_replacement.
  do 2 (apply always_raises_bind_r; intros).
  intros fr.
  destruct (set_param_tensor_as_layer_attr t b a) as [e ->]. eauto.
Qed.

Lemma replace_or_install_raises pl cls la t b :
  PolicyLayer.replace_layer pl = Some cls ->
  always_raises (replace_or_install' pl la (VTensor t) b).
Proof.
  intros Hcls. unfold replace_or_install. rewrite Hcls.
  do 2 (apply always_raises_bind_r; intros).
  destruct (isinstance a0 KLinear).
  - apply always_raises_bind_r. intros. apply install_replacement_raises.
  - apply always_raises_bind_r. intros target.
    destruct (isinstance target KEmbedding); [|apply always_raises_raise].
    do 5 (apply always_raises_bind_r; intros).
    apply install_replacement_raises.
Qed.

(** C1, on the code: an instruction that names a replacement class and
    gets as far as a sliced pair never completes.  [set_param] is called
    with the sliced weight in the place of [layer_attr], and raises
    before it installs anything in the replacement layer. *)
Theorem replacement_never_installed bl pl fr la w b fr1 cls :
  prepare' bl pl fr = (Ok (Some (la, w, b)), fr1) ->
  PolicyLayer.replace_layer pl = Some cls ->
  exists e fr2, shard_policy_layer' bl pl fr = (Raise e, fr2).
Proof.
  intros Hprep Hcls. unfold shard_policy_layer.
  rewrite (bind_Ok _ _ _ _ _ Hprep). simpl.
  destruct (prepare_sliced _ _ _ _ _ _ _ Hprep)
    as (_ & _ & _ & _ & _ & _ & _ & _ & [t ->] & _).
  by apply (replace_or_install_raises pl cls).
Qed.

Lemma isinstance_module v k : isinstance v k = true -> is_module v = true.
Proof. by destruct v. Qed.

(** The replacement layer, a module, is at [layer_attr] when
    [install_replacement] has raised. *)
Lemma install_replacement_places la ig t b fr rl target :
  Frame.replace_layer fr = Some rl ->
  getattr_ (Frame.org_layer fr) la false = Ok target ->
  is_module target = true -> is_module rl = true ->
  exists e org2,
    install_replacement la ig (VTensor t) b fr
    = (Raise e, Frame.with_org_layer org2 fr)
    /\ getattr_ org2 la false = Ok rl.
Proof.
  intros Hrl Htarget Hmt Hmr. unfold install_replacement.
  destruct (setattr__module _ _ _ rl ig Htarget Hmt Hmr) as (org1 & Hset1 & Hget1).
  destruct (setattr__module _ _ _ rl ig Hget1 Hmr Hmr) as (org2 & Hset2 & Hget2).
  destruct (set_param_tensor_as_layer_attr t b rl) as [e He].
  exists e, org2. split; [|exact Hget2].
  unfold read_local, bind, gets, ret, on_org_layer, setattr_stmt.
  rewrite Hrl, Hset1. simpl. rewrite He, Hset2. by destruct fr.
Qed.

(** What [install_replacement] leaves of a replacement layer [rl] that was
    just built: the local variable holds it, and it is at [layer_attr]
    when it is a module. *)
Lemma install_replacement_built la ig t b fr rl target :
  getattr_ (Frame.org_layer fr) la false = Ok target ->
  is_module target = true ->
  let fr' := snd (install_replacement la ig (VTensor t) b
                    (Frame.with_replace_layer rl fr)) in
  Frame.replace_layer fr' = Some rl
  /\ (is_module rl = true -> getattr_ (Frame.org_layer fr') la false = Ok rl).
Proof.
  intros Htarget Hmt fr'. subst fr'. split.
  - by rewrite (keeps_install_replacement Frame.replace_layer la ig (VTensor t) b).
  - intros Hmr.
    destruct (install_replacement_places la ig t b
                (Frame.with_replace_layer rl fr) rl target eq_refl Htarget Hmt Hmr)
      as (e & org2 & -> & Hget).
    exact Hget.
Qed.

(** A replacement that is no module, no parameter and not [None] is not
    taken in the place of the layer: line 188 raises TypeError, and the
    layer is as it was. *)
Lemma install_replacement_refused la ig w b fr rl target e :
  Frame.replace_layer fr = Some rl ->
  getattr_ (Frame.org_layer fr) la false = Ok target ->
  refused (List.last (PyStr.split_dot la) "") rl (Some target) = Some e ->
  install_replacement la ig w b fr = (Raise e, fr).
Proof.
  intros Hrl Htarget Href. apply getattr__Ok in Htarget.
  unfold install_replacement, read_local, bind, gets, ret, on_org_layer,
    setattr_stmt, setattr_.
  rewrite Hrl.
  rewrite (setattr_path_refused _ _ _ _ ig _ (split_dot_nonempty la) Htarget Href).
  by destruct fr.
Qed.

(** C4, as the code has it: where the node at [layer_attr] is a dense
    linear layer, a [Linear1D_Row] replacement is built with the size
    arguments [(c, r)] for a sliced weight of shape [(r, c)], a
    [Linear1D_Col] replacement with [(r, c)] and the gather-output flag
    bound at that moment, both with bias enabled iff the sliced bias is
    not [None]; where it is an embedding layer the replacement is built
    with [(r, c, padding_idx)].  What was built is the value of the local
    [replace_layer] afterwards, and, being a module, it is at
    [layer_attr].  For any other kind the call raises
    UnsupportedLayerError and nothing is changed. *)
Theorem replacement_constructor_arguments pl cls la t b r c fr target :
  PolicyLayer.replace_layer pl = Some cls ->
  shape t = [r; c] ->
  getattr_ (Frame.org_layer fr) la false = Ok target ->
  let fr' := snd (replace_or_install' pl la (VTensor t) b fr) in
  (isinstance target KLinear = true -> cls = "Linear1D_Row" ->
   let rl := construct cls (LinearArgs c r (negb (is_None b)) None) in
   Frame.replace_layer fr' = Some rl
   /\ (is_module rl = true -> getattr_ (Frame.org_layer fr') la false = Ok rl))
  /\ (isinstance target KLinear = true -> cls = "Linear1D_Col" ->
      forall g, Frame.gather_output fr = Some g ->
      let rl := construct cls (LinearArgs r c (negb (is_None b)) (Some g)) in
      Frame.replace_layer fr' = Some rl
      /\ (is_module rl = true -> getattr_ (Frame.org_layer fr') la false = Ok rl))
  /\ (isinstance target KLinear = false ->
      isinstance target KEmbedding = true ->
      forall padding_idx,
        getattr_ (Frame.org_layer fr) (la ++ ".padding_idx") true = Ok padding_idx ->
        let rl := construct cls (EmbeddingArgs r c padding_idx) in
        Frame.replace_layer fr' = Some rl
        /\ (is_module rl = true -> getattr_ (Frame.org_layer fr') la false = Ok rl))
  /\ (isinstance target KLinear = false ->
      isinstance target KEmbedding = false ->
      replace_or_install' pl la (VTensor t) b fr
      = (Raise UnsupportedLayerError, fr)).
Proof.
  intros Hcls Hshape Htarget fr'. subst fr'.
  assert (Hstart : forall k : pyval -> pyval -> M Frame.t unit,
    (let! org_layer := gets Frame.org_layer in
     let! target := lift (getattr_ org_layer la false) in k org_layer target) fr
    = k (Frame.org_layer fr) target fr).
  { intros k. unfold bind, gets, lift. by rewrite Htarget. }
  unfold replace_or_install. rewrite Hcls, Hstart. clear Hstart.
  split; [|split; [|split]].
  - intros Hlin ->. rewrite Hlin. simpl String.eqb. cbv iota.
    unfold shape_of. rewrite Hshape.
    cbv [bind lift modify index read_local gets ret nth_error].
    apply (install_replacement_built la (PolicyLayer.ignore pl) t b fr
             (construct "Linear1D_Row" (LinearArgs c r (negb (is_None b)) None))
             target Htarget).
    by apply (isinstance_module _ KLinear).
  - intros Hlin -> g Hg. rewrite Hlin. simpl String.eqb. cbv iota.
    unfold shape_of. rewrite Hshape.
    cbv [bind lift modify index read_local gets ret nth_error].
    rewrite Hg.
    apply (install_replacement_built la (PolicyLayer.ignore pl) t b fr
             (construct "Linear1D_Col"
                (LinearArgs r c (negb (is_None b)) (Some g)))
             target Htarget).
    by apply (isinstance_module _ KLinear).
  - intros Hlin Hemb padding_idx Hpad. rewrite Hlin.
    unfold bind at 1, lift at 1. rewrite Htarget, Hemb.
    unfold shape_of. rewrite Hshape.
    cbv [bind lift modify index read_local gets ret nth_error].
    rewrite Hpad, ?Hemb.
    apply (install_replacement_built la (PolicyLayer.ignore pl) t b fr
             (construct cls (EmbeddingArgs r c padding_idx))
             target Htarget).
    by apply (isinstance_module _ KEmbedding).
  - intros Hlin Hemb. rewrite Hlin.
    unfold bind at 1, lift at 1. by rewrite Htarget, Hemb.
Qed.

Lemma bind_proj {A A' B} (proj : Frame.t -> B) (m : M Frame.t A)
    (k : A -> M Frame.t A') fr :
  (forall a, keeps proj (k a)) ->
  proj (snd (bind m k fr)) = proj (snd (m fr)).
Proof.
  intros Hk. unfold bind. destruct (m fr) as [[a|e] f]; simpl; [|done].
  apply Hk.
Qed.

Lemma keeps_resolve {B} (proj : Frame.t -> B) attr ignore :
  keeps proj (resolve attr ignore).
Proof. intros fr. by rewrite resolve_frame. Qed.

Lemma keeps_slice_and_save {B} (proj : Frame.t -> B) bl pl w b :
  (forall bm fr, proj (Frame.with_binding_map bm fr) = proj fr) ->
  keeps proj (slice_and_save' bl pl w b).
Proof.
  intros Hp. unfold slice_and_save.
  destruct (is_None w && is_None b && PolicyLayer.ignore pl); [apply keeps_ret|].
  apply keeps_bind; [apply keeps_assert|]. intros _.
  apply keeps_bind; [apply keeps_lift|]. intros la.
  apply keeps_bind; [apply keeps_lift|]. intros [w' b'].
  apply keeps_bind; [intros fr; by rewrite print_shapes_frame|]. intros _.
  apply keeps_bind; [|intros; apply keeps_ret].
  intros fr. rewrite save_binding_spec. apply Hp.
Qed.

(** The local [gather_output] after an instruction, however it ends. *)
Lemma gather_output_of_policy_layer bl pl fr :
  Frame.gather_output (snd (shard_policy_layer' bl pl fr))
  = gather_output_after (Frame.gather_output fr) pl.
Proof.
  unfold shard_policy_layer.
  rewrite bind_proj by (intros; by apply keeps_finish).
  unfold prepare. unfold bind at 1. rewrite bind_gather_output_spec.
  set (fr0 := after_gather_output pl fr).
  change (gather_output_after (Frame.gather_output fr) pl)
    with (Frame.gather_output fr0).
  apply (keeps_bind Frame.gather_output); [apply keeps_resolve|]. intros w.
  apply keeps_bind; [apply keeps_resolve|]. intros b.
  by apply keeps_slice_and_save.
Qed.

Lemma gather_output_of_loop bl pls : forall fr fr',
  for_each pls (shard_policy_layer' bl) fr = (Ok tt, fr') ->
  Frame.gather_output fr'
  = fold_left gather_output_after pls (Frame.gather_output fr).
Proof.
  induction pls as [|pl pls IH]; intros fr fr'; simpl.
  - unfold ret. by intros [= <-].
  - intros H. apply bind_Ok_inv in H as ([] & f1 & Hpl & Hrest).
    rewrite (IH _ _ Hrest). f_equal.
    pose proof (gather_output_of_policy_layer bl pl fr) as Hg.
    by rewrite Hpl in Hg.
Qed.

(** The two loops of [shard_one_layer] run the instructions of all the
    [param_funcs] in sequence. *)
Lemma shard_one_layer_loops_flat pf bl fr :
  shard_one_layer_loops slice_weight_bias construct environ_RANK pf bl fr
  = for_each (concat pf) (shard_policy_layer' bl) fr.
Proof.
  unfold shard_one_layer_loops. revert fr.
  induction pf as [|pls pf IH]; intros fr; simpl; [done|].
  unfold bind at 1.
  destruct (for_each pls (shard_policy_layer' bl) fr) as [[[]|e] f1] eqn:E.
  - rewrite (for_each_app _ _ _ _ _ E). apply IH.
  - clear IH. revert fr E. induction pls as [|pl pls IH]; intros fr E.
    + discriminate.
    + simpl in *. unfold bind in *.
      destruct (shard_policy_layer' bl pl fr) as [[[]|e'] f2]; [|done].
      by apply IH.
Qed.

(** C10: in one call of [shard_one_layer], after the instructions
    [processed], an instruction that gets as far as building a
    [Linear1D_Col] replacement for a dense linear layer raises
    UnboundLocalError when neither it nor any instruction before it is a
    [Col_Layer]; otherwise the replacement is built with the
    [gather_output] of the last [Col_Layer] instruction so far, be it the
    current one or an earlier one.  What was built is the value of the
    local [replace_layer] afterwards, and, being a module, it is at
    [layer_attr]. *)
Theorem gather_output_of_replacement bl processed pl org bm fr
    la t b fr1 r c rest target :
  for_each processed (shard_policy_layer' bl) (Frame.init org bm) = (Ok tt, fr) ->
  prepare' bl pl fr = (Ok (Some (la, VTensor t, b)), fr1) ->
  PolicyLayer.replace_layer pl = Some "Linear1D_Col" ->
  shape t = r :: c :: rest ->
  getattr_ (Frame.org_layer fr1) la false = Ok target ->
  isinstance target KLinear = true ->
  match last_gather_output (processed ++ [pl]) with
  | None => shard_policy_layer' bl pl fr = (Raise UnboundLocalError, fr1)
  | Some g =>
      let fr2 := snd (shard_policy_layer' bl pl fr) in
      let rl := construct "Linear1D_Col"
                  (LinearArgs r c (negb (is_None b)) (Some g)) in
      Frame.replace_layer fr2 = Some rl
      /\ (is_module rl = true -> getattr_ (Frame.org_layer fr2) la false = Ok rl)
  end.
Proof.
  intros Hloop Hprep Hcls Hshape Htarget Hlin.
  assert (Hg : Frame.gather_output fr1 = last_gather_output (processed ++ [pl])).
  { unfold last_gather_output. rewrite fold_left_app. simpl.
    pose proof (gather_output_of_loop _ _ _ _ Hloop) as Hfr.
    simpl in Hfr. rewrite <- Hfr.
    destruct (prepare_sliced _ _ _ _ _ _ _ Hprep)
      as (_ & _ & _ & _ & _ & _ & _ & _ & _ & ->).
    rewrite bind_gather_output_spec. reflexivity. }
  unfold shard_policy_layer. rewrite (bind_Ok _ _ _ _ _ Hprep). simpl finish.
  rewrite <- Hg. clear Hg Hloop Hprep.
  assert (Hstart : forall k : pyval -> pyval -> M Frame.t unit,
    (let! org_layer := gets Frame.org_layer in
     let! target := lift (getattr_ org_layer la false) in k org_layer target) fr1
    = k (Frame.org_layer fr1) target fr1).
  { intros k. unfold bind, gets, lift. by rewrite Htarget. }
  unfold replace_or_install. rewrite Hcls, Hstart, Hlin. clear Hstart.
  simpl String.eqb. cbv iota. unfold shape_of. rewrite Hshape.
  cbv [bind lift modify index read_local gets ret raise nth_error].
  destruct (Frame.gather_output fr1) as [g|]; [|reflexivity].
  apply (install_replacement_built la (PolicyLayer.ignore pl) t b fr1
           (construct "Linear1D_Col" (LinearArgs r c (negb (is_None b)) (Some g)))
           target Htarget).
  by apply (isinstance_module _ KLinear).
Qed.

(** ** C3: the binding map *)

Lemma slice_and_save_cases bl pl w b fr :
  (exists la w' b',
     slice_and_save' bl pl w b fr
     = (Ok (Some (la, w', b')),
        Frame.with_binding_map (record_binding bl w' b' (Frame.binding_map fr)) fr))
  \/ (snd (slice_and_save' bl pl w b fr) = fr
      /\ forall sliced, fst (slice_and_save' bl pl w b fr) = Ok sliced ->
         sliced = None).
Proof.
  unfold slice_and_save.
  destruct (is_None w && is_None b && PolicyLayer.ignore pl).
  { right. split; [done|]. by intros sliced [= <-]. }
  unfold bind, assert_, lift, ret, raise.
  destruct (negb (is_None w) || negb (is_None b));
    [|right; split; [done|discriminate]].
  destruct (layer_attr_of (PolicyLayer.weight pl) (PolicyLayer.bias pl)) as [la|];
    [|right; split; [done|discriminate]].
  destruct (slice_weight_bias w b (PolicyLayer.cls pl)) as [[w' b']|];
    [|right; split; [done|discriminate]].
  pose proof (print_shapes_frame w' b' fr) as Hf.
  destruct (print_shapes environ_RANK w' b' fr) as [[[]|e] f]; simpl in Hf; subst f;
    [|right; split; [done|discriminate]].
  rewrite save_binding_spec. left. eauto.
Qed.

(** An instruction that slices a pair records it for every binding
    layer; any other leaves the binding map as it is. *)
Lemma binding_map_of_policy_layer bl pl fr :
  match prepare' bl pl fr with
  | (Ok (Some (la, w, b)), _) =>
      Frame.binding_map (snd (shard_policy_layer' bl pl fr))
      = record_binding bl w b (Frame.binding_map fr)
  | _ =>
      Frame.binding_map (snd (shard_policy_layer' bl pl fr))
      = Frame.binding_map fr
  end.
Proof.
  assert (Hfin : forall r f,
    prepare' bl pl fr = (r, f) ->
    Frame.binding_map (snd (shard_policy_layer' bl pl fr)) = Frame.binding_map f).
  { intros r f Hp. unfold shard_policy_layer.
    rewrite bind_proj by (intros; by apply keeps_finish). by rewrite Hp. }
  destruct (prepare' bl pl fr) as [r f] eqn:Hp.
  rewrite (Hfin _ _ eq_refl). clear Hfin.
  unfold prepare in Hp. unfold bind at 1 in Hp.
  rewrite bind_gather_output_spec in Hp.
  set (fr0 := after_gather_output pl fr) in *.
  unfold bind at 1 in Hp.
  pose proof (resolve_frame (PolicyLayer.weight pl) (PolicyLayer.ignore pl) fr0) as Hf.
  destruct (resolve (PolicyLayer.weight pl) (PolicyLayer.ignore pl) fr0)
    as [[w0|e] f1]; simpl in Hf; subst f1; [|by injection Hp as <- <-].
  unfold bind at 1 in Hp.
  pose proof (resolve_frame (PolicyLayer.bias pl) (PolicyLayer.ignore pl) fr0) as Hf.
  destruct (resolve (PolicyLayer.bias pl) (PolicyLayer.ignore pl) fr0)
    as [[b0|e] f1]; simpl in Hf; subst f1; [|by injection Hp as <- <-].
  destruct (slice_and_save_cases bl pl w0 b0 fr0)
    as [(la & w & b & Hs)|[Hs Hnone]].
  - rewrite Hs in Hp. by injection Hp as <- <-.
  - rewrite Hp in Hs, Hnone. simpl in Hs, Hnone. subst f.
    destruct r as [[[[la w] b]|]|e]; try done.
    by specialize (Hnone _ eq_refl).
Qed.

Lemma forget_fields fr1 fr2 :
  forget fr1 = forget fr2 <->
  Frame.org_layer fr1 = Frame.org_layer fr2
  /\ Frame.gather_output fr1 = Frame.gather_output fr2
  /\ Frame.replace_layer fr1 = Frame.replace_layer fr2.
Proof.
  destruct fr1, fr2. unfold forget, Frame.with_binding_map. simpl.
  split; [intros [= -> -> ->]; done | intros (-> & -> & ->); done].
Qed.

Lemma sim_ret {A} (a : A) : sim (ret a) (ret a).
Proof. by intros fr1 fr2 H. Qed.

Lemma sim_raise {A} e : sim (@raise _ A e) (raise e).
Proof. by intros fr1 fr2 H. Qed.

Lemma sim_lift {A} (o : outcome A) : sim (lift o) (lift o).
Proof. by intros fr1 fr2 H. Qed.

Lemma sim_assert b : sim (assert_ b) (assert_ b).
Proof. destruct b; [apply sim_ret | apply sim_raise]. Qed.

Lemma sim_bind {A B} (m1 m2 : M Frame.t A) (k1 k2 : A -> M Frame.t B) :
  sim m1 m2 -> (forall a, sim (k1 a) (k2 a)) -> sim (bind m1 k1) (bind m2 k2).
Proof.
  intros Hm Hk fr1 fr2 H. unfold bind. destruct (Hm fr1 fr2 H) as [Hr Hf].
  destruct (m1 fr1) as [[a|e] f1], (m2 fr2) as [[a'|e'] f2];
    simpl in *; try discriminate.
  - injection Hr as <-. by apply Hk.
  - by injection Hr as <-.
Qed.

Lemma sim_for_each {A} (l : list A) (body1 body2 : A -> M Frame.t unit) :
  (forall a, sim (body1 a) (body2 a)) -> sim (for_each l body1) (for_each l body2).
Proof.
  intros Hb. induction l as [|a l IH]; simpl.
  - apply sim_ret.
  - apply sim_bind; [apply Hb | intros _; apply IH].
Qed.

Lemma sim_gets {A} (proj : Frame.t -> A) :
  (forall fr, proj (forget fr) = proj fr) -> sim (gets proj) (gets proj).
Proof.
  intros Hp fr1 fr2 H. unfold gets. simpl. split; [|done].
  f_equal. by rewrite <- (Hp fr1), <- (Hp fr2), H.
Qed.

Lemma sim_modify (f : Frame.t -> Frame.t) :
  (forall fr, forget (f fr) = f (forget fr)) -> sim (modify f) (modify f).
Proof.
  intros Hf fr1 fr2 H. unfold modify. simpl. split; [done|].
  by rewrite !Hf, H.
Qed.

Lemma sim_resolve attr ignore : sim (resolve attr ignore) (resolve attr ignore).
Proof.
  unfold resolve. destruct attr as [a|]; [|apply sim_ret].
  apply sim_bind; [by apply sim_gets|]. intros org.
  destruct (hasattr_ org a); [apply sim_lift|].
  destruct (negb ignore); [apply sim_raise | apply sim_ret].
Qed.

Lemma sim_print_shapes w b :
  sim (print_shapes environ_RANK w b) (print_shapes environ_RANK w b).
Proof.
  unfold print_shapes. destruct environ_RANK; [|apply sim_raise].
  apply sim_bind; [apply sim_lift|]. intros _.
  destruct (is_None b); [apply sim_ret|].
  apply sim_bind; [apply sim_lift|]. intros _. apply sim_ret.
Qed.

Lemma sim_save_binding bl1 bl2 w b : sim (save_binding bl1 w b) (save_binding bl2 w b).
Proof.
  intros fr1 fr2 H. rewrite !save_binding_spec. simpl. split; [done|].
  apply forget_fields in H. apply forget_fields. by destruct fr1, fr2.
Qed.

Lemma sim_on_org_layer m : sim (on_org_layer m) (on_org_layer m).
Proof.
  intros fr1 fr2 H. apply forget_fields in H as (Ho & Hg & Hr).
  unfold on_org_layer. rewrite Ho. destruct (m (Frame.org_layer fr2)) as [r o].
  simpl. split; [done|]. apply forget_fields. by destruct fr1, fr2.
Qed.

Lemma sim_read_local {A} (proj : Frame.t -> option A) :
  (forall fr, proj (forget fr) = proj fr) -> sim (read_local proj) (read_local proj).
Proof.
  intros Hp. unfold read_local. apply sim_bind; [by apply sim_gets|].
  intros [a|]; [apply sim_ret | apply sim_raise].
Qed.

Lemma sim_install_replacement la ig w b :
  sim (install_replacement la ig w b) (install_replacement la ig w b).
Proof.
  unfold install_replacement.
  apply sim_bind; [by apply sim_read_local|]. intros rl.
  apply sim_bind; [apply sim_on_org_layer|]. intros _.
  intros fr1 fr2 H. apply forget_fields in H as (Ho & Hg & Hr).
  destruct (set_param w b VNone rl) as [r rl']. rewrite Ho. simpl.
  split; [done|]. apply forget_fields. by destruct fr1, fr2.
Qed.

Lemma sim_replace_or_install pl la w b :
  sim (replace_or_install' pl la w b) (replace_or_install' pl la w b).
Proof.
  unfold replace_or_install.
  destruct (PolicyLayer.replace_layer pl) as [cls|]; [|apply sim_on_org_layer].
  apply sim_bind; [by apply sim_gets|]. intros org.
  apply sim_bind; [apply sim_lift|]. intros target.
  destruct (isinstance target KLinear).
  - apply sim_bind; [|intros; apply sim_install_replacement].
    destruct (String.eqb cls "Linear1D_Row");
      [|destruct (String.eqb cls "Linear1D_Col")].
    + repeat (apply sim_bind; [apply sim_lift|]; intros).
      by apply sim_modify.
    + repeat (apply sim_bind; [apply sim_lift|]; intros).
      apply sim_bind; [by apply sim_read_local|]. intros.
      by apply sim_modify.
    + apply sim_ret.
  - apply sim_bind; [apply sim_lift|]. intros target'.
    destruct (isinstance target' KEmbedding); [|apply sim_raise].
    repeat (apply sim_bind; [apply sim_lift|]; intros).
    apply sim_bind; [by apply sim_modify|]. intros.
    apply sim_install_replacement.
Qed.

Lemma sim_shard_policy_layer bl1 bl2 pl :
  sim (shard_policy_layer' bl1 pl) (shard_policy_layer' bl2 pl).
Proof.
  unfold shard_policy_layer. apply sim_bind.
  - unfold prepare. apply sim_bind.
    { unfold bind_gather_output.
      destruct (String.eqb _ _); [by apply sim_modify | apply sim_ret]. }
    intros _. apply sim_bind; [apply sim_resolve|]. intros w.
    apply sim_bind; [apply sim_resolve|]. intros b.
    unfold slice_and_save.
    destruct (is_None w && is_None b && PolicyLayer.ignore pl); [apply sim_ret|].
    apply sim_bind; [apply sim_assert|]. intros _.
    apply sim_bind; [apply sim_lift|]. intros la.
    apply sim_bind; [apply sim_lift|]. intros [w' b'].
    apply sim_bind; [apply sim_print_shapes|]. intros _.
    apply sim_bind; [apply sim_save_binding|]. intros _. apply sim_ret.
  - intros [[[la w] b]|]; simpl; [apply sim_replace_or_install | apply sim_ret].
Qed.

(** What [shard_one_layer] returns and what it makes of the layer depend
    neither on the binding layers nor on the binding map. *)
Lemma shard_one_layer_binding_free pf bl1 bl2 org bm1 bm2 :
  let res1 := shard_one_layer slice_weight_bias construct environ_RANK pf bl1 (org, bm1) in
  let res2 := shard_one_layer slice_weight_bias construct environ_RANK pf bl2 (org, bm2) in
  fst res1 = fst res2 /\ fst (snd res1) = fst (snd res2).
Proof.
  unfold shard_one_layer, shard_one_layer_loops.
  assert (Hsim : sim
    (for_each pf (fun pls => for_each pls (shard_policy_layer' bl1)))
    (for_each pf (fun pls => for_each pls (shard_policy_layer' bl2)))).
  { apply sim_for_each. intros pls. apply sim_for_each. intros pl.
    apply sim_shard_policy_layer. }
  destruct (Hsim (Frame.init org bm1) (Frame.init org bm2) eq_refl) as [Hr Hf].
  destruct (for_each pf _ (Frame.init org bm1)) as [r1 f1].
  destruct (for_each pf _ (Frame.init org bm2)) as [r2 f2].
  simpl in *. split; [done|]. by apply forget_fields in Hf as (Ho & _).
Qed.

End SharderProps.

(** ** The traversal *)

Lemma pyval_nested_ind (P : pyval -> Prop) :
  P VNone ->
  (forall b, P (VBool b)) ->
  (forall n, P (VInt n)) ->
  (forall s, P (VStr s)) ->
  (forall t, P (VTensor t)) ->
  (forall c k attrs, Forall (fun a => P (snd a)) attrs -> P (VModule c k attrs)) ->
  forall v, P v.
Proof.
  intros HN HB HI HS HT HM. fix IH 1.
  intros [ | b | n | s | t | c k attrs];
    [apply HN | apply HB | apply HI | apply HS | apply HT | ].
  apply HM. revert attrs. fix IHl 1.
  intros [|[a v] l]; constructor; [apply IH | apply IHl].
Qed.

Lemma for_named_children_ext f g l : forall bm,
  Forall (fun a => is_module (snd a) = true ->
                   forall bm, f (snd a) bm = g (snd a) bm) l ->
  for_named_children f l bm = for_named_children g l bm.
Proof.
  induction l as [|[name child] l IH]; intros bm Hl; [done|].
  inversion Hl as [|? ? Hc Hrest]; subst. simpl in Hc.
  simpl. destruct (is_module child).
  - rewrite (Hc eq_refl).
    destruct (g child bm) as [[[]|e] [child' bm1]]; [|done].
    by rewrite IH.
  - by rewrite IH.
Qed.

Section TraversalProps.

Variable slice_weight_bias :
  pyval -> pyval -> PolicyClass -> outcome (pyval * pyval).
Variable construct : string -> CtorArgs -> pyval.
Variable environ_RANK : option string.

Local Abbreviation shard_child' :=
  (shard_child slice_weight_bias construct environ_RANK).
Local Abbreviation reverse_replace_layer' :=
  (reverse_replace_layer slice_weight_bias construct environ_RANK).
Local Abbreviation traverse_spec' :=
  (traverse_spec slice_weight_bias construct environ_RANK).
Local Abbreviation replace_layer' :=
  (replace_layer slice_weight_bias construct environ_RANK).

(** The visit of the children in the specification's words is the loop
    over [named_children] of the code. *)
Lemma into_children_loop f l bm : into_children f l bm = for_named_children f l bm.
Proof.
  unfold into_children.
  assert (Hraise : forall l e seen bm,
    fold_left (into_child f) l (Raise e, (seen, bm))
    = (Raise e, ((seen ++ l)%list, bm))).
  { clear. induction l as [|a l IH]; intros e seen bm; simpl.
    - by rewrite app_nil_r.
    - rewrite IH. by rewrite <- app_assoc. }
  assert (Hgen : forall l seen bm,
    fold_left (into_child f) l (Ok tt, (seen, bm))
    = let '(r, (l', bm')) := for_named_children f l bm in
      (r, ((seen ++ l')%list, bm'))).
  { clear l bm. induction l as [|[name child] l IH]; intros seen bm; simpl.
    - by rewrite app_nil_r.
    - destruct (is_module child).
      + destruct (f child bm) as [[[]|e] [child' bm1]].
        * rewrite IH.
          destruct (for_named_children f l bm1) as [r2 [rest' bm2]].
          by rewrite <- app_assoc.
        * rewrite Hraise. by rewrite <- app_assoc.
      + rewrite IH.
        destruct (for_named_children f l bm) as [r2 [rest' bm2]].
        by rewrite <- app_assoc. }
  rewrite Hgen. by destruct (for_named_children f l bm) as [r [l' bm']].
Qed.

(** Lines 114-118 do to a child what the specification has done to a node
    of the class looked for. *)
Lemma shard_child_spec ad pf bl : forall child bm,
  shard_child' ad pf bl (child, bm)
  = match apply_overrides ad child with
    | (Ok _, node') =>
        shard_one_layer slice_weight_bias construct environ_RANK pf bl (node', bm)
    | (Raise e, node') => (Raise e, (node', bm))
    end.
Proof.
  unfold shard_child.
  induction ad as [|[k v] ad IH]; intros child bm; [reflexivity|].
  simpl for_each. simpl apply_overrides.
  unfold bind at 1. unfold bind at 1. unfold setattr_stmt at 1.
  destruct (setattr_ child k v true) as [child1|e]; [|reflexivity].
  specialize (IH child1 bm). unfold bind in IH. exact IH.
Qed.

Lemma reverse_replace_layer_children origin ad pf bl v : forall bm,
  reverse_replace_layer' origin ad pf bl v bm
  = match v with
    | VModule c k attrs =>
        let '(r, (attrs', bm')) :=
          into_children (traverse_spec' origin ad pf bl) attrs bm in
        (r, (VModule c k attrs', bm'))
    | _ => (Raise AttributeError, (v, bm))
    end.
Proof.
  induction v as [ | | | | | c k attrs IH] using pyval_nested_ind;
    intros bm; try reflexivity.
  rewrite into_children_loop.
  simpl. erewrite for_named_children_ext; [reflexivity|].
  clear bm. induction IH as [|[name child] l Hc _ IHl]; constructor; [|exact IHl].
  simpl in *. intros Hmod bm.
  destruct child as [ | | | | | cc ck cattrs]; try discriminate.
  simpl class_of. destruct (String.eqb cc origin) eqn:E.
  - rewrite shard_child_spec. simpl. by rewrite E.
  - rewrite Hc. simpl. rewrite E. by rewrite into_children_loop.
Qed.

Lemma assoc_set_same a v l : assoc_get a l = Some v -> assoc_set a v l = l.
Proof.
  induction l as [|[k w] l IH]; simpl; [done|].
  destruct (String.eqb k a) eqn:E.
  - by intros [= ->].
  - intros H. by rewrite IH.
Qed.

(** With [ignore] set, an assignment whose owner is not there does
    nothing. *)
Lemma setattr_path_owner_missing v : forall p obj,
  getattr_path obj (removelast p) = None ->
  setattr_path obj p v true = Ok obj.
Proof.
  induction p as [|a p IH]; intros obj Hnone; [discriminate|].
  destruct p as [|b rest]; [discriminate|].
  rewrite setattr_path_cons.
  change (removelast (a :: b :: rest)) with (a :: removelast (b :: rest)) in Hnone.
  simpl in Hnone.
  destruct (py_getattr obj a) as [o|] eqn:E; [|done].
  rewrite (IH o Hnone).
  destruct (py_getattr_Some_module _ _ _ E) as (c & k & l & ->).
  simpl in E. by rewrite (assoc_set_same _ _ _ E).
Qed.

(** An assignment of a name that its owner, a module, does not have
    binds the name there. *)
Lemma setattr_path_creates v ig p obj c k l :
  p <> [] ->
  getattr_path obj (removelast p) = Some (VModule c k l) ->
  assoc_get (List.last p "") l = None ->
  is_tensor v = false \/ List.last p "" <> "" ->
  exists obj', setattr_path obj p v ig = Ok obj'
               /\ getattr_path obj' p = Some v.
Proof.
  intros Hp Howner Hnew Hname.
  rewrite (app_removelast_last "" Hp).
  pose proof (setattr_path_under (removelast p) (List.last p "") v ig obj _ Howner)
    as H.
  assert (Hok : refused (List.last p "") v (assoc_get (List.last p "") l) = None).
  { rewrite Hnew. unfold refused. simpl.
    destruct (is_tensor v) eqn:Et.
    - destruct Hname as [|Hne]; [done|].
      destruct (String.eqb (List.last p "") "") eqn:E; [|done].
      apply String.eqb_eq in E. contradiction.
    - by destruct (is_module v). }
  rewrite (py_setattr_module _ _ _ _ _ Hok) in H.
  destruct H as (obj' & Hset & Hget). exists obj'. split; [done|].
  rewrite getattr_path_app, Hget. simpl. by rewrite assoc_get_bind_eq.
Qed.

(** C2, as the code has it: [reverse_replace_layer] never tests the layer
    it is given, it goes through that layer's children; to each child, in
    order, it does what the specification's traversal does to a node.  A
    child of the class looked for gets the attribute overrides, one after
    the other, then [shard_one_layer], and is not entered; any other child
    is entered in the same way.  So the two agree on every model whose own
    class is not the class looked for.  An override is an assignment by
    [setattr_] with [ignore] set: it does nothing when the object that
    owns its last component is not there; it binds that last component
    when the owner does not have it; and where the name does not take the
    value, as a child does not take a scalar, it raises, which ends the
    traversal before the remaining overrides and [shard_one_layer]. *)
Theorem reverse_replace_layer_tests_children origin ad pf bl c k attrs bm :
  reverse_replace_layer' origin ad pf bl (VModule c k attrs) bm
  = (let '(r, (attrs', bm')) :=
       into_children (traverse_spec' origin ad pf bl) attrs bm in
     (r, (VModule c k attrs', bm')))
  /\ (c <> origin ->
      reverse_replace_layer' origin ad pf bl (VModule c k attrs) bm
      = traverse_spec' origin ad pf bl (VModule c k attrs) bm)
  /\ (forall kd nattrs bm0,
        traverse_spec' origin ad pf bl (VModule origin kd nattrs) bm0
        = match apply_overrides ad (VModule origin kd nattrs) with
          | (Ok _, node') =>
              shard_one_layer slice_weight_bias construct environ_RANK
                pf bl (node', bm0)
          | (Raise e, node') => (Raise e, (node', bm0))
          end)
  /\ (forall node key v,
        getattr_path node (removelast (PyStr.split_dot key)) = None ->
        apply_overrides [(key, v)] node = (Ok tt, node))
  /\ (forall node key v oc ok oattrs,
        getattr_path node (removelast (PyStr.split_dot key))
        = Some (VModule oc ok oattrs) ->
        assoc_get (List.last (PyStr.split_dot key) "") oattrs = None ->
        is_tensor v = false \/ List.last (PyStr.split_dot key) "" <> "" ->
        exists node',
          apply_overrides [(key, v)] node = (Ok tt, node')
          /\ getattr_ node' key false = Ok v)
  /\ (forall node key v old e rest,
        getattr_path node (PyStr.split_dot key) = Some old ->
        refused (List.last (PyStr.split_dot key) "") v (Some old) = Some e ->
        apply_overrides ((key, v) :: rest) node = (Raise e, node)).
Proof.
  split; [exact (reverse_replace_layer_children origin ad pf bl _ bm)|].
  split.
  { intros Hne. rewrite reverse_replace_layer_children. simpl.
    destruct (String.eqb c origin) eqn:E; [|done].
    apply String.eqb_eq in E. contradiction. }
  split.
  { intros kd nattrs bm0. simpl. by rewrite String.eqb_refl. }
  split.
  { intros node key v Hnone. simpl. unfold setattr_.
    by rewrite setattr_path_owner_missing. }
  split.
  - intros node key v oc ok oattrs Howner Hnew Hname.
    destruct (setattr_path_creates v true (PyStr.split_dot key) node oc ok oattrs
                (split_dot_nonempty key) Howner Hnew Hname)
      as (node' & Hset & Hget).
    exists node'. simpl. unfold setattr_. rewrite Hset. split; [done|].
    by apply getattr__Ok.
  - intros node key v old e rest Hget Href. simpl. unfold setattr_.
    by rewrite (setattr_path_refused _ _ _ _ true _ (split_dot_nonempty key)
                  Hget Href).
Qed.

(** *** The binding map is not read *)

Lemma attr_overrides_state (ad : list (string * pyval)) : forall child,
  exists r child', forall bm : BindingMap,
    for_each ad (fun '(k, v) => fun '(child, bm) =>
                   let '(r, child') := setattr_stmt k v true child in
                   (r, (child', bm))) (child, bm)
    = (r, (child', bm)).
Proof.
  induction ad as [|[k v] ad IH]; intros child; simpl.
  - by exists (Ok tt), child.
  - unfold bind.
    destruct (setattr_stmt k v true child) as [[[]|e] child1] eqn:E.
    + destruct (IH child1) as (r & child' & H). exists r, child'. apply H.
    + by exists (Raise e), child1.
Qed.

Lemma shard_child_binding_free ad pf bl1 bl2 child bm1 bm2 :
  let res1 := shard_child' ad pf bl1 (child, bm1) in
  let res2 := shard_child' ad pf bl2 (child, bm2) in
  fst res1 = fst res2 /\ fst (snd res1) = fst (snd res2).
Proof.
  unfold shard_child, bind.
  destruct (attr_overrides_state ad child) as (r & child' & H).
  rewrite !H. destruct r as [[]|e]; [|done].
  apply shard_one_layer_binding_free.
Qed.

Lemma for_named_children_binding_free f1 f2 l :
  Forall (fun a => is_module (snd a) = true ->
            forall bm1 bm2 : BindingMap,
              fst (f1 (snd a) bm1) = fst (f2 (snd a) bm2)
              /\ fst (snd (f1 (snd a) bm1)) = fst (snd (f2 (snd a) bm2))) l ->
  forall bm1 bm2,
    fst (for_named_children f1 l bm1) = fst (for_named_children f2 l bm2)
    /\ fst (snd (for_named_children f1 l bm1))
       = fst (snd (for_named_children f2 l bm2)).
Proof.
  induction 1 as [|[name child] l Hc _ IH]; intros bm1 bm2; [done|].
  simpl in *. destruct (is_module child).
  - destruct (Hc eq_refl bm1 bm2) as [Hr Ho].
    destruct (f1 child bm1) as [r1 [c1 b1]], (f2 child bm2) as [r2 [c2 b2]].
    simpl in *. subst r2 c2. destruct r1 as [[]|e]; [|done].
    destruct (IH b1 b2) as [Hr Ho].
    destruct (for_named_children f1 l b1) as [r1' [l1 b1']].
    destruct (for_named_children f2 l b2) as [r2' [l2 b2']].
    simpl in *. by subst.
  - destruct (IH bm1 bm2) as [Hr Ho].
    destruct (for_named_children f1 l bm1) as [r1' [l1 b1']].
    destruct (for_named_children f2 l bm2) as [r2' [l2 b2']].
    simpl in *. by subst.
Qed.

Lemma reverse_replace_layer_binding_free origin ad pf bl1 bl2 v :
  forall bm1 bm2,
    fst (reverse_replace_layer' origin ad pf bl1 v bm1)
    = fst (reverse_replace_layer' origin ad pf bl2 v bm2)
    /\ fst (snd (reverse_replace_layer' origin ad pf bl1 v bm1))
       = fst (snd (reverse_replace_layer' origin ad pf bl2 v bm2)).
Proof.
  induction v as [ | | | | | c k attrs IH] using pyval_nested_ind;
    intros bm1 bm2; try done.
  simpl.
  match goal with
  | |- context [for_named_children ?f1 attrs bm1] =>
      match goal with
      | |- context [for_named_children ?f2 attrs bm2] =>
          destruct (for_named_children_binding_free f1 f2 attrs) with
            (bm1 := bm1) (bm2 := bm2) as [Hr Ho];
          [|destruct (for_named_children f1 attrs bm1) as [r1 [l1 b1]];
            destruct (for_named_children f2 attrs bm2) as [r2 [l2 b2]]]
      end
  end.
  - clear bm1 bm2.
    induction IH as [|[name child] l Hc _ IHl]; constructor; [|exact IHl].
    simpl in *. intros _ bm1 bm2.
    destruct (String.eqb (class_of child) origin); [|apply Hc].
    apply shard_child_binding_free.
  - simpl in *. by subst.
Qed.

(** What the pass returns and what it makes of the model depend neither
    on the binding layers of the rules nor on the binding map. *)
Lemma replace_layer_binding_free aps1 aps2 :
  Forall2 same_rules aps1 aps2 ->
  forall model bm1 bm2,
    fst (replace_layer' aps1 (model, bm1)) = fst (replace_layer' aps2 (model, bm2))
    /\ fst (snd (replace_layer' aps1 (model, bm1)))
       = fst (snd (replace_layer' aps2 (model, bm2))).
Proof.
  unfold replace_layer.
  induction 1 as [|[o1 p1] [o2 p2] aps1 aps2 (Ho & Had & Hpf) _ IH];
    intros model bm1 bm2; [done|].
  simpl in *. subst o2. rewrite Had, Hpf. unfold bind.
  destruct (reverse_replace_layer_binding_free o1 (ArgPolicy.attr_dict p2)
              (ArgPolicy.param_funcs p2) (ArgPolicy.binding_layers p1)
              (ArgPolicy.binding_layers p2) model bm1 bm2) as [Hr Hm].
  destruct (reverse_replace_layer' o1 _ _ (ArgPolicy.binding_layers p1) model bm1)
    as [r1 [m1 b1]].
  destruct (reverse_replace_layer' o1 _ _ (ArgPolicy.binding_layers p2) model bm2)
    as [r2 [m2 b2]].
  simpl in *. subst r2 m2. destruct r1 as [[]|e]; [|done].
  apply IH.
Qed.

(** C3, as the code has it: an instruction for which a pair is sliced
    records that pair under every binding layer, over whatever was
    recorded there, and leaves the other keys; an instruction for which
    none is sliced leaves the map.  The map is written and never read:
    the model that the pass produces, and whether it completes, are the
    same whatever classes the rules list as binding layers and whatever
    the map holds. *)
Theorem binding_map_written_not_read :
  (forall bl pl fr,
     let bm' := Frame.binding_map
                  (snd (shard_policy_layer slice_weight_bias construct
                          environ_RANK bl pl fr)) in
     match prepare slice_weight_bias environ_RANK bl pl fr with
     | (Ok (Some (la, w, b)), _) =>
         forall k, (In k bl -> bm' !! k = Some (w, b))
                   /\ (~ In k bl -> bm' !! k = Frame.binding_map fr !! k)
     | _ => bm' = Frame.binding_map fr
     end)
  /\ (forall aps1 aps2 model bm1 bm2,
        Forall2 same_rules aps1 aps2 ->
        fst (replace_layer' aps1 (model, bm1)) = fst (replace_layer' aps2 (model, bm2))
        /\ fst (snd (replace_layer' aps1 (model, bm1)))
           = fst (snd (replace_layer' aps2 (model, bm2)))).
Proof.
  split.
  - intros bl pl fr bm'. subst bm'.
    pose proof (binding_map_of_policy_layer slice_weight_bias construct
                  environ_RANK bl pl fr) as H.
    destruct (prepare slice_weight_bias environ_RANK bl pl fr)
      as [[[[[la w] b]|]|e] f]; try exact H.
    intros k. rewrite H. split.
    + apply record_binding_lookup_in.
    + apply record_binding_lookup_out.
  - intros aps1 aps2 model bm1 bm2 H. by apply replace_layer_binding_free.
Qed.

End TraversalProps.

(** ** set_param and set_layer_size *)

Lemma split_param_path s name :
  PyStr.split_dot name = [name] ->
  PyStr.split_dot (param_path s name)
  = ((if String.eqb s "" then [] else PyStr.split_dot s) ++ [name])%list.
Proof.
  intros Hn. unfold param_path. destruct (String.eqb s ""); [done|].
  by rewrite split_dot_app, Hn.
Qed.

Lemma split_size_path s attr :
  PyStr.split_dot attr = [attr] ->
  PyStr.split_dot (s ++ "." ++ attr) = (PyStr.split_dot s ++ [attr])%list.
Proof. intros Ha. by rewrite split_dot_app, Ha. Qed.

Lemma param_path_under layer_attr name :
  layer_attr <> "" -> param_path layer_attr name = layer_attr ++ "." ++ name.
Proof.
  intros Hla. unfold param_path. destruct (String.eqb layer_attr "") eqn:E; [|done].
  apply String.eqb_eq in E. contradiction.
Qed.

(** Installing a parameter leaves the size attributes as they are. *)
Lemma setattr_param_keeps_size s name attr layer layer' v ig :
  PyStr.split_dot name = [name] -> PyStr.split_dot attr = [attr] ->
  name <> attr -> name <> "" ->
  setattr_ layer (param_path s name) v ig = Ok layer' ->
  getattr_path layer' (PyStr.split_dot (s ++ "." ++ attr))
  = getattr_path layer (PyStr.split_dot (s ++ "." ++ attr)).
Proof.
  intros Hn Ha Hne Hne' Hset. unfold setattr_ in Hset.
  rewrite split_param_path in Hset by done. rewrite split_size_path by done.
  destruct (String.eqb s "") eqn:E.
  - apply String.eqb_eq in E. subst s. simpl PyStr.split_dot.
    by apply (getattr_setattr_path_other [] name "" [attr] layer layer' v ig).
  - by apply (getattr_setattr_path_other (PyStr.split_dot s) name attr []
                layer layer' v ig).
Qed.

(** Rewriting one size attribute leaves the other as it is. *)
Lemma setattr_size_keeps_size s a1 a2 layer layer' v ig :
  PyStr.split_dot a1 = [a1] -> PyStr.split_dot a2 = [a2] -> a1 <> a2 ->
  setattr_ layer (s ++ "." ++ a1) v ig = Ok layer' ->
  getattr_path layer' (PyStr.split_dot (s ++ "." ++ a2))
  = getattr_path layer (PyStr.split_dot (s ++ "." ++ a2)).
Proof.
  intros H1 H2 Hne Hset. unfold setattr_ in Hset.
  rewrite split_size_path in Hset by done. rewrite split_size_path by done.
  by apply (getattr_setattr_path_other (PyStr.split_dot s) a1 a2 []
              layer layer' v ig).
Qed.

Lemma hasattr__under la a layer c k l :
  PyStr.split_dot a = [a] ->
  getattr_ layer la false = Ok (VModule c k l) ->
  hasattr_ layer (la ++ "." ++ a)
  = match assoc_get a l with Some _ => true | None => false end.
Proof.
  intros Ha Hget. apply getattr__Ok in Hget.
  unfold hasattr_. rewrite split_size_path by done.
  rewrite getattr_path_app, Hget. simpl. by destruct (assoc_get a l).
Qed.

Lemma setattr__under la a v ig layer c k l :
  PyStr.split_dot a = [a] ->
  getattr_ layer la false = Ok (VModule c k l) ->
  match refused a v (assoc_get a l) with
  | None =>
      exists layer', setattr_ layer (la ++ "." ++ a) v ig = Ok layer'
                     /\ getattr_ layer' la false
                        = Ok (VModule c k (bind_attr a v l))
  | Some e => setattr_ layer (la ++ "." ++ a) v ig = Raise e
  end.
Proof.
  intros Ha Hget. apply getattr__Ok in Hget.
  pose proof (setattr_path_under (PyStr.split_dot la) a v ig layer _ Hget) as H.
  unfold setattr_. rewrite split_size_path by done. simpl in H.
  destruct (refused a v (assoc_get a l)); [done|].
  destruct H as (layer' & Hset & Hget').
  exists layer'. split; [done|]. by apply getattr__Ok.
Qed.

(** A parameter assigned under a module. *)
Lemma setattr__under_param la a t ig layer c k l :
  PyStr.split_dot a = [a] -> a <> "" ->
  getattr_ layer la false = Ok (VModule c k l) ->
  exists layer', setattr_ layer (la ++ "." ++ a) (VTensor t) ig = Ok layer'
                 /\ getattr_ layer' la false
                    = Ok (VModule c k (assoc_set a (VTensor t) l)).
Proof.
  intros Ha Hne Hget.
  pose proof (setattr__under la a (VTensor t) ig layer c k l Ha Hget) as H.
  by rewrite refused_tensor in H.
Qed.

Lemma refused_VInt a n l :
  takes_scalar a l = true -> refused a (VInt n) (assoc_get a l) = None.
Proof.
  unfold takes_scalar. intros H. apply andb_prop in H as [Ht Hm].
  apply refused_scalar; try done; by apply negb_true_iff.
Qed.

(** An integer assigned under a module, to a name that takes it. *)
Lemma setattr__under_int la a n ig layer c k l :
  PyStr.split_dot a = [a] -> takes_scalar a l = true ->
  getattr_ layer la false = Ok (VModule c k l) ->
  exists layer', setattr_ layer (la ++ "." ++ a) (VInt n) ig = Ok layer'
                 /\ getattr_ layer' la false
                    = Ok (VModule c k (assoc_set a (VInt n) l)).
Proof.
  intros Ha Hs Hget.
  pose proof (setattr__under la a (VInt n) ig layer c k l Ha Hget) as H.
  by rewrite refused_VInt in H.
Qed.

(** An assignment under a module that went through. *)
Lemma setattr__under_Ok la a v ig layer layer' c k l :
  PyStr.split_dot a = [a] ->
  getattr_ layer la false = Ok (VModule c k l) ->
  setattr_ layer (la ++ "." ++ a) v ig = Ok layer' ->
  getattr_ layer' la false = Ok (VModule c k (bind_attr a v l)).
Proof.
  intros Ha Hget Hset.
  pose proof (setattr__under la a v ig layer c k l Ha Hget) as H.
  destruct (refused a v (assoc_get a l)); [congruence|].
  destruct H as (layer'' & Hset' & Hget'). congruence.
Qed.

(** One turn of the loop of [set_layer_size] that went through, seen on
    the module under [layer_attr]. *)
Lemma set_layer_size_attr_under la size i a layer layer' c k l :
  PyStr.split_dot a = [a] ->
  getattr_ layer la false = Ok (VModule c k l) ->
  set_layer_size_attr la size i a layer = (Ok tt, layer') ->
  exists l',
    getattr_ layer' la false = Ok (VModule c k l')
    /\ (forall b, b <> a -> assoc_get b l' = assoc_get b l)
    /\ (assoc_get a l = None -> assoc_get a l' = None)
    /\ (assoc_get a l <> None ->
        exists n, nth_error size i = Some n /\ assoc_get a l' = Some (VInt n)).
Proof.
  intros Ha Hget.
  unfold set_layer_size_attr, bind, get, lift, ret, setattr_stmt, index.
  rewrite (hasattr__under la a layer c k l Ha Hget).
  destruct (assoc_get a l) as [old|] eqn:Eold.
  - destruct (nth_error size i) as [n|]; [|discriminate].
    destruct (setattr_ layer (la ++ "." ++ a) (VInt n) false) as [l1|] eqn:Es;
      [|discriminate].
    intros [= <-].
    exists (bind_attr a (VInt n) l).
    split; [by apply (setattr__under_Ok la a (VInt n) false layer)|].
    split; [intros b Hb; by apply assoc_get_bind_ne|].
    split; [done|]. intros _. exists n. split; [done|]. apply assoc_get_bind_eq.
  - intros [= <-]. exists l. by repeat split.
Qed.

(** The same turn, on a module whose size attribute takes a scalar: it
    goes through. *)
Lemma set_layer_size_attr_runs la size i a n layer c k l :
  PyStr.split_dot a = [a] ->
  getattr_ layer la false = Ok (VModule c k l) ->
  nth_error size i = Some n ->
  takes_scalar a l = true ->
  exists layer', set_layer_size_attr la size i a layer = (Ok tt, layer').
Proof.
  intros Ha Hget Hn Hs.
  unfold set_layer_size_attr, bind, get, lift, ret, setattr_stmt, index.
  rewrite (hasattr__under la a layer c k l Ha Hget), Hn.
  destruct (assoc_get a l); [|eauto].
  destruct (setattr__under_int la a n false layer c k l Ha Hs Hget) as (l1 & -> & _).
  eauto.
Qed.

Lemma takes_scalar_ext a l l' :
  assoc_get a l' = assoc_get a l -> takes_scalar a l' = takes_scalar a l.
Proof. unfold takes_scalar. by intros ->. Qed.

(** The steps of [set_param] that went through. *)
Lemma set_param_Ok_inv la t bias layer layer' :
  set_param (VStr la) (VTensor t) bias layer = (Ok tt, layer') ->
  exists l1 l2 l3,
    setattr_ layer (param_path la "weight") (VTensor t) false = Ok l1
    /\ set_layer_size_attr la (shape t) 0 "out_features" l1 = (Ok tt, l2)
    /\ set_layer_size_attr la (shape t) 1 "in_features" l2 = (Ok tt, l3)
    /\ ((bias = VNone /\ layer' = l3)
        \/ (exists p, nn_Parameter bias = Ok p
                      /\ setattr_ l3 (param_path la "bias") p false = Ok layer')).
Proof.
  intros Hrun. unfold set_param in Hrun.
  apply bind_Ok_inv in Hrun as ([] & l0 & Hassert & Hrun).
  simpl in Hassert. injection Hassert as <-.
  apply bind_Ok_inv in Hrun as ([] & l3 & Hweight & Hbias).
  simpl is_None in Hweight. cbv iota in Hweight.
  apply bind_Ok_inv in Hweight as (s & l0 & Hs & Hweight).
  injection Hs as <- <-.
  apply bind_Ok_inv in Hweight as (p & l0 & Hp & Hweight).
  injection Hp as <- <-.
  apply bind_Ok_inv in Hweight as ([] & l1 & Hset & Hweight).
  unfold setattr_stmt in Hset.
  destruct (setattr_ layer (param_path la "weight") (VTensor t) false)
    as [l1'|] eqn:Ew; [|discriminate].
  injection Hset as <-.
  apply bind_Ok_inv in Hweight as (size & l0 & Hsize & Hweight).
  injection Hsize as <- <-.
  unfold set_layer_size in Hweight. simpl in Hweight.
  apply bind_Ok_inv in Hweight as ([] & l2 & Hout & Hin).
  apply bind_Ok_inv in Hin as ([] & l3' & Hin & Hret).
  injection Hret as ->.
  exists l1', l2, l3. split; [done|]. split; [done|]. split; [done|].
  destruct bias as [ | | | | tb | ]; simpl in Hbias;
    try (apply bind_Ok_inv in Hbias as (? & ? & _ & Hbias);
         apply bind_Ok_inv in Hbias as (? & ? & Hp & _); discriminate Hp).
  - left. by injection Hbias as <-.
  - right. exists (VTensor tb). split; [done|].
    unfold bind, lift, setattr_stmt in Hbias. simpl in Hbias.
    destruct (setattr_ l3 (param_path la "bias") (VTensor tb) false);
      [by injection Hbias as <- | discriminate].
Qed.

(** C8, on the code.  [set_layer_size] looks for the size attributes at
    [layer_attr + ".out_features"] and [layer_attr + ".in_features"].
    Under an owning path that is not empty that is the node the weight is
    installed on: when [set_param] has installed a weight of shape
    [(r, c)] there, an [out_features] attribute that the node had is [r]
    and an [in_features] attribute that it had is [c]; one that it did
    not have it still does not have.  With the empty owning path, which
    [set_param] spells out for the weight itself, it is not: the weight is
    installed on the layer, the sizes are looked for under the name [""],
    and the [out_features] and [in_features] of the layer stay what they
    were. *)
Theorem set_param_rewrites_sizes_under_path layer t bias r c :
  shape t = [r; c] ->
  (forall layer_attr cls kind attrs layer',
     layer_attr <> "" ->
     getattr_ layer layer_attr false = Ok (VModule cls kind attrs) ->
     set_param (VStr layer_attr) (VTensor t) bias layer = (Ok tt, layer') ->
     exists attrs',
       getattr_ layer' layer_attr false = Ok (VModule cls kind attrs')
       /\ assoc_get "weight" attrs' = Some (VTensor t)
       /\ (assoc_get "out_features" attrs <> None ->
           assoc_get "out_features" attrs' = Some (VInt r))
       /\ (assoc_get "in_features" attrs <> None ->
           assoc_get "in_features" attrs' = Some (VInt c))
       /\ (assoc_get "out_features" attrs = None ->
           assoc_get "out_features" attrs' = None)
       /\ (assoc_get "in_features" attrs = None ->
           assoc_get "in_features" attrs' = None))
  /\ (forall cls kind attrs,
        layer = VModule cls kind attrs ->
        assoc_get "" attrs = None ->
        bias = VNone \/ (exists tb, bias = VTensor tb) ->
        exists attrs',
          set_param (VStr "") (VTensor t) bias layer
          = (Ok tt, VModule cls kind attrs')
          /\ assoc_get "weight" attrs' = Some (VTensor t)
          /\ assoc_get "out_features" attrs' = assoc_get "out_features" attrs
          /\ assoc_get "in_features" attrs' = assoc_get "in_features" attrs).
Proof.
  intros Hshape. split.
  - intros la cls kind attrs layer' Hla Hget Hrun.
    destruct (set_param_Ok_inv _ _ _ _ _ Hrun)
      as (l1 & l2 & l3 & Hw & Hout & Hin & Hbias).
    rewrite Hshape in Hout, Hin.
    rewrite param_path_under in Hw by done.
    pose proof (setattr__under_Ok la "weight" (VTensor t) false layer l1
                  cls kind attrs eq_refl Hget Hw) as Hget1.
    rewrite bind_attr_in_place in Hget1 by done.
    destruct (set_layer_size_attr_under la [r; c] 0 "out_features" l1 l2
                cls kind _ eq_refl Hget1 Hout)
      as (attrs2 & Hget2 & Hother2 & Hnone2 & Hsome2).
    destruct (set_layer_size_attr_under la [r; c] 1 "in_features" l2 l3
                cls kind _ eq_refl Hget2 Hin)
      as (attrs3 & Hget3 & Hother3 & Hnone3 & Hsome3).
    assert (H3 : assoc_get "weight" attrs3 = Some (VTensor t)
                 /\ (assoc_get "out_features" attrs <> None ->
                     assoc_get "out_features" attrs3 = Some (VInt r))
                 /\ (assoc_get "in_features" attrs <> None ->
                     assoc_get "in_features" attrs3 = Some (VInt c))
                 /\ (assoc_get "out_features" attrs = None ->
                     assoc_get "out_features" attrs3 = None)
                 /\ (assoc_get "in_features" attrs = None ->
                     assoc_get "in_features" attrs3 = None)).
    { rewrite assoc_get_set_ne in Hnone2, Hsome2 by done.
      rewrite Hother2, assoc_get_set_ne in Hnone3, Hsome3 by done.
      split; [rewrite Hother3, Hother2 by done; apply assoc_get_set_eq|].
      split.
      { intros H. rewrite Hother3 by done.
        destruct (Hsome2 H) as (n & [= <-] & ->). done. }
      split.
      { intros H. destruct (Hsome3 H) as (n & [= <-] & ->). done. }
      split.
      { intros H. rewrite Hother3 by done. by apply Hnone2. }
      exact Hnone3. }
    destruct Hbias as [[_ ->]|(p & Hp & Hb)]; [by exists attrs3|].
    rewrite param_path_under in Hb by done.
    pose proof (setattr__under_Ok la "bias" p false l3 layer'
                  cls kind attrs3 eq_refl Hget3 Hb) as Hget4.
    exists (bind_attr "bias" p attrs3). split; [done|].
    rewrite !assoc_get_bind_ne by done. exact H3.
  - intros cls kind attrs -> Hnone Hbias.
    set (attrs1 := assoc_set "weight" (VTensor t) attrs).
    assert (Hsize : forall i a l,
      assoc_get "" l = None ->
      set_layer_size_attr "" (shape t) i a (VModule cls kind l)
      = (Ok tt, VModule cls kind l)).
    { intros i a l Hl. unfold set_layer_size_attr, bind, get, hasattr_.
      simpl. by rewrite Hl. }
    assert (Hweight :
      (let! s := lift (str_operand (VStr "")) in
       let! p := lift (nn_Parameter (VTensor t)) in
       do! setattr_stmt (param_path s "weight") p false in
       let! size := lift (shape_of (VTensor t)) in
       set_layer_size s size)%py (VModule cls kind attrs)
      = (Ok tt, VModule cls kind attrs1)).
    { assert (Hset : setattr_ (VModule cls kind attrs) (param_path "" "weight")
                       (VTensor t) false = Ok (VModule cls kind attrs1))
        by reflexivity.
      assert (Hn1 : assoc_get "" attrs1 = None)
        by (unfold attrs1; by rewrite assoc_get_set_ne).
      unfold bind at 1, lift at 1. simpl str_operand. cbv iota beta.
      unfold bind at 1, lift at 1. simpl nn_Parameter. cbv iota beta.
      unfold bind at 1, setattr_stmt at 1. rewrite Hset.
      unfold bind at 1, lift at 1. simpl shape_of. cbv iota beta.
      unfold set_layer_size. simpl for_each.
      by rewrite (bind_Ok _ _ _ _ _ (Hsize _ _ _ Hn1)),
                 (bind_Ok _ _ _ _ _ (Hsize _ _ _ Hn1)). }
    unfold set_param. simpl assert_. unfold bind at 1, ret at 1.
    simpl is_None at 1. cbv iota.
    rewrite (bind_Ok _ _ _ _ _ Hweight).
    destruct Hbias as [->|[tb ->]].
    + exists attrs1. split; [done|]. unfold attrs1.
      split; [apply assoc_get_set_eq|]. by rewrite !assoc_get_set_ne.
    + exists (assoc_set "bias" (VTensor tb) attrs1). split; [done|].
      unfold attrs1. rewrite !assoc_get_set_ne by done.
      split; [apply assoc_get_set_eq|]. by rewrite !assoc_get_set_ne.
Qed.

(** X17: the other branch of lines 181-198, where no replacement class is
    named: [set_param] is called with its arguments in order.  On a module
    under a path [layer_attr], whose size attributes are scalars where it
    has them, it completes, the module keeps its class and kind, and the
    sliced weight and bias are its [weight] and [bias]. *)
Lemma set_param_installs layer layer_attr t bias r c rest cls kind attrs :
  layer_attr <> "" ->
  getattr_ layer layer_attr false = Ok (VModule cls kind attrs) ->
  takes_scalar "out_features" attrs = true ->
  takes_scalar "in_features" attrs = true ->
  shape t = r :: c :: rest ->
  bias = VNone \/ (exists tb, bias = VTensor tb) ->
  exists layer' attrs',
    set_param (VStr layer_attr) (VTensor t) bias layer = (Ok tt, layer')
    /\ getattr_ layer' layer_attr false = Ok (VModule cls kind attrs')
    /\ assoc_get "weight" attrs' = Some (VTensor t)
    /\ (bias <> VNone -> assoc_get "bias" attrs' = Some bias).
Proof.
  intros Hla Hget Hso Hsi Hshape Hbias.
  destruct (setattr__under_param layer_attr "weight" t false layer cls kind attrs
              eq_refl ltac:(done) Hget) as (l1 & Hset1 & Hget1).
  set (attrs1 := assoc_set "weight" (VTensor t) attrs) in *.
  assert (Hso1 : takes_scalar "out_features" attrs1 = true).
  { erewrite takes_scalar_ext; [exact Hso|]. by apply assoc_get_set_ne. }
  destruct (set_layer_size_attr_runs layer_attr (shape t) 0 "out_features" r l1
              cls kind attrs1 eq_refl Hget1 ltac:(by rewrite Hshape) Hso1)
    as (l2 & Hrun2).
  destruct (set_layer_size_attr_under layer_attr (shape t) 0 "out_features" l1 l2
              cls kind attrs1 eq_refl Hget1 Hrun2)
    as (attrs2 & Hget2 & Hother2 & _ & _).
  assert (Hsi2 : takes_scalar "in_features" attrs2 = true).
  { erewrite takes_scalar_ext; [exact Hsi|]. rewrite Hother2 by done.
    by apply assoc_get_set_ne. }
  destruct (set_layer_size_attr_runs layer_attr (shape t) 1 "in_features" c l2
              cls kind attrs2 eq_refl Hget2 ltac:(by rewrite Hshape) Hsi2)
    as (l3 & Hrun3).
  destruct (set_layer_size_attr_under layer_attr (shape t) 1 "in_features" l2 l3
              cls kind attrs2 eq_refl Hget2 Hrun3)
    as (attrs3 & Hget3 & Hother3 & _ & _).
  assert (Hw3 : assoc_get "weight" attrs3 = Some (VTensor t)).
  { rewrite Hother3, Hother2 by done. apply assoc_get_set_eq. }
  assert (Hweight :
    (let! s := lift (str_operand (VStr layer_attr)) in
     let! p := lift (nn_Parameter (VTensor t)) in
     do! setattr_stmt (param_path s "weight") p false in
     let! size := lift (shape_of (VTensor t)) in
     set_layer_size s size)%py layer = (Ok tt, l3)).
  { unfold bind at 1, lift at 1. simpl str_operand. cbv iota beta.
    unfold bind at 1, lift at 1. simpl nn_Parameter. cbv iota beta.
    unfold bind at 1, setattr_stmt at 1.
    rewrite (param_path_under _ _ Hla), Hset1.
    unfold bind at 1, lift at 1. simpl shape_of. cbv iota beta.
    unfold set_layer_size. simpl for_each.
    rewrite (bind_Ok _ _ _ _ _ Hrun2). by rewrite (bind_Ok _ _ _ _ _ Hrun3). }
  unfold set_param. simpl assert_. unfold bind at 1, ret at 1.
  simpl is_None at 1. cbv iota.
  rewrite (bind_Ok _ _ _ _ _ Hweight).
  destruct Hbias as [->|[tb ->]].
  - exists l3, attrs3. simpl. split; [done|]. split; [done|]. split; [done|].
    by intros [].
  - destruct (setattr__under_param layer_attr "bias" tb false l3 cls kind attrs3
                eq_refl ltac:(done) Hget3) as (l4 & Hset4 & Hget4).
    exists l4, (assoc_set "bias" (VTensor tb) attrs3).
    split.
    { simpl is_None. cbv iota. unfold bind, lift, setattr_stmt. simpl.
      by rewrite (param_path_under _ _ Hla), Hset4. }
    split; [done|]. split.
    + by rewrite assoc_get_set_ne.
    + intros _. apply assoc_get_set_eq.
Qed.

(** * The sharder at work on the sample model *)

Local Open Scope string_scope.

(** ** Replacement layers *)

Lemma replacement_never_installed_witness :
  exists e fr2,
    Sample.run_one [] Sample.row_dense_replaced (Frame.init Sample.block ∅)
    = (Raise e, fr2).
Proof.
  apply (replacement_never_installed Sample.slicer Collaborators.construct
           Sample.RANK [] Sample.row_dense_replaced (Frame.init Sample.block ∅)
           "dense" (VTensor Sample.w23) (VTensor Sample.b2)
           (Frame.init Sample.block ∅) "Linear1D_Row").
  - vm_compute. reflexivity.
  - reflexivity.
Defined.

(** [shard_one_layer] on the block, asked to replace [dense]: it raises
    TypeError, and the replacement layer it has stored at [dense] has not
    been given the sliced weight. *)
Lemma shard_one_layer_replacing_dense :
  fst (shard_one_layer Sample.slicer Collaborators.construct Sample.RANK
         [[Sample.row_dense_replaced]] [] (Sample.block, ∅))
  = Raise TypeError
  /\ getattr_
       (fst (snd (shard_one_layer Sample.slicer Collaborators.construct
                    Sample.RANK [[Sample.row_dense_replaced]] []
                    (Sample.block, ∅))))
       "dense.weight" false
     = Ok VNone.
Proof. split; vm_compute; reflexivity. Qed.

(** For the sliced weight of shape [(2, 3)] the specification has the
    row-wise replacement built with [(2, 3)]; the sharder builds it with
    [(3, 2)]. *)
Lemma row_replacement_built_with_cols_rows :
  prepare Sample.slicer Sample.RANK [] Sample.row_dense_replaced
    (Frame.init Sample.block ∅)
  = (Ok (Some ("dense", VTensor Sample.w23, VTensor Sample.b2)),
     Frame.init Sample.block ∅)
  /\ shape Sample.w23 = [2; 3]
  /\ getattr_
       (Frame.org_layer
          (snd (Sample.run_one [] Sample.row_dense_replaced
                  (Frame.init Sample.block ∅))))
       "dense" false
     = Ok (Collaborators.construct "Linear1D_Row" (LinearArgs 3 2 true None))
  /\ getattr_
       (Frame.org_layer
          (snd (Sample.run_one [] Sample.row_dense_replaced
                  (Frame.init Sample.block ∅))))
       "dense" false
     <> Ok (Collaborators.construct "Linear1D_Row" (LinearArgs 2 3 true None)).
Proof.
  split; [vm_compute; reflexivity|]. split; [reflexivity|].
  split; [vm_compute; reflexivity|]. vm_compute. discriminate.
Qed.

Lemma replacement_constructor_arguments_witness :
  let fr' := snd (replace_or_install Collaborators.construct
                    Sample.row_dense_replaced "dense" (VTensor Sample.w23)
                    (VTensor Sample.b2) (Frame.init Sample.block ∅)) in
  Frame.replace_layer fr'
  = Some (Collaborators.construct "Linear1D_Row" (LinearArgs 3 2 true None))
  /\ getattr_ (Frame.org_layer fr') "dense" false
     = Ok (Collaborators.construct "Linear1D_Row" (LinearArgs 3 2 true None)).
Proof.
  destruct (replacement_constructor_arguments Collaborators.construct
              Sample.row_dense_replaced "Linear1D_Row" "dense" Sample.w23
              (VTensor Sample.b2) 2 3 (Frame.init Sample.block ∅)
              (Sample.linear Sample.w43 (VTensor Sample.b4))
              eq_refl eq_refl eq_refl) as [Hrow _].
  destruct (Hrow eq_refl eq_refl) as [Hbuilt Hplaced].
  split; [exact Hbuilt | exact (Hplaced eq_refl)].
Defined.

(** The skipped [Col_Layer] instruction binds [gather_output]; the
    replacement asked for by the [Row_Layer] instruction after it is built
    with that flag, and without it the same instruction raises. *)
Lemma gather_output_of_replacement_witness :
  (let fr2 := snd (Sample.run_one [] Sample.row_dense_to_col
                     (snd (for_each [Sample.col_crossattention] (Sample.run_one [])
                             (Frame.init Sample.block ∅)))) in
   Frame.replace_layer fr2
   = Some (Collaborators.construct "Linear1D_Col"
             (LinearArgs 2 3 false (Some true)))
   /\ getattr_ (Frame.org_layer fr2) "dense" false
      = Ok (Collaborators.construct "Linear1D_Col"
              (LinearArgs 2 3 false (Some true))))
  /\ Sample.run_one [] Sample.row_dense_to_col (Frame.init Sample.block ∅)
     = (Raise UnboundLocalError, Frame.init Sample.block ∅).
Proof.
  split.
  - destruct (gather_output_of_replacement Sample.slicer Collaborators.construct
                Sample.RANK [] [Sample.col_crossattention] Sample.row_dense_to_col
                Sample.block ∅
                (snd (for_each [Sample.col_crossattention] (Sample.run_one [])
                        (Frame.init Sample.block ∅)))
                "dense" Sample.w23 VNone
                (snd (for_each [Sample.col_crossattention] (Sample.run_one [])
                        (Frame.init Sample.block ∅)))
                2 3 [] (Sample.linear Sample.w43 (VTensor Sample.b4))
                ltac:(vm_compute; reflexivity) ltac:(vm_compute; reflexivity)
                eq_refl eq_refl ltac:(vm_compute; reflexivity) eq_refl)
      as [Hbuilt Hplaced].
    split; [exact Hbuilt | exact (Hplaced eq_refl)].
  - apply (gather_output_of_replacement Sample.slicer Collaborators.construct
             Sample.RANK [] [] Sample.row_dense_to_col Sample.block ∅
             (Frame.init Sample.block ∅) "dense" Sample.w23 VNone
             (Frame.init Sample.block ∅)
             2 3 [] (Sample.linear Sample.w43 (VTensor Sample.b4)));
      vm_compute; reflexivity.
Defined.

(** ** Skipped and failing instructions *)

(** The [Col_Layer] instruction for [crossattention], which the block does
    not have, is skipped.  It has bound [gather_output], and the
    instruction after it shows it: asked to replace [dense] by a
    [Linear1D_Col], that one raises UnboundLocalError and leaves the block
    as it is when it is alone, and builds the replacement, with the flag
    of the skipped instruction, when it comes second (and then raises in
    [set_param]). *)
Lemma skipped_instruction_not_a_noop :
  PolicyLayer.ignore Sample.col_crossattention = true
  /\ fst (resolve (PolicyLayer.weight Sample.col_crossattention) true
            (Frame.init Sample.block ∅)) = Ok VNone
  /\ fst (resolve (PolicyLayer.bias Sample.col_crossattention) true
            (Frame.init Sample.block ∅)) = Ok VNone
  /\ Sample.run_one [] Sample.col_crossattention (Frame.init Sample.block ∅)
     = (Ok tt, Frame.with_gather_output true (Frame.init Sample.block ∅))
  /\ Frame.with_gather_output true (Frame.init Sample.block ∅)
     <> Frame.init Sample.block ∅
  /\ shard_one_layer Sample.slicer Collaborators.construct Sample.RANK
       [[Sample.row_dense_to_col]] [] (Sample.block, ∅)
     = (Raise UnboundLocalError, (Sample.block, ∅))
  /\ fst (shard_one_layer Sample.slicer Collaborators.construct Sample.RANK
            [[Sample.col_crossattention; Sample.row_dense_to_col]] []
            (Sample.block, ∅))
     = Raise AssertionError
  /\ getattr_
       (fst (snd (shard_one_layer Sample.slicer Collaborators.construct
                    Sample.RANK
                    [[Sample.col_crossattention; Sample.row_dense_to_col]] []
                    (Sample.block, ∅))))
       "dense" false
     = Ok (Collaborators.construct "Linear1D_Col"
             (LinearArgs 2 3 false (Some true))).
Proof.
  do 4 (split; [vm_compute; reflexivity|]).
  split; [discriminate|].
  do 2 (split; [vm_compute; reflexivity|]).
  vm_compute. reflexivity.
Qed.

Lemma skipped_instruction_binds_gather_output_witness :
  (exists fr',
     Sample.run_one ["Head"] Sample.col_crossattention (Frame.init Sample.block ∅)
     = (Ok tt, fr')
     /\ Frame.org_layer fr' = Sample.block
     /\ Frame.binding_map fr' = ∅
     /\ Frame.replace_layer fr' = None
     /\ Frame.gather_output fr' = Some true)
  /\ Sample.run_one ["Head"]
       (Sample.instr Row_Layer (Some "crossattention.weight") None None true false)
       (Frame.init Sample.block ∅)
     = (Ok tt, Frame.init Sample.block ∅).
Proof.
  split.
  - destruct (skipped_instruction_binds_gather_output Sample.slicer
                Collaborators.construct Sample.RANK ["Head"]
                Sample.col_crossattention (Frame.init Sample.block ∅)
                eq_refl eq_refl eq_refl)
      as (fr' & Hrun & Ho & Hb & Hr & Hg & _).
    exists fr'. by repeat split.
  - destruct (skipped_instruction_binds_gather_output Sample.slicer
                Collaborators.construct Sample.RANK ["Head"]
                (Sample.instr Row_Layer (Some "crossattention.weight") None None
                   true false)
                (Frame.init Sample.block ∅) eq_refl eq_refl eq_refl)
      as (fr' & Hrun & _ & _ & _ & _ & Hsame).
    unfold Sample.run_one. rewrite Hrun. f_equal. apply Hsame. discriminate.
Defined.


(** ** The traversal *)

(** A model that is itself of the class looked for: the specification's
    traversal shards it, [reverse_replace_layer] goes through its children
    and leaves it as it is.  An override of a name that the node of the
    class looked for does not have: the pass does not skip it, the block
    has the attribute afterwards.  And an override that the node does not
    take, a number for its child [dense]: the pass ends there with a
    TypeError, and the block is not sharded. *)
Lemma root_not_tested_override_created :
  reverse_replace_layer Sample.slicer Collaborators.construct Sample.RANK
    "Block" [] [[Sample.row_dense]] [] Sample.block ∅
  = (Ok tt, (Sample.block, ∅))
  /\ fst (snd (traverse_spec Sample.slicer Collaborators.construct Sample.RANK
                 "Block" [] [[Sample.row_dense]] [] Sample.block ∅))
     <> Sample.block
  /\ reverse_replace_layer Sample.slicer Collaborators.construct Sample.RANK
       "Block" [] [[Sample.row_dense]] [] Sample.block ∅
     <> traverse_spec Sample.slicer Collaborators.construct Sample.RANK
          "Block" [] [[Sample.row_dense]] [] Sample.block ∅
  /\ hasattr_ Sample.model "block.chunk_size" = false
  /\ fst (Sample.run_pass Sample.policy (Sample.model, ∅)) = Ok tt
  /\ getattr_ (fst (snd (Sample.run_pass Sample.policy (Sample.model, ∅))))
       "block.chunk_size" false
     = Ok (VInt 1)
  /\ Sample.run_pass
       [("Block", ArgPolicy.mk [("dense", VInt 1)] [[Sample.row_dense]] [])]
       (Sample.model, ∅)
     = (Raise TypeError, (Sample.model, ∅)).
Proof.
  assert (H1 : reverse_replace_layer Sample.slicer Collaborators.construct
                 Sample.RANK "Block" [] [[Sample.row_dense]] [] Sample.block ∅
               = (Ok tt, (Sample.block, ∅))) by (vm_compute; reflexivity).
  assert (H2 : fst (snd (traverse_spec Sample.slicer Collaborators.construct
                           Sample.RANK "Block" [] [[Sample.row_dense]] []
                           Sample.block ∅))
               <> Sample.block) by (vm_compute; discriminate).
  split; [exact H1|]. split; [exact H2|].
  split; [intros Heq; apply H2; by rewrite <- Heq, H1|].
  split; [reflexivity|]. split; [vm_compute; reflexivity|].
  split; vm_compute; reflexivity.
Qed.

(** On the sample model, whose class is not the class looked for, the
    code and the specification's traversal agree.  The override of
    [chunk_size], which the block does not have, binds it; an override
    under [crossattention], which the block does not have either, does
    nothing; a number for the child [dense] raises TypeError. *)
Lemma reverse_replace_layer_tests_children_witness :
  reverse_replace_layer Sample.slicer Collaborators.construct Sample.RANK
    "Block" [("chunk_size", VInt 1)] [[Sample.row_dense]] ["Head"] Sample.model ∅
  = traverse_spec Sample.slicer Collaborators.construct Sample.RANK
      "Block" [("chunk_size", VInt 1)] [[Sample.row_dense]] ["Head"]
      Sample.model ∅
  /\ apply_overrides [("crossattention.chunk_size", VInt 1)] Sample.block
     = (Ok tt, Sample.block)
  /\ (exists node',
        apply_overrides [("chunk_size", VInt 1)] Sample.block = (Ok tt, node')
        /\ getattr_ node' "chunk_size" false = Ok (VInt 1))
  /\ apply_overrides [("dense", VInt 1); ("chunk_size", VInt 1)] Sample.block
     = (Raise TypeError, Sample.block).
Proof.
  destruct (reverse_replace_layer_tests_children Sample.slicer
              Collaborators.construct Sample.RANK "Block" [("chunk_size", VInt 1)]
              [[Sample.row_dense]] ["Head"] "Model" KOther
              [("block", Sample.block); ("head", Sample.head)] ∅)
    as (_ & Hagree & _ & Hskip & Hcreate & Hraise).
  split; [apply Hagree; discriminate|].
  split; [apply Hskip; reflexivity|].
  split.
  - apply (Hcreate Sample.block "chunk_size" (VInt 1) "Block" KOther
             [("dense", Sample.linear Sample.w43 (VTensor Sample.b4));
              ("norm", Sample.norm);
              ("word_embeddings", Sample.embedding Sample.e24)]);
      [reflexivity | reflexivity | by left].
  - apply (Hraise Sample.block "dense" (VInt 1)
             (Sample.linear Sample.w43 (VTensor Sample.b4)));
      reflexivity.
Defined.

(** ** The binding map *)

(** The pass completes and records the sliced pair of [dense] for the
    class [Head]; the head keeps the tensors it had. *)
Lemma bound_layer_keeps_its_tensors :
  fst (Sample.run_pass Sample.policy (Sample.model, ∅)) = Ok tt
  /\ snd (snd (Sample.run_pass Sample.policy (Sample.model, ∅))) !! "Head"
     = Some (VTensor Sample.w23, VTensor Sample.b2)
  /\ getattr_ (fst (snd (Sample.run_pass Sample.policy (Sample.model, ∅))))
       "head.weight" false
     = Ok (VTensor Sample.w22)
  /\ ~ bound_layers_reuse ["Head"]
         (fst (snd (Sample.run_pass Sample.policy (Sample.model, ∅))))
         (snd (snd (Sample.run_pass Sample.policy (Sample.model, ∅)))).
Proof.
  assert (Hbm : snd (snd (Sample.run_pass Sample.policy (Sample.model, ∅))) !! "Head"
                = Some (VTensor Sample.w23, VTensor Sample.b2))
    by (vm_compute; reflexivity).
  assert (Hhead : getattr_path
                    (fst (snd (Sample.run_pass Sample.policy (Sample.model, ∅))))
                    ["head"] = Some Sample.head)
    by (vm_compute; reflexivity).
  split; [vm_compute; reflexivity|]. split; [exact Hbm|].
  split; [vm_compute; reflexivity|].
  intros Hreuse.
  destruct (Hreuse ["head"] Sample.head "Head" ltac:(by left) Hhead eq_refl eq_refl)
    as (w & b & Hk & Hw & _).
  rewrite Hbm in Hk. injection Hk as <- <-. discriminate Hw.
Qed.

Lemma binding_map_written_not_read_witness :
  (forall k,
     (In k ["Head"] ->
      Frame.binding_map
        (snd (Sample.run_one ["Head"] Sample.row_dense (Frame.init Sample.block ∅)))
        !! k = Some (VTensor Sample.w23, VTensor Sample.b2))
     /\ (~ In k ["Head"] ->
         Frame.binding_map
           (snd (Sample.run_one ["Head"] Sample.row_dense
                   (Frame.init Sample.block ∅))) !! k
         = (∅ : BindingMap) !! k))
  /\ fst (snd (Sample.run_pass Sample.policy (Sample.model, ∅)))
     = fst (snd (Sample.run_pass Sample.policy_unbound (Sample.model, ∅))).
Proof.
  destruct (binding_map_written_not_read Sample.slicer Collaborators.construct
              Sample.RANK) as [Hwrite Hread].
  split.
  - exact (Hwrite ["Head"] Sample.row_dense (Frame.init Sample.block ∅)).
  - apply (Hread Sample.policy Sample.policy_unbound Sample.model ∅ ∅).
    repeat constructor.
Defined.

(** ** set_param *)

(** A weight of shape [(2, 3)] on a dense linear layer with
    [out_features = 4] and [in_features = 3]: installed through the path
    of the layer in the block, [out_features] becomes [2]; installed on
    the layer itself, with the empty owning path, [out_features] stays
    [4]. *)
Lemma set_param_rewrites_sizes_under_path_witness :
  (exists attrs',
     getattr_ (snd (set_param (VStr "dense") (VTensor Sample.w23)
                      (VTensor Sample.b2) Sample.block)) "dense" false
     = Ok (VModule "Linear" KLinear attrs')
     /\ assoc_get "weight" attrs' = Some (VTensor Sample.w23)
     /\ assoc_get "out_features" attrs' = Some (VInt 2)
     /\ assoc_get "in_features" attrs' = Some (VInt 3))
  /\ (exists attrs',
        set_param (VStr "") (VTensor Sample.w23) VNone
          (Sample.linear Sample.w43 (VTensor Sample.b4))
        = (Ok tt, VModule "Linear" KLinear attrs')
        /\ assoc_get "weight" attrs' = Some (VTensor Sample.w23)
        /\ assoc_get "out_features" attrs' = Some (VInt 4)
        /\ assoc_get "in_features" attrs' = Some (VInt 3)).
Proof.
  split.
  - destruct (set_param_rewrites_sizes_under_path Sample.block Sample.w23
                (VTensor Sample.b2) 2 3 eq_refl) as [Hunder _].
    destruct (Hunder "dense" "Linear" KLinear
                [("in_features", VInt 3); ("out_features", VInt 4);
                 ("weight", VTensor Sample.w43); ("bias", VTensor Sample.b4)]
                (snd (set_param (VStr "dense") (VTensor Sample.w23)
                        (VTensor Sample.b2) Sample.block))
                ltac:(discriminate) eq_refl ltac:(vm_compute; reflexivity))
      as (attrs' & Hget & Hw & Hout & Hin & _).
    exists attrs'. split; [exact Hget|]. split; [exact Hw|].
    split; [apply Hout | apply Hin]; discriminate.
  - destruct (set_param_rewrites_sizes_under_path
                (Sample.linear Sample.w43 (VTensor Sample.b4)) Sample.w23
                VNone 2 3 eq_refl) as [_ Hempty].
    exact (Hempty "Linear" KLinear
             [("in_features", VInt 3); ("out_features", VInt 4);
              ("weight", VTensor Sample.w43); ("bias", VTensor Sample.b4)]
             eq_refl eq_refl (or_introl eq_refl)).
Defined.

(** ** inject_model *)

Lemma inject_model_rebinds_witness :
  inject_model (Sample.BertForMaskedLM, Sample.BertForMaskedLM_)
    Sample.GPT2LMHeadModel
  = (Raise UnsupportedModelError, Sample.GPT2LMHeadModel)
  /\ (exists mc',
        inject_model (Sample.BertForMaskedLM, Sample.BertForMaskedLM_)
          Sample.BertForMaskedLM = (Ok tt, mc')
        /\ PyClass.getattr mc' "forward" = Some "BertForMaskedLM_.forward")
  /\ (exists mc',
        inject_model (Sample.T5Model, Sample.T5Model_) Sample.T5Model
        = (Raise AttributeError, mc')
        /\ PyClass.getattr mc' "forward" = Some "T5Model_.forward"
        /\ PyClass.getattr mc' "__doc__" = Some "T5Model.__doc__").
Proof.
  split; [|split].
  - apply (inject_model_rebinds Sample.BertForMaskedLM Sample.BertForMaskedLM_
             Sample.GPT2LMHeadModel).
    discriminate.
  - destruct (inject_model_rebinds Sample.BertForMaskedLM Sample.BertForMaskedLM_
                Sample.BertForMaskedLM) as (_ & Hmatch & _).
    destruct (Hmatch eq_refl) as (mc' & Hrun & Hkeys).
    { intros key [<-|[<-|[]]]; reflexivity. }
    exists mc'. split; [exact Hrun|].
    apply (Hkeys "forward"); [by left | reflexivity].
  - destruct (inject_model_rebinds Sample.T5Model Sample.T5Model_ Sample.T5Model)
      as (_ & _ & Hstop).
    destruct (Hstop eq_refl ["__module__"; "forward"] "__dict__"
                ["__weakref__"; "__doc__"] eq_refl) as (mc' & Hrun & Hin & Hout).
    { intros k [<-|[<-|[]]]; reflexivity. }
    { reflexivity. }
    exists mc'. split; [exact Hrun|]. split.
    + apply (Hin "forward"); [right; by left | reflexivity].
    + rewrite (Hout "__doc__"); [reflexivity|].
      intros [H|[H|[]]]; discriminate H.
Defined.

(** * Further properties of the sharder *)

(** ** inject_model and shard *)

Section InjectMore.
Context {V : Type}.
Implicit Types (c mc : PyClass.t V) (l : list (string * V)).

Lemma update_id key v l :
  PyClass.find key l = Some v -> PyClass.update key v l = l.
Proof.
  induction l as [|[k w] l IH]; simpl; [done|].
  destruct (String.eqb k key) eqn:E.
  - by intros [= ->].
  - intros H. by rewrite IH.
Qed.

(** The own [__dict__] of the class after the loop. *)
Lemma rebind_keys_own shard ks : forall mc mc',
  rebind_keys shard ks mc = (Ok tt, mc') ->
  (forall key, In key ks -> PyClass.hasattr mc key = true ->
     PyClass.find key (PyClass.dict mc') = PyClass.getattr shard key)
  /\ (forall key, ~ In key ks ->
        PyClass.find key (PyClass.dict mc') = PyClass.find key (PyClass.dict mc)).
Proof.
  induction ks as [|k ks IH]; intros mc mc' Hrun.
  - injection Hrun as <-. split; [intros key []|done].
  - rewrite rebind_keys_cons in Hrun.
    destruct (PyClass.hasattr mc k) eqn:Hk.
    + destruct (PyClass.getattr shard k) as [v|] eqn:Hv; [|discriminate].
      destruct (PyClass.setattr k v mc) as [mc1|e] eqn:Hset; [|discriminate].
      destruct (IH _ _ Hrun) as [Hin Hout].
      assert (Hh1 : forall key, PyClass.hasattr mc1 key = PyClass.hasattr mc key).
      { intros key. by apply (hasattr_setattr k key v). }
      destruct (setattr_Ok _ _ _ _ Hset) as [_ Hmc1]. split.
      * intros key Hkey Hhas.
        destruct (in_dec string_dec key ks) as [Hi|Hni].
        -- apply Hin; [done|]. by rewrite Hh1.
        -- destruct Hkey as [<-|]; [|done].
           rewrite Hout by done. rewrite Hmc1. simpl. by rewrite find_update_eq.
      * intros key Hni. rewrite Hout by (intros Hi; apply Hni; by right).
        rewrite Hmc1. simpl. apply find_update_ne. intros <-. apply Hni. by left.
    + destruct (IH _ _ Hrun) as [Hin Hout]. split.
      * intros key [<-|Hkey] Hhas; [congruence|]. by apply Hin.
      * intros key Hni. apply Hout. intros Hi. apply Hni. by right.
Qed.

(** On a class whose own [__dict__] already binds the keys, the loop
    changes nothing. *)
Lemma rebind_keys_fixpoint shard ks mc :
  (forall key, In key ks -> PyClass.read_only key = false) ->
  (forall key, In key ks -> PyClass.hasattr mc key = true ->
     exists v, PyClass.getattr shard key = Some v
               /\ PyClass.find key (PyClass.dict mc) = Some v) ->
  rebind_keys shard ks mc = (Ok tt, mc).
Proof.
  induction ks as [|k ks IH]; intros Hset H; [done|].
  rewrite rebind_keys_cons.
  assert (Hset' : forall key, In key ks -> PyClass.read_only key = false).
  { intros key Hin. apply Hset. by right. }
  destruct (PyClass.hasattr mc k) eqn:Hk.
  - destruct (H k ltac:(by left) Hk) as (v & -> & Hfind).
    assert (PyClass.setattr k v mc = Ok mc) as ->.
    { unfold PyClass.setattr. rewrite (Hset k ltac:(by left)).
      rewrite (update_id _ _ _ Hfind). by destruct mc. }
    apply IH; [done|]. intros key Hin. apply H. by right.
  - apply IH; [done|]. intros key Hin. apply H. by right.
Qed.

(** X1: where [inject_model] returns, the class of the model keeps its
    name and what it inherits, has exactly the attribute names it had, and
    every name that is not a key of the shard-aware class's [__dict__]
    is bound to what it was bound to. *)
Theorem inject_model_touches_shared_names_only
    (org_model_cls shard_model_cls mc mc' : PyClass.t V) :
  inject_model (org_model_cls, shard_model_cls) mc = (Ok tt, mc') ->
  PyClass.name mc' = PyClass.name mc
  /\ PyClass.inherited mc' = PyClass.inherited mc
  /\ (forall key, PyClass.hasattr mc' key = PyClass.hasattr mc key)
  /\ (forall key, ~ In key (map fst (PyClass.dict shard_model_cls)) ->
        PyClass.getattr mc' key = PyClass.getattr mc key).
Proof.
  intros Hrun.
  destruct (inject_model_cases org_model_cls shard_model_cls mc)
    as [[_ Hraise]|[_ Heq]]; [congruence|].
  rewrite Heq in Hrun.
  destruct (rebind_keys_spec _ _ _ _ Hrun) as (Hn & Hi & Hhas & _ & Hout).
  repeat split; try done. intros key Hni. apply Hout. by left.
Qed.

(** X2: [inject_model] a second time, on a class it has returned on,
    returns again and leaves that class as it is. *)
Theorem inject_model_twice (org_model_cls shard_model_cls mc mc' : PyClass.t V) :
  inject_model (org_model_cls, shard_model_cls) mc = (Ok tt, mc') ->
  inject_model (org_model_cls, shard_model_cls) mc' = (Ok tt, mc').
Proof.
  intros Hrun.
  destruct (inject_model_cases org_model_cls shard_model_cls mc)
    as [[_ Hraise]|[Hname Heq]]; [congruence|].
  rewrite Heq in Hrun.
  destruct (rebind_keys_spec _ _ _ _ Hrun) as (Hn & _ & Hhas & _ & _).
  destruct (inject_model_cases org_model_cls shard_model_cls mc')
    as [[Hne _]|[_ Heq']]; [congruence|].
  rewrite Heq'. apply rebind_keys_fixpoint.
  { exact (rebind_keys_settable _ _ _ _ Hrun). }
  intros key Hin Hhas'.
  destruct (shard_keys_defined shard_model_cls key Hin) as [v Hv].
  exists v. split; [done|].
  destruct (rebind_keys_own _ _ _ _ Hrun) as [Hown _].
  rewrite <- Hv. apply Hown; [done|]. by rewrite <- Hhas.
Qed.

Section ShardProps.
Variable slice_weight_bias :
  pyval -> pyval -> PolicyClass -> outcome (pyval * pyval).
Variable construct : string -> CtorArgs -> pyval.
Variable environ_RANK : option string.

Local Abbreviation shard' := (shard slice_weight_bias construct environ_RANK).
Local Abbreviation replace_layer'' :=
  (replace_layer slice_weight_bias construct environ_RANK).

(** X3: [shard] runs [replace_layer] only when [inject_model] has
    returned.  An exception of [inject_model] is the exception of [shard],
    with the model and the binding map as they were: UnsupportedModelError
    on a model of another class than the policy's origin class, with the
    class as it was too.  Where [inject_model] returns, as it does on a
    model of the origin class when no key of the shard-aware class's
    [__dict__] is read-only, [shard] ends as [replace_layer] ends, and the
    class stays rebound also when [replace_layer] has raised. *)
Theorem shard_injects_then_replaces
    (org_model_cls shard_model_cls mc : PyClass.t V)
    (aps : list (string * ArgPolicy.t)) (st : pyval * BindingMap) :
  (PyClass.name mc <> PyClass.name org_model_cls ->
   shard' (org_model_cls, shard_model_cls) aps (mc, st)
   = (Raise UnsupportedModelError, (mc, st)))
  /\ (forall e mc',
        inject_model (org_model_cls, shard_model_cls) mc = (Raise e, mc') ->
        shard' (org_model_cls, shard_model_cls) aps (mc, st)
        = (Raise e, (mc', st)))
  /\ (forall mc',
        inject_model (org_model_cls, shard_model_cls) mc = (Ok tt, mc') ->
        shard' (org_model_cls, shard_model_cls) aps (mc, st)
        = (fst (replace_layer'' aps st), (mc', snd (replace_layer'' aps st))))
  /\ (PyClass.name mc = PyClass.name org_model_cls ->
      (forall key, In key (map fst (PyClass.dict shard_model_cls)) ->
         PyClass.read_only key = false) ->
      exists mc',
        inject_model (org_model_cls, shard_model_cls) mc = (Ok tt, mc')
        /\ shard' (org_model_cls, shard_model_cls) aps (mc, st)
           = (fst (replace_layer'' aps st), (mc', snd (replace_layer'' aps st)))).
Proof.
  assert (Hraise : forall e mc',
    inject_model (org_model_cls, shard_model_cls) mc = (Raise e, mc') ->
    shard' (org_model_cls, shard_model_cls) aps (mc, st) = (Raise e, (mc', st))).
  { intros e mc' H. unfold shard. by rewrite H. }
  assert (Hok : forall mc',
    inject_model (org_model_cls, shard_model_cls) mc = (Ok tt, mc') ->
    shard' (org_model_cls, shard_model_cls) aps (mc, st)
    = (fst (replace_layer'' aps st), (mc', snd (replace_layer'' aps st)))).
  { intros mc' H. unfold shard. rewrite H. by destruct (replace_layer _ _ _ aps st). }
  split; [|split; [exact Hraise|split; [exact Hok|]]].
  - intros Hne. apply Hraise.
    destruct (inject_model_cases org_model_cls shard_model_cls mc)
      as [[_ H]|[Hname _]]; [done|contradiction].
  - intros Hname Hset.
    destruct (inject_model_cases org_model_cls shard_model_cls mc)
      as [[Hne _]|[_ Heq]]; [contradiction|].
    destruct (rebind_keys_total shard_model_cls
                (map fst (PyClass.dict shard_model_cls)) mc
                (shard_keys_defined shard_model_cls) Hset) as [mc' Hrun].
    exists mc'. rewrite Heq. split; [done|]. apply Hok. by rewrite Heq.
Qed.

End ShardProps.
End InjectMore.

(** ** One instruction of shard_one_layer *)

Lemma grows_refl keys bm : grows keys bm bm.
Proof. by intros k. Qed.

Lemma grows_trans keys bm1 bm2 bm3 :
  grows keys bm1 bm2 -> grows keys bm2 bm3 -> grows keys bm1 bm3.
Proof.
  intros H12 H23 k. destruct (H12 k) as [Ho1 Hs1], (H23 k) as [Ho2 Hs2].
  split; [intros Hni; by rewrite Ho2, Ho1 | auto].
Qed.

Lemma grows_record_binding bl w b bm : grows bl bm (record_binding bl w b bm).
Proof.
  intros k. split; [apply record_binding_lookup_out|].
  intros Hs. destruct (in_dec string_dec k bl) as [Hi|Hni].
  - rewrite record_binding_lookup_in by done. eauto.
  - by rewrite record_binding_lookup_out.
Qed.

Section SharderMore.

Variable slice_weight_bias :
  pyval -> pyval -> PolicyClass -> outcome (pyval * pyval).
Variable construct : string -> CtorArgs -> pyval.
Variable environ_RANK : option string.

Local Abbreviation prepare' := (prepare slice_weight_bias environ_RANK).
Local Abbreviation slice_and_save' :=
  (slice_and_save slice_weight_bias environ_RANK).
Local Abbreviation replace_or_install' := (replace_or_install construct).
Local Abbreviation finish' := (finish construct).
Local Abbreviation shard_policy_layer' :=
  (shard_policy_layer slice_weight_bias construct environ_RANK).
Local Abbreviation shard_one_layer' :=
  (shard_one_layer slice_weight_bias construct environ_RANK).

(** The instruction from line 165 on, once both sides are looked up. *)
Lemma shard_policy_layer_resolved bl pl fr w0 b0 :
  fst (resolve (PolicyLayer.weight pl) (PolicyLayer.ignore pl) fr) = Ok w0 ->
  fst (resolve (PolicyLayer.bias pl) (PolicyLayer.ignore pl) fr) = Ok b0 ->
  shard_policy_layer' bl pl fr
  = bind (slice_and_save' bl pl w0 b0) (finish' pl) (after_gather_output pl fr).
Proof.
  intros Hw Hb. unfold shard_policy_layer, prepare.
  set (fr0 := after_gather_output pl fr).
  unfold bind at 1. unfold bind at 1.
  rewrite bind_gather_output_spec. fold fr0.
  unfold bind at 1.
  rewrite (resolve_org_layer _ _ fr fr0) by done. rewrite Hw.
  unfold bind at 1.
  rewrite (resolve_org_layer _ _ fr fr0) by done. rewrite Hb.
  reflexivity.
Qed.

(** The instruction from line 175 on, once a pair is sliced. *)
Lemma shard_policy_layer_sliced bl pl fr w0 b0 la w b :
  fst (resolve (PolicyLayer.weight pl) (PolicyLayer.ignore pl) fr) = Ok w0 ->
  fst (resolve (PolicyLayer.bias pl) (PolicyLayer.ignore pl) fr) = Ok b0 ->
  is_None w0 && is_None b0 = false ->
  layer_attr_of (PolicyLayer.weight pl) (PolicyLayer.bias pl) = Ok la ->
  slice_weight_bias w0 b0 (PolicyLayer.cls pl) = Ok (w, b) ->
  shard_policy_layer' bl pl fr
  = bind (print_shapes environ_RANK w b)
      (fun _ => bind (save_binding bl w b)
                  (fun _ => replace_or_install' pl la w b))
      (after_gather_output pl fr).
Proof.
  intros Hw Hb Hnn Hla Hs.
  rewrite (shard_policy_layer_resolved bl pl fr w0 b0 Hw Hb).
  unfold slice_and_save. rewrite Hnn. simpl.
  assert (negb (is_None w0) || negb (is_None b0) = true) as ->.
  { by destruct (is_None w0), (is_None b0). }
  rewrite Hla, Hs. unfold bind, assert_, ret, lift. simpl.
  destruct (print_shapes environ_RANK w b (after_gather_output pl fr))
    as [[[]|e] f1]; [|done].
  by destruct (save_binding bl w b f1) as [[[]|e] f2].
Qed.

(** X4: an instruction with [ignore] unset for which both [weight] and
    [bias] are looked up as [None] raises AssertionError; nothing but the
    local [gather_output] has been assigned. *)
Theorem unresolved_instruction_asserts bl pl fr :
  PolicyLayer.ignore pl = false ->
  fst (resolve (PolicyLayer.weight pl) false fr) = Ok VNone ->
  fst (resolve (PolicyLayer.bias pl) false fr) = Ok VNone ->
  shard_policy_layer' bl pl fr
  = (Raise AssertionError, after_gather_output pl fr).
Proof.
  intros Hig Hw Hb. rewrite <- Hig in Hw, Hb.
  rewrite (shard_policy_layer_resolved bl pl fr VNone VNone Hw Hb).
  unfold slice_and_save. by rewrite Hig.
Qed.

(** X5: an instruction for which the slicer returns [None] as the weight
    (an instruction with a bias only) raises at line 175, which reads
    [weight.shape]: no pair is recorded in the binding map and the layer is
    as it was. *)
Theorem sliced_weight_None_raises bl pl fr w0 b0 la b :
  fst (resolve (PolicyLayer.weight pl) (PolicyLayer.ignore pl) fr) = Ok w0 ->
  fst (resolve (PolicyLayer.bias pl) (PolicyLayer.ignore pl) fr) = Ok b0 ->
  is_None w0 && is_None b0 = false ->
  layer_attr_of (PolicyLayer.weight pl) (PolicyLayer.bias pl) = Ok la ->
  slice_weight_bias w0 b0 (PolicyLayer.cls pl) = Ok (VNone, b) ->
  exists e, shard_policy_layer' bl pl fr = (Raise e, after_gather_output pl fr).
Proof.
  intros Hw Hb Hnn Hla Hs.
  rewrite (shard_policy_layer_sliced bl pl fr w0 b0 la VNone b Hw Hb Hnn Hla Hs).
  destruct (print_shapes_weight_None environ_RANK b (after_gather_output pl fr))
    as [e He].
  exists e. by rewrite (bind_Raise _ _ _ _ _ He).
Qed.

(** X6: without [RANK] in the environment an instruction for which a pair
    is sliced raises KeyError at line 175: no pair is recorded in the
    binding map and the layer is as it was. *)
Theorem rank_unset_raises bl pl fr w0 b0 la w b :
  environ_RANK = None ->
  fst (resolve (PolicyLayer.weight pl) (PolicyLayer.ignore pl) fr) = Ok w0 ->
  fst (resolve (PolicyLayer.bias pl) (PolicyLayer.ignore pl) fr) = Ok b0 ->
  is_None w0 && is_None b0 = false ->
  layer_attr_of (PolicyLayer.weight pl) (PolicyLayer.bias pl) = Ok la ->
  slice_weight_bias w0 b0 (PolicyLayer.cls pl) = Ok (w, b) ->
  shard_policy_layer' bl pl fr = (Raise KeyError, after_gather_output pl fr).
Proof.
  intros Hrank Hw Hb Hnn Hla Hs.
  rewrite (shard_policy_layer_sliced bl pl fr w0 b0 la w b Hw Hb Hnn Hla Hs).
  unfold print_shapes. by rewrite Hrank.
Qed.

Lemma prepare_keeps_replace_layer bl pl fr :
  Frame.replace_layer (snd (prepare' bl pl fr)) = Frame.replace_layer fr.
Proof.
  unfold prepare. unfold bind at 1. rewrite bind_gather_output_spec.
  change (Frame.replace_layer fr)
    with (Frame.replace_layer (after_gather_output pl fr)).
  apply (keeps_bind Frame.replace_layer); [apply keeps_resolve|]. intros w.
  apply keeps_bind; [apply keeps_resolve|]. intros b.
  by apply keeps_slice_and_save.
Qed.

(** An instruction that returns has not bound the local [replace_layer]. *)
Lemma replace_layer_local_of_policy_layer bl pl fr fr' :
  shard_policy_layer' bl pl fr = (Ok tt, fr') ->
  Frame.replace_layer fr' = Frame.replace_layer fr.
Proof.
  intros Hrun. unfold shard_policy_layer in Hrun.
  apply bind_Ok_inv in Hrun as (sliced & fr1 & Hprep & Hfin).
  assert (Hkeep : Frame.replace_layer fr1 = Frame.replace_layer fr).
  { pose proof (prepare_keeps_replace_layer bl pl fr) as Hk.
    by rewrite Hprep in Hk. }
  rewrite <- Hkeep.
  destruct sliced as [[[la w] b]|]; simpl in Hfin.
  - destruct (PolicyLayer.replace_layer pl) as [cls|] eqn:Hcls.
    + destruct (prepare_sliced _ _ _ _ _ _ _ _ _ Hprep)
        as (_ & _ & _ & _ & _ & _ & _ & _ & [t ->] & _).
      destruct (replace_or_install_raises construct pl cls la t b Hcls fr1)
        as (e & f & He).
      congruence.
    + unfold replace_or_install in Hfin. rewrite Hcls in Hfin.
      pose proof (keeps_on_org_layer Frame.replace_layer
                    (set_param (VStr la) w b) ltac:(done) fr1) as Hk.
      by rewrite Hfin in Hk.
  - by injection Hfin as <-.
Qed.

Lemma replace_layer_local_of_loop bl pls : forall fr fr',
  for_each pls (shard_policy_layer' bl) fr = (Ok tt, fr') ->
  Frame.replace_layer fr' = Frame.replace_layer fr.
Proof.
  induction pls as [|pl pls IH]; intros fr fr'; simpl.
  - unfold ret. by intros [= <-].
  - intros H. apply bind_Ok_inv in H as ([] & f1 & Hpl & Hrest).
    rewrite (IH _ _ Hrest).
    by apply (replace_layer_local_of_policy_layer bl pl).
Qed.

(** X7: in one call of [shard_one_layer], after the instructions
    [processed], an instruction that asks to replace a dense linear layer
    by a class whose name is neither [Linear1D_Row] nor [Linear1D_Col]
    raises UnboundLocalError: no replacement layer is built, and the layer
    is as it was. *)
Theorem unknown_replacement_class_unbound bl processed pl org bm fr
    la w b fr1 cls target :
  for_each processed (shard_policy_layer' bl) (Frame.init org bm) = (Ok tt, fr) ->
  prepare' bl pl fr = (Ok (Some (la, w, b)), fr1) ->
  PolicyLayer.replace_layer pl = Some cls ->
  cls <> "Linear1D_Row" -> cls <> "Linear1D_Col" ->
  getattr_ (Frame.org_layer fr1) la false = Ok target ->
  isinstance target KLinear = true ->
  shard_policy_layer' bl pl fr = (Raise UnboundLocalError, fr1)
  /\ Frame.org_layer fr1 = Frame.org_layer fr.
Proof.
  intros Hloop Hprep Hcls Hrow Hcol Htarget Hlin.
  assert (Hlocal : Frame.replace_layer fr1 = None).
  { destruct (prepare_sliced _ _ _ _ _ _ _ _ _ Hprep)
      as (_ & _ & _ & _ & _ & _ & _ & _ & _ & ->).
    rewrite bind_gather_output_spec. simpl.
    by rewrite (replace_layer_local_of_loop _ _ _ _ Hloop). }
  assert (Horg : Frame.org_layer fr1 = Frame.org_layer fr).
  { destruct (prepare_sliced _ _ _ _ _ _ _ _ _ Hprep)
      as (_ & _ & _ & _ & _ & _ & _ & _ & _ & ->).
    by rewrite bind_gather_output_spec. }
  split; [|exact Horg].
  unfold shard_policy_layer. rewrite (bind_Ok _ _ _ _ _ Hprep). simpl finish.
  unfold replace_or_install. rewrite Hcls.
  assert (String.eqb cls "Linear1D_Row" = false) as Erow.
  { destruct (String.eqb cls "Linear1D_Row") eqn:E; [|done].
    apply String.eqb_eq in E. contradiction. }
  assert (String.eqb cls "Linear1D_Col" = false) as Ecol.
  { destruct (String.eqb cls "Linear1D_Col") eqn:E; [|done].
    apply String.eqb_eq in E. contradiction. }
  unfold install_replacement, read_local.
  cbv [bind gets lift ret raise]. rewrite Htarget, Hlin, Erow, Ecol, Hlocal.
  reflexivity.
Qed.

Lemma skipped_step bl pl fr :
  PolicyLayer.ignore pl = true ->
  (forall a, PolicyLayer.weight pl = Some a ->
             hasattr_ (Frame.org_layer fr) a = false) ->
  (forall a, PolicyLayer.bias pl = Some a ->
             hasattr_ (Frame.org_layer fr) a = false) ->
  shard_policy_layer' bl pl fr = (Ok tt, after_gather_output pl fr).
Proof.
  intros Hig Hw Hb.
  assert (Habs : forall attr,
    (forall a, attr = Some a -> hasattr_ (Frame.org_layer fr) a = false) ->
    fst (resolve attr (PolicyLayer.ignore pl) fr) = Ok VNone).
  { intros [a|] Ha; [|done]. unfold resolve, bind, gets.
    rewrite (Ha a eq_refl), Hig. reflexivity. }
  rewrite (shard_policy_layer_resolved bl pl fr VNone VNone (Habs _ Hw) (Habs _ Hb)).
  unfold slice_and_save. by rewrite Hig.
Qed.

(** X8: a call of [shard_one_layer] all of whose instructions have
    [ignore] set and declare only paths that the layer does not have
    returns with the layer and the binding map as they were. *)
Theorem shard_one_layer_nothing_to_shard pf bl org bm :
  Forall (fun pl =>
            PolicyLayer.ignore pl = true
            /\ (forall a, PolicyLayer.weight pl = Some a -> hasattr_ org a = false)
            /\ (forall a, PolicyLayer.bias pl = Some a -> hasattr_ org a = false))
    (concat pf) ->
  shard_one_layer' pf bl (org, bm) = (Ok tt, (org, bm)).
Proof.
  intros Hall. unfold shard_one_layer. rewrite shard_one_layer_loops_flat.
  assert (Hloop : forall fr,
    Frame.org_layer fr = org ->
    exists fr', for_each (concat pf) (shard_policy_layer' bl) fr = (Ok tt, fr')
                /\ Frame.org_layer fr' = org
                /\ Frame.binding_map fr' = Frame.binding_map fr).
  { induction Hall as [|pl pls (Hig & Hw & Hb) _ IH]; intros fr Ho.
    - by exists fr.
    - simpl. rewrite <- Ho in Hw, Hb.
      rewrite (bind_Ok _ _ _ _ _ (skipped_step bl pl fr Hig Hw Hb)).
      destruct (IH (after_gather_output pl fr) Ho) as (fr' & Hrun & Ho' & Hbm).
      by exists fr'. }
  destruct (Hloop (Frame.init org bm) eq_refl) as (fr' & -> & -> & ->).
  reflexivity.
Qed.

(** The binding map over one instruction, however it ends. *)
Lemma grows_policy_layer bl pl fr :
  grows bl (Frame.binding_map fr)
    (Frame.binding_map (snd (shard_policy_layer' bl pl fr))).
Proof.
  pose proof (binding_map_of_policy_layer slice_weight_bias construct
                environ_RANK bl pl fr) as H.
  destruct (prepare' bl pl fr) as [[[[[la w] b]|]|e] f]; rewrite H;
    [apply grows_record_binding | apply grows_refl | apply grows_refl].
Qed.

Lemma grows_loop bl pls : forall fr,
  grows bl (Frame.binding_map fr)
    (Frame.binding_map (snd (for_each pls (shard_policy_layer' bl) fr))).
Proof.
  induction pls as [|pl pls IH]; intros fr; simpl; [apply grows_refl|].
  unfold bind. pose proof (grows_policy_layer bl pl fr) as Hstep.
  destruct (shard_policy_layer' bl pl fr) as [[[]|e] f1]; simpl in *; [|done].
  eapply grows_trans; [exact Hstep | apply IH].
Qed.

Lemma grows_shard_one_layer pf bl org bm :
  grows bl bm (snd (snd (shard_one_layer' pf bl (org, bm)))).
Proof.
  unfold shard_one_layer. rewrite shard_one_layer_loops_flat.
  pose proof (grows_loop bl (concat pf) (Frame.init org bm)) as H.
  by destruct (for_each (concat pf) (shard_policy_layer' bl) (Frame.init org bm)).
Qed.

End SharderMore.

(** ** What is kept of a layer *)

Lemma preserves_ret {S A B} (f : S -> B) (a : A) : preserves f (ret a).
Proof. by intros s. Qed.

Lemma preserves_raise {S A B} (f : S -> B) e : preserves f (@raise S A e).
Proof. by intros s. Qed.

Lemma preserves_lift {S A B} (f : S -> B) (o : outcome A) : preserves f (lift o).
Proof. by intros s. Qed.

Lemma preserves_get {S B} (f : S -> B) : preserves f get.
Proof. by intros s. Qed.

Lemma preserves_assert {S B} (f : S -> B) b : preserves f (assert_ b).
Proof. by destruct b. Qed.

Lemma preserves_bind {S A A' B} (f : S -> B) (m : M S A) (k : A -> M S A') :
  preserves f m -> (forall a, preserves f (k a)) -> preserves f (bind m k).
Proof.
  intros Hm Hk s. unfold bind. specialize (Hm s).
  destruct (m s) as [[a|e] s1]; simpl in *; [|done].
  by rewrite Hk.
Qed.

Lemma preserves_for_each {S A B} (f : S -> B) (l : list A) (body : A -> M S unit) :
  (forall a, preserves f (body a)) -> preserves f (for_each l body).
Proof.
  intros Hb. induction l as [|a l IH]; simpl.
  - apply preserves_ret.
  - apply preserves_bind; [apply Hb | intros ?; apply IH].
Qed.

Lemma setattr_path_root obj p v ig obj' :
  setattr_path obj p v ig = Ok obj' -> root_of obj' = root_of obj.
Proof.
  destruct p as [|a [|b rest]].
  - discriminate.
  - simpl. intros H. by apply py_setattr_Ok in H as (c & k & l & -> & _ & ->).
  - rewrite setattr_path_cons.
    destruct (py_getattr obj a) as [o|].
    + destruct (setattr_path o (b :: rest) v ig); [|discriminate].
      destruct obj; by intros [= <-].
    + destruct ig; [|discriminate]. by intros [= <-].
Qed.

Lemma preserves_setattr_stmt_root p v ig : preserves root_of (setattr_stmt p v ig).
Proof.
  intros obj. unfold setattr_stmt, setattr_.
  destruct (setattr_path obj (PyStr.split_dot p) v ig) as [obj'|] eqn:E; [|done].
  simpl. exact (setattr_path_root _ _ _ _ _ E).
Qed.

Lemma preserves_set_param_root layer_attr w b :
  preserves root_of (set_param layer_attr w b).
Proof.
  unfold set_param.
  apply preserves_bind; [apply preserves_assert|]. intros ?.
  apply preserves_bind.
  - destruct (is_None w); [apply preserves_ret|].
    apply preserves_bind; [apply preserves_lift|]. intros s.
    apply preserves_bind; [apply preserves_lift|]. intros p.
    apply preserves_bind; [apply preserves_setattr_stmt_root|]. intros ?.
    apply preserves_bind; [apply preserves_lift|]. intros size.
    unfold set_layer_size. apply preserves_for_each. intros [i attr].
    unfold set_layer_size_attr.
    apply preserves_bind; [apply preserves_get|]. intros layer.
    destruct (hasattr_ layer _); [|apply preserves_ret].
    apply preserves_bind; [apply preserves_lift|]. intros n.
    apply preserves_setattr_stmt_root.
  - intros ?. destruct (is_None b); [apply preserves_ret|].
    apply preserves_bind; [apply preserves_lift|]. intros s.
    apply preserves_bind; [apply preserves_lift|]. intros p.
    apply preserves_setattr_stmt_root.
Qed.

Lemma grows_mono keys keys' bm bm' :
  (forall k, In k keys -> In k keys') -> grows keys bm bm' -> grows keys' bm bm'.
Proof.
  intros Hsub H k. destruct (H k) as [Ho Hs]. split; [|done].
  intros Hni. apply Ho. intros Hi. apply Hni. by apply Hsub.
Qed.

Section KeptOfLayer.

Variable slice_weight_bias :
  pyval -> pyval -> PolicyClass -> outcome (pyval * pyval).
Variable construct : string -> CtorArgs -> pyval.
Variable environ_RANK : option string.

Local Abbreviation shard_policy_layer' :=
  (shard_policy_layer slice_weight_bias construct environ_RANK).
Local Abbreviation shard_one_layer' :=
  (shard_one_layer slice_weight_bias construct environ_RANK).
Local Abbreviation shard_child' :=
  (shard_child slice_weight_bias construct environ_RANK).
Local Abbreviation reverse_replace_layer' :=
  (reverse_replace_layer slice_weight_bias construct environ_RANK).
Local Abbreviation replace_layer' :=
  (replace_layer slice_weight_bias construct environ_RANK).
Local Abbreviation org_root := (fun fr : Frame.t => root_of (Frame.org_layer fr)).

Lemma keeps_root_on_org_layer m :
  preserves root_of m -> keeps org_root (on_org_layer m).
Proof.
  intros Hm fr. unfold on_org_layer. specialize (Hm (Frame.org_layer fr)).
  by destruct (m (Frame.org_layer fr)).
Qed.

Lemma keeps_root_install_replacement la ig w b :
  keeps org_root (install_replacement la ig w b).
Proof.
  unfold install_replacement.
  apply keeps_bind; [apply keeps_read_local|]. intros rl.
  apply keeps_bind;
    [apply keeps_root_on_org_layer, preserves_setattr_stmt_root|].
  intros ? fr. destruct (set_param w b VNone rl) as [r rl']. simpl.
  unfold setattr_.
  destruct (setattr_path (Frame.org_layer fr) (PyStr.split_dot la) rl' ig)
    as [o|] eqn:E; [|done].
  exact (setattr_path_root _ _ _ _ _ E).
Qed.

Lemma keeps_root_replace_or_install pl la w b :
  keeps org_root (replace_or_install construct pl la w b).
Proof.
  unfold replace_or_install.
  destruct (PolicyLayer.replace_layer pl) as [cls|];
    [|apply keeps_root_on_org_layer, preserves_set_param_root].
  apply keeps_bind; [apply keeps_gets|]. intros org.
  apply keeps_bind; [apply keeps_lift|]. intros target.
  destruct (isinstance target KLinear).
  - apply keeps_bind; [|intros; apply keeps_root_install_replacement].
    destruct (String.eqb cls "Linear1D_Row");
      [|destruct (String.eqb cls "Linear1D_Col")].
    + repeat (apply keeps_bind; [apply keeps_lift|]; intros).
      by apply keeps_modify.
    + repeat (apply keeps_bind; [apply keeps_lift|]; intros).
      apply keeps_bind; [apply keeps_read_local|]. intros.
      by apply keeps_modify.
    + apply keeps_ret.
  - apply keeps_bind; [apply keeps_lift|]. intros target'.
    destruct (isinstance target' KEmbedding); [|apply keeps_raise].
    repeat (apply keeps_bind; [apply keeps_lift|]; intros).
    apply keeps_bind; [by apply keeps_modify|]. intros.
    apply keeps_root_install_replacement.
Qed.

Lemma keeps_root_policy_layer bl pl : keeps org_root (shard_policy_layer' bl pl).
Proof.
  unfold shard_policy_layer. apply keeps_bind.
  - unfold prepare. apply keeps_bind.
    { intros fr. by rewrite bind_gather_output_spec. }
    intros ?. apply keeps_bind; [apply keeps_resolve|]. intros w.
    apply keeps_bind; [apply keeps_resolve|]. intros b.
    by apply keeps_slice_and_save.
  - intros [[[la w] b]|]; simpl;
      [apply keeps_root_replace_or_install | apply keeps_ret].
Qed.

Lemma shard_one_layer_root pf bl org bm :
  root_of (fst (snd (shard_one_layer' pf bl (org, bm)))) = root_of org.
Proof.
  unfold shard_one_layer, shard_one_layer_loops.
  pose proof (keeps_for_each org_root pf
                (fun pls => for_each pls (shard_policy_layer' bl))
                ltac:(intros pls; apply keeps_for_each, keeps_root_policy_layer)
                (Frame.init org bm)) as H.
  by destruct (for_each pf _ (Frame.init org bm)).
Qed.

(** X9: whatever [shard_one_layer] does below the layer it is given and
    however it ends, that layer is afterwards a module of the class and
    kind it was; and no key of the binding map outside the binding layers
    has changed, no key has gone. *)
Theorem shard_one_layer_keeps_class pf bl org bm :
  root_of (fst (snd (shard_one_layer' pf bl (org, bm)))) = root_of org
  /\ grows bl bm (snd (snd (shard_one_layer' pf bl (org, bm)))).
Proof.
  split; [apply shard_one_layer_root | apply grows_shard_one_layer].
Qed.

(** ** What the traversal keeps *)

Lemma shard_child_attr_loop_root (ad : list (string * pyval)) : forall child,
  exists r child', root_of child' = root_of child
    /\ forall bm : BindingMap,
      for_each ad (fun '(k, v) => fun '(child, bm) =>
                     let '(r, child') := setattr_stmt k v true child in
                     (r, (child', bm))) (child, bm)
      = (r, (child', bm)).
Proof.
  induction ad as [|[k v] ad IH]; intros child; simpl.
  - by exists (Ok tt), child.
  - unfold bind.
    pose proof (preserves_setattr_stmt_root k v true child) as Hroot.
    destruct (setattr_stmt k v true child) as [[[]|e] child1] eqn:E; simpl in *.
    + destruct (IH child1) as (r & child' & Hr & H). exists r, child'.
      split; [congruence | apply H].
    + by exists (Raise e), child1.
Qed.

Lemma shard_child_root ad pf bl child bm :
  root_of (fst (snd (shard_child' ad pf bl (child, bm)))) = root_of child.
Proof.
  unfold shard_child, bind.
  destruct (shard_child_attr_loop_root ad child) as (r & child' & Hroot & H).
  rewrite H. destruct r as [[]|e]; [|done].
  rewrite <- Hroot. apply shard_one_layer_root.
Qed.


Lemma reverse_replace_layer_root origin ad pf bl v bm :
  root_of (fst (snd (reverse_replace_layer' origin ad pf bl v bm))) = root_of v.
Proof.
  destruct v; try done. simpl.
  by destruct (for_named_children _ attrs bm) as [r [attrs' bm']].
Qed.

Lemma for_named_children_shape body l : forall bm,
  (forall child bm, is_module child = true ->
     root_of (fst (snd (body child bm))) = root_of child) ->
  Forall2 (fun a a' =>
             fst a' = fst a
             /\ root_of (snd a') = root_of (snd a)
             /\ (is_module (snd a) = false -> snd a' = snd a))
    l (fst (snd (for_named_children body l bm))).
Proof.
  induction l as [|[name child] l IH]; intros bm Hbody; simpl; [constructor|].
  destruct (is_module child) eqn:Hmod.
  - specialize (Hbody child bm Hmod) as Hroot.
    destruct (body child bm) as [[[]|e] [child' bm1]]; simpl in *.
    + specialize (IH bm1 Hbody).
      destruct (for_named_children body l bm1) as [r2 [rest' bm2]]. simpl in *.
      constructor; [|exact IH]. simpl.
      split; [done|]. split; [done|]. congruence.
    + constructor.
      * simpl. split; [done|]. split; [done|]. congruence.
      * clear. induction l as [|a l IHl]; constructor; [done|exact IHl].
  - specialize (IH bm Hbody).
    destruct (for_named_children body l bm) as [r2 [rest' bm2]]. simpl in *.
    constructor; [|exact IH]. done.
Qed.

(** X10: however [reverse_replace_layer] ends, the layer it was given is
    afterwards a module of the same class and kind with the same attribute
    names in the same order: every child is a module of the class and kind
    it was, and every attribute that is not a module is what it was. *)
Theorem reverse_replace_layer_keeps_shape origin ad pf bl c k attrs bm :
  exists attrs',
    fst (snd (reverse_replace_layer' origin ad pf bl (VModule c k attrs) bm))
    = VModule c k attrs'
    /\ Forall2 (fun a a' =>
                  fst a' = fst a
                  /\ root_of (snd a') = root_of (snd a)
                  /\ (is_module (snd a) = false -> snd a' = snd a))
         attrs attrs'.
Proof.
  simpl.
  match goal with
  | |- context [for_named_children ?body attrs bm] =>
      pose proof (for_named_children_shape body attrs bm) as H;
      destruct (for_named_children body attrs bm) as [r [attrs' bm']]
  end.
  exists attrs'. split; [done|]. apply H.
  intros child bm0 _.
  destruct (String.eqb (class_of child) origin);
    [apply shard_child_root | apply reverse_replace_layer_root].
Qed.

Lemma for_named_children_noop body l : forall bm,
  Forall (fun a => is_module (snd a) = true ->
                   forall bm, body (snd a) bm = (Ok tt, (snd a, bm))) l ->
  for_named_children body l bm = (Ok tt, (l, bm)).
Proof.
  induction l as [|[name child] l IH]; intros bm Hl; [done|].
  inversion Hl as [|? ? Hc Hrest]; subst. simpl in *.
  destruct (is_module child).
  - by rewrite (Hc eq_refl), IH.
  - by rewrite IH.
Qed.

Lemma reverse_replace_layer_noop origin ad pf bl v :
  is_module v = true ->
  occurs_below origin v = false ->
  forall bm, reverse_replace_layer' origin ad pf bl v bm = (Ok tt, (v, bm)).
Proof.
  induction v as [ | | | | | c k attrs IH] using pyval_nested_ind;
    try discriminate.
  intros _ Hocc bm. simpl in *.
  rewrite for_named_children_noop; [done|].
  clear bm. induction IH as [|[name child] l Hc _ IHl]; [constructor|].
  simpl in Hocc. apply orb_false_elim in Hocc as [Hhere Hrest].
  constructor; [|by apply IHl].
  simpl in *. intros Hmod bm. rewrite Hmod in Hhere. simpl in Hhere.
  apply orb_false_elim in Hhere as [Hcls Hbelow].
  rewrite Hcls. by apply Hc.
Qed.

(** X11: a pass none of whose rules names a class that occurs below the
    model returns with the model and the binding map as they were. *)
Theorem replace_layer_without_match aps model bm :
  is_module model = true ->
  Forall (fun ap => occurs_below (fst ap) model = false) aps ->
  replace_layer' aps (model, bm) = (Ok tt, (model, bm)).
Proof.
  intros Hmod Hall. unfold replace_layer.
  induction Hall as [|[origin p] aps Hocc _ IH]; [done|].
  simpl in *. unfold bind.
  by rewrite (reverse_replace_layer_noop origin _ _ _ model Hmod Hocc).
Qed.

(** *** The binding map over the pass *)

Lemma grows_shard_child ad pf bl child bm :
  grows bl bm (snd (snd (shard_child' ad pf bl (child, bm)))).
Proof.
  unfold shard_child, bind.
  destruct (shard_child_attr_loop_root ad child) as (r & child' & _ & H).
  rewrite H. destruct r as [[]|e]; [|apply grows_refl].
  apply grows_shard_one_layer.
Qed.

Lemma grows_for_named_children keys body l : forall bm,
  Forall (fun a => is_module (snd a) = true ->
                   forall bm, grows keys bm (snd (snd (body (snd a) bm)))) l ->
  grows keys bm (snd (snd (for_named_children body l bm))).
Proof.
  induction l as [|[name child] l IH]; intros bm Hl; [apply grows_refl|].
  inversion Hl as [|? ? Hc Hrest]; subst. simpl in *.
  destruct (is_module child).
  - specialize (Hc eq_refl bm).
    destruct (body child bm) as [[[]|e] [child' bm1]]; simpl in *; [|done].
    specialize (IH bm1 Hrest).
    destruct (for_named_children body l bm1) as [r2 [rest' bm2]]. simpl in *.
    by eapply grows_trans.
  - specialize (IH bm Hrest).
    by destruct (for_named_children body l bm) as [r2 [rest' bm2]].
Qed.

Lemma grows_reverse_replace_layer origin ad pf bl v : forall bm,
  grows bl bm (snd (snd (reverse_replace_layer' origin ad pf bl v bm))).
Proof.
  induction v as [ | | | | | c k attrs IH] using pyval_nested_ind;
    intros bm; try apply grows_refl.
  simpl.
  match goal with
  | |- context [for_named_children ?body attrs bm] =>
      pose proof (grows_for_named_children bl body attrs bm) as H;
      destruct (for_named_children body attrs bm) as [r [attrs' bm']]
  end.
  simpl in *. apply H. clear H.
  induction IH as [|[name child] l Hc _ IHl]; constructor; [|exact IHl].
  simpl in *. intros _ bm0.
  destruct (String.eqb (class_of child) origin); [apply grows_shard_child | apply Hc].
Qed.

(** X12: however the pass ends, every key that the binding map had it
    still has, and every key that is not a binding layer of one of the
    rules is bound to what it was bound to. *)
Theorem replace_layer_grows_binding_map aps model bm :
  grows (flat_map (fun ap => ArgPolicy.binding_layers (snd ap)) aps) bm
    (snd (snd (replace_layer' aps (model, bm)))).
Proof.
  unfold replace_layer. revert model bm.
  induction aps as [|[origin p] aps IH]; intros model bm; [apply grows_refl|].
  simpl. unfold bind.
  pose proof (grows_reverse_replace_layer origin (ArgPolicy.attr_dict p)
                (ArgPolicy.param_funcs p) (ArgPolicy.binding_layers p) model bm)
    as Hstep.
  destruct (reverse_replace_layer' origin _ _ _ model bm) as [[[]|e] [m1 bm1]];
    simpl in *.
  - eapply grows_trans.
    + eapply grows_mono; [|exact Hstep]. intros k Hk. apply in_or_app. by left.
    + eapply grows_mono; [|apply IH]. intros k Hk. apply in_or_app. by right.
  - eapply grows_mono; [|exact Hstep]. intros k Hk. apply in_or_app. by left.
Qed.

End KeptOfLayer.

(** ** More on set_param and the owning path *)

Lemma preserves_setattr_stmt_path p v ig q :
  (forall layer layer', setattr_ layer p v ig = Ok layer' ->
     getattr_path layer' q = getattr_path layer q) ->
  preserves (fun layer => getattr_path layer q) (setattr_stmt p v ig).
Proof.
  intros H layer. unfold setattr_stmt.
  destruct (setattr_ layer p v ig) as [layer'|] eqn:E; [|done].
  simpl. by apply H.
Qed.

Lemma preserves_bind_lift {S A A' B} (f : S -> B) (o : outcome A)
    (k : A -> M S A') :
  (forall a, o = Ok a -> preserves f (k a)) -> preserves f (bind (lift o) k).
Proof.
  intros Hk s. unfold bind, lift. destruct o as [a|e]; [|done].
  by apply Hk.
Qed.

(** X13: however [set_param] ends, an attribute under [layer_attr] whose
    name is none of [weight], [bias], [out_features] and [in_features] is
    what it was. *)
Theorem set_param_touches_four_names layer layer_attr w b attr :
  PyStr.split_dot attr = [attr] ->
  attr <> "weight" -> attr <> "bias" ->
  attr <> "out_features" -> attr <> "in_features" ->
  forall ignore,
    getattr_ (snd (set_param (VStr layer_attr) w b layer))
      (layer_attr ++ "." ++ attr) ignore
    = getattr_ layer (layer_attr ++ "." ++ attr) ignore.
Proof.
  intros Hattr Hw Hb Hout Hin ignore.
  assert (Hpath : preserves
            (fun l => getattr_path l (PyStr.split_dot (layer_attr ++ "." ++ attr)))
            (set_param (VStr layer_attr) w b)).
  { unfold set_param.
    apply preserves_bind; [apply preserves_assert|]. intros ?.
    apply preserves_bind.
    - destruct (is_None w); [apply preserves_ret|].
      apply preserves_bind_lift. intros s [= <-].
      apply preserves_bind; [apply preserves_lift|]. intros p.
      apply preserves_bind.
      { apply preserves_setattr_stmt_path. intros l l' Hset.
        apply (setattr_param_keeps_size layer_attr "weight" attr l l' p false);
          done. }
      intros ?. apply preserves_bind; [apply preserves_lift|]. intros size.
      assert (Hstep : forall i name, PyStr.split_dot name = [name] ->
                name <> attr ->
                preserves
                  (fun l => getattr_path l
                              (PyStr.split_dot (layer_attr ++ "." ++ attr)))
                  (set_layer_size_attr layer_attr size i name)).
      { intros i name Hname Hne. unfold set_layer_size_attr.
        apply preserves_bind; [apply preserves_get|]. intros l0.
        destruct (hasattr_ l0 _); [|apply preserves_ret].
        apply preserves_bind; [apply preserves_lift|]. intros n.
        apply preserves_setattr_stmt_path. intros l l' Hset.
        by apply (setattr_size_keeps_size layer_attr name attr l l' (VInt n) false). }
      unfold set_layer_size. simpl for_each.
      apply preserves_bind; [by apply Hstep|]. intros ?.
      apply preserves_bind; [by apply Hstep|]. intros ?.
      apply preserves_ret.
    - intros ?. destruct (is_None b); [apply preserves_ret|].
      apply preserves_bind_lift. intros s [= <-].
      apply preserves_bind; [apply preserves_lift|]. intros p.
      apply preserves_setattr_stmt_path. intros l l' Hset.
      apply (setattr_param_keeps_size layer_attr "bias" attr l l' p false);
        done. }
  specialize (Hpath layer). unfold getattr_. simpl in Hpath. by rewrite Hpath.
Qed.



(** X15: [set_param] with a weight of one dimension on a module that has
    an [in_features] attribute, and whose [out_features] is a scalar if it
    has one, raises IndexError at [size[1]]; by then the weight is
    installed and an [out_features] attribute that was there is
    rewritten, and they stay so. *)
Theorem set_param_one_dimensional layer layer_attr t bias r cls kind attrs v :
  layer_attr <> "" ->
  getattr_ layer layer_attr false = Ok (VModule cls kind attrs) ->
  takes_scalar "out_features" attrs = true ->
  shape t = [r] ->
  assoc_get "in_features" attrs = Some v ->
  exists layer' attrs',
    set_param (VStr layer_attr) (VTensor t) bias layer = (Raise IndexError, layer')
    /\ getattr_ layer' layer_attr false = Ok (VModule cls kind attrs')
    /\ assoc_get "weight" attrs' = Some (VTensor t)
    /\ assoc_get "in_features" attrs' = Some v
    /\ (assoc_get "out_features" attrs <> None ->
        assoc_get "out_features" attrs' = Some (VInt r)).
Proof.
  intros Hla Hget Hso Hshape Hin.
  destruct (setattr__under_param layer_attr "weight" t false layer cls kind attrs
              eq_refl ltac:(done) Hget) as (l1 & Hset1 & Hget1).
  set (attrs1 := assoc_set "weight" (VTensor t) attrs) in *.
  assert (Hso1 : takes_scalar "out_features" attrs1 = true).
  { erewrite takes_scalar_ext; [exact Hso|]. by apply assoc_get_set_ne. }
  destruct (set_layer_size_attr_runs layer_attr (shape t) 0 "out_features" r l1
              cls kind attrs1 eq_refl Hget1 ltac:(by rewrite Hshape) Hso1)
    as (l2 & Hrun2).
  destruct (set_layer_size_attr_under layer_attr (shape t) 0 "out_features" l1 l2
              cls kind attrs1 eq_refl Hget1 Hrun2)
    as (attrs2 & Hget2 & Hother2 & _ & Hsome2).
  assert (Hin2 : assoc_get "in_features" attrs2 = Some v).
  { rewrite Hother2 by done. unfold attrs1. by rewrite assoc_get_set_ne. }
  assert (Hin_step :
    set_layer_size_attr layer_attr (shape t) 1 "in_features" l2
    = (Raise IndexError, l2)).
  { unfold set_layer_size_attr, bind, get, lift, index, setattr_stmt, ret.
    rewrite Hshape. cbv [nth_error].
    rewrite (hasattr__under layer_attr "in_features" l2 cls kind attrs2 eq_refl Hget2).
    by rewrite Hin2. }
  exists l2, attrs2. split; [|split; [done|split; [|split; [done|]]]].
  - unfold set_param. simpl assert_. unfold bind at 1, ret at 1.
    simpl is_None at 1. cbv iota.
    apply bind_Raise.
    unfold bind at 1, lift at 1. simpl str_operand. cbv iota beta.
    unfold bind at 1, lift at 1. simpl nn_Parameter. cbv iota beta.
    unfold bind at 1, setattr_stmt at 1.
    rewrite (param_path_under _ _ Hla), Hset1.
    unfold bind at 1, lift at 1. simpl shape_of. cbv iota beta.
    unfold set_layer_size. simpl for_each.
    rewrite (bind_Ok _ _ _ _ _ Hrun2). by rewrite (bind_Raise _ _ _ _ _ Hin_step).
  - rewrite Hother2 by done. apply assoc_get_set_eq.
  - intros Hold. unfold attrs1 in Hsome2.
    rewrite assoc_get_set_ne in Hsome2 by done.
    destruct (Hsome2 Hold) as (n & Hn & ->). rewrite Hshape in Hn.
    by injection Hn as <-.
Qed.

(** ** The first exception in the traversal *)

Lemma for_named_children_raise body pre name child post : forall bm pre' bm1 e child' bm2,
  for_named_children body pre bm = (Ok tt, (pre', bm1)) ->
  is_module child = true ->
  body child bm1 = (Raise e, (child', bm2)) ->
  for_named_children body (pre ++ (name, child) :: post) bm
  = (Raise e, ((pre' ++ (name, child') :: post)%list, bm2)).
Proof.
  induction pre as [|[n c] pre IH]; intros bm pre' bm1 e child' bm2 Hpre Hmod Hraise.
  - injection Hpre as <- <-. simpl. by rewrite Hmod, Hraise.
  - simpl in *. destruct (is_module c).
    + destruct (body c bm) as [[[]|e0] [c' bm0]]; [|discriminate].
      destruct (for_named_children body pre bm0) as [r2 [rest' bm3]] eqn:Erest.
      injection Hpre as -> <- ->.
      by rewrite (IH bm0 rest' bm1 e child' bm2 Erest Hmod Hraise).
    + destruct (for_named_children body pre bm) as [r2 [rest' bm3]] eqn:Erest.
      injection Hpre as -> <- ->.
      by rewrite (IH bm rest' bm1 e child' bm2 Erest Hmod Hraise).
Qed.

Section FirstException.
Variable slice_weight_bias :
  pyval -> pyval -> PolicyClass -> outcome (pyval * pyval).
Variable construct : string -> CtorArgs -> pyval.
Variable environ_RANK : option string.

Local Abbreviation reverse_replace_layer' :=
  (reverse_replace_layer slice_weight_bias construct environ_RANK).
Local Abbreviation visit_child' :=
  (visit_child slice_weight_bias construct environ_RANK).

(** X16: the first child on which the body of the loop raises ends
    [reverse_replace_layer] with that exception: the children before it
    stay as the traversal left them, that child stays as it was when the
    exception was raised, and the children after it are as they were. *)
Theorem reverse_replace_layer_first_exception origin ad pf bl c k
    pre name child post bm pre' bm1 e child' bm2 :
  reverse_replace_layer' origin ad pf bl (VModule c k pre) bm
  = (Ok tt, (VModule c k pre', bm1)) ->
  is_module child = true ->
  visit_child' origin ad pf bl child bm1 = (Raise e, (child', bm2)) ->
  reverse_replace_layer' origin ad pf bl
    (VModule c k (pre ++ (name, child) :: post)) bm
  = (Raise e, (VModule c k (pre' ++ (name, child') :: post), bm2)).
Proof.
  intros Hpre Hmod Hraise. simpl in *.
  fold (visit_child' origin ad pf bl) in *.
  destruct (for_named_children (visit_child' origin ad pf bl) pre bm)
    as [r [attrs' bm']] eqn:E.
  injection Hpre as -> -> ->.
  by rewrite (for_named_children_raise _ pre name child post bm pre' bm1 e
                child' bm2 E Hmod Hraise).
Qed.

End FirstException.

(** * The further properties on the sample model *)

Lemma inject_model_touches_shared_names_only_witness :
  PyClass.getattr
    (snd (inject_model (Sample.BertForMaskedLM, Sample.BertForMaskedLM_)
            Sample.BertForMaskedLM)) "__init__"
  = Some "BertForMaskedLM.__init__"
  /\ PyClass.hasattr
       (snd (inject_model (Sample.BertForMaskedLM, Sample.BertForMaskedLM_)
               Sample.BertForMaskedLM)) "parallel_loss"
     = false.
Proof.
  destruct (inject_model_touches_shared_names_only
              Sample.BertForMaskedLM Sample.BertForMaskedLM_
              Sample.BertForMaskedLM
              (snd (inject_model (Sample.BertForMaskedLM, Sample.BertForMaskedLM_)
                      Sample.BertForMaskedLM))
              ltac:(vm_compute; reflexivity)) as (_ & _ & Hhas & Hout).
  split.
  - rewrite Hout; [reflexivity|]. simpl. intros [H|[H|[]]]; discriminate.
  - rewrite Hhas. reflexivity.
Defined.

Lemma inject_model_twice_witness :
  inject_model (Sample.BertForMaskedLM, Sample.BertForMaskedLM_)
    (snd (inject_model (Sample.BertForMaskedLM, Sample.BertForMaskedLM_)
            Sample.BertForMaskedLM))
  = (Ok tt, snd (inject_model (Sample.BertForMaskedLM, Sample.BertForMaskedLM_)
                   Sample.BertForMaskedLM)).
Proof.
  apply (inject_model_twice Sample.BertForMaskedLM Sample.BertForMaskedLM_
           Sample.BertForMaskedLM).
  vm_compute. reflexivity.
Defined.

Lemma shard_injects_then_replaces_witness :
  shard Sample.slicer Collaborators.construct Sample.RANK
    (Sample.BertForMaskedLM, Sample.BertForMaskedLM_) Sample.policy
    (Sample.GPT2LMHeadModel, (Sample.model, ∅))
  = (Raise UnsupportedModelError, (Sample.GPT2LMHeadModel, (Sample.model, ∅)))
  /\ (exists mc',
        inject_model (Sample.BertForMaskedLM, Sample.BertForMaskedLM_)
          Sample.BertForMaskedLM = (Ok tt, mc')
        /\ shard Sample.slicer Collaborators.construct Sample.RANK
             (Sample.BertForMaskedLM, Sample.BertForMaskedLM_) Sample.policy
             (Sample.BertForMaskedLM, (Sample.model, ∅))
           = (fst (Sample.run_pass Sample.policy (Sample.model, ∅)),
              (mc', snd (Sample.run_pass Sample.policy (Sample.model, ∅)))))
  /\ shard Sample.slicer Collaborators.construct Sample.RANK
       (Sample.T5Model, Sample.T5Model_) Sample.policy
       (Sample.T5Model, (Sample.model, ∅))
     = (Raise AttributeError,
        (snd (inject_model (Sample.T5Model, Sample.T5Model_) Sample.T5Model),
         (Sample.model, ∅))).
Proof.
  split; [|split].
  - destruct (shard_injects_then_replaces Sample.slicer Collaborators.construct
                Sample.RANK Sample.BertForMaskedLM Sample.BertForMaskedLM_
                Sample.GPT2LMHeadModel Sample.policy (Sample.model, ∅))
      as (Hother & _).
    apply Hother. discriminate.
  - destruct (shard_injects_then_replaces Sample.slicer Collaborators.construct
                Sample.RANK Sample.BertForMaskedLM Sample.BertForMaskedLM_
                Sample.BertForMaskedLM Sample.policy (Sample.model, ∅))
      as (_ & _ & _ & Hreturns).
    apply Hreturns; [reflexivity|].
    intros key [<-|[<-|[]]]; reflexivity.
  - destruct (shard_injects_then_replaces Sample.slicer Collaborators.construct
                Sample.RANK Sample.T5Model Sample.T5Model_
                Sample.T5Model Sample.policy (Sample.model, ∅))
      as (_ & Hraises & _).
    apply Hraises. vm_compute. reflexivity.
Defined.

Lemma unresolved_instruction_asserts_witness :
  Sample.run_one [] (Sample.instr Layer None (Some "bias") None false false)
    (Frame.init Sample.head ∅)
  = (Raise AssertionError, Frame.init Sample.head ∅).
Proof.
  apply (unresolved_instruction_asserts Sample.slicer Collaborators.construct
           Sample.RANK [] (Sample.instr Layer None (Some "bias") None false false)
           (Frame.init Sample.head ∅)); reflexivity.
Defined.

Lemma sliced_weight_None_raises_witness :
  exists e,
    Sample.run_one ["Head"]
      (Sample.instr Layer None (Some "dense.bias") None false false)
      (Frame.init Sample.block ∅)
    = (Raise e, Frame.init Sample.block ∅).
Proof.
  apply (sliced_weight_None_raises Sample.slicer Collaborators.construct
           Sample.RANK ["Head"]
           (Sample.instr Layer None (Some "dense.bias") None false false)
           (Frame.init Sample.block ∅) VNone (VTensor Sample.b4) "dense"
           (VTensor Sample.b4)); reflexivity.
Defined.

Lemma rank_unset_raises_witness :
  shard_policy_layer Sample.slicer Collaborators.construct None ["Head"]
    Sample.row_dense (Frame.init Sample.block ∅)
  = (Raise KeyError, Frame.init Sample.block ∅).
Proof.
  apply (rank_unset_raises Sample.slicer Collaborators.construct None ["Head"]
           Sample.row_dense (Frame.init Sample.block ∅)
           (VTensor Sample.w43) (VTensor Sample.b4) "dense"
           (VTensor Sample.w23) (VTensor Sample.b2)); reflexivity.
Defined.

Lemma unknown_replacement_class_unbound_witness :
  Sample.run_one []
    (Sample.instr Row_Layer (Some "dense.weight") None (Some "Linear") false false)
    (Frame.init Sample.block ∅)
  = (Raise UnboundLocalError, Frame.init Sample.block ∅)
  /\ Frame.org_layer (Frame.init Sample.block ∅) = Sample.block.
Proof.
  apply (unknown_replacement_class_unbound Sample.slicer Collaborators.construct
           Sample.RANK [] []
           (Sample.instr Row_Layer (Some "dense.weight") None (Some "Linear")
              false false)
           Sample.block ∅ (Frame.init Sample.block ∅)
           "dense" (VTensor Sample.w23) VNone (Frame.init Sample.block ∅)
           "Linear" (Sample.linear Sample.w43 (VTensor Sample.b4)));
    try reflexivity; try discriminate.
Defined.

Lemma shard_one_layer_nothing_to_shard_witness :
  shard_one_layer Sample.slicer Collaborators.construct Sample.RANK
    [[Sample.col_crossattention]; []] ["Head"] (Sample.block, ∅)
  = (Ok tt, (Sample.block, ∅)).
Proof.
  apply (shard_one_layer_nothing_to_shard Sample.slicer Collaborators.construct
           Sample.RANK [[Sample.col_crossattention]; []] ["Head"] Sample.block ∅).
  repeat constructor; intros a [= <-]; reflexivity.
Defined.

Lemma replace_layer_without_match_witness :
  Sample.run_pass
    [("Decoder", ArgPolicy.mk [("chunk_size", VInt 1)] [[Sample.row_dense]] ["Head"])]
    (Sample.model, ∅)
  = (Ok tt, (Sample.model, ∅)).
Proof.
  apply (replace_layer_without_match Sample.slicer Collaborators.construct
           Sample.RANK
           [("Decoder",
             ArgPolicy.mk [("chunk_size", VInt 1)] [[Sample.row_dense]] ["Head"])]
           Sample.model ∅); [reflexivity|].
  repeat constructor.
Defined.

Lemma set_param_installs_witness :
  exists layer' attrs',
    set_param (VStr "dense") (VTensor Sample.w23) (VTensor Sample.b2) Sample.block
    = (Ok tt, layer')
    /\ getattr_ layer' "dense" false = Ok (VModule "Linear" KLinear attrs')
    /\ assoc_get "weight" attrs' = Some (VTensor Sample.w23)
    /\ (VTensor Sample.b2 <> VNone ->
        assoc_get "bias" attrs' = Some (VTensor Sample.b2)).
Proof.
  apply (set_param_installs Sample.block "dense" Sample.w23 (VTensor Sample.b2)
           2 3 [] "Linear" KLinear
           [("in_features", VInt 3); ("out_features", VInt 4);
            ("weight", VTensor Sample.w43); ("bias", VTensor Sample.b4)]).
  - discriminate.
  - reflexivity.
  - reflexivity.
  - reflexivity.
  - reflexivity.
  - right. by exists Sample.b2.
Defined.

Lemma set_param_touches_four_names_witness :
  getattr_
    (snd (set_param (VStr "word_embeddings") (VTensor Sample.w23) VNone
            Sample.block))
    "word_embeddings.padding_idx" false
  = Ok (VInt 0).
Proof.
  rewrite (set_param_touches_four_names Sample.block "word_embeddings"
             (VTensor Sample.w23) VNone "padding_idx");
    try reflexivity; discriminate.
Defined.


Lemma reverse_replace_layer_first_exception_witness :
  reverse_replace_layer Sample.slicer Collaborators.construct Sample.RANK
    "Block" [] [[Sample.row_dense; Sample.row_crossattention]] ["Head"]
    (VModule "Model" KOther
       [("head", Sample.head); ("block", Sample.block); ("next", Sample.block)]) ∅
  = (Raise MissingAttributeError,
     (VModule "Model" KOther
        [("head", Sample.head);
         ("block",
          fst (snd (shard_one_layer Sample.slicer Collaborators.construct
                      Sample.RANK [[Sample.row_dense]] ["Head"] (Sample.block, ∅))));
         ("next", Sample.block)],
      snd (snd (shard_one_layer Sample.slicer Collaborators.construct
                  Sample.RANK [[Sample.row_dense]] ["Head"] (Sample.block, ∅))))).
Proof.
  apply (reverse_replace_layer_first_exception Sample.slicer
           Collaborators.construct Sample.RANK "Block" []
           [[Sample.row_dense; Sample.row_crossattention]] ["Head"] "Model" KOther
           [("head", Sample.head)] "block" Sample.block [("next", Sample.block)]
           ∅ [("head", Sample.head)] ∅).
  - vm_compute. reflexivity.
  - reflexivity.
  - vm_compute. reflexivity.
Defined.

Lemma set_param_one_dimensional_witness :
  exists layer' attrs',
    set_param (VStr "dense") (VTensor Sample.b4) VNone Sample.block
    = (Raise IndexError, layer')
    /\ getattr_ layer' "dense" false = Ok (VModule "Linear" KLinear attrs')
    /\ assoc_get "weight" attrs' = Some (VTensor Sample.b4)
    /\ assoc_get "in_features" attrs' = Some (VInt 3)
    /\ (assoc_get "out_features"
          [("in_features", VInt 3); ("out_features", VInt 4);
           ("weight", VTensor Sample.w43); ("bias", VTensor Sample.b4)] <> None ->
        assoc_get "out_features" attrs' = Some (VInt 4)).
Proof.
  apply (set_param_one_dimensional Sample.block "dense" Sample.b4 VNone 4
           "Linear" KLinear
           [("in_features", VInt 3); ("out_features", VInt 4);
            ("weight", VTensor Sample.w43); ("bias", VTensor Sample.b4)]
           (VInt 3)).
  - discriminate.
  - reflexivity.
  - reflexivity.
  - reflexivity.
  - reflexivity.
Defined.
